(** * Host-side USB streaming test: the orchestrator [RunTest]

  A shallow embedding of [RunTest] from
  [sw/host/tests/usbdev/usbdev_stream/stream_test.cc]: the test descriptor
  interpreter (stream count, per-stream transfer type), the stream-opening
  loop with its rollback, and the polling loop that drives the
  suspend/resume state machine and aggregates progress.

  The streams, the device handle and the clock are external collaborators;
  they are modelled as an interface of operations over an abstract world,
  and every call [RunTest] makes is recorded in a trace of events. *)

From Stdlib Require Import ZArith List Bool Lia Ascii String DecimalString.
From Stdlib Require Import DecimalPos DecimalN.
Import ListNotations.
Local Open Scope Z_scope.

(** ** Machine integers *)

(** [uint8_t] and [uint32_t] values are integers with their wrap-around
  written out. *)
Definition u8 (z : Z) : Z := z mod 256.
Definition u32 (z : Z) : Z := z mod 2 ^ 32.

(** [(int32_t)x] for a [uint32_t] x: two's complement reinterpretation. *)
Definition to_int32 (z : Z) : Z :=
  if u32 z <? 2 ^ 31 then u32 z else u32 z - 2 ^ 32.

Definition is_u8 (z : Z) : Prop := 0 <= z < 256.

(** ** Data model *)

(** Modelled from the spec: the transfer types of [USBDevStream::StreamType]
  (declared in usbdev_stream.h, which is not among the sources); the
  constructors carry the names the source uses. *)
Inductive StreamType : Type :=
| StreamType_Control
| StreamType_Isochronous
| StreamType_Bulk
| StreamType_Interrupt
| StreamType_Serial.

(** Modelled from the spec: the device states of [USBDevice] (declared in
  usb_device.h, which is not among the sources); the four states are the
  four cases of the switch in the polling loop. *)
Inductive DeviceState : Type :=
| StateStreaming
| StateSuspending
| StateSuspended
| StateResuming.

(** The fields of the global [cfg] that [RunTest] reads or passes on. *)
Record TestConfig : Type := mkConfig {
  verbose : bool;
  retrieve : bool;
  check : bool;
  send : bool;
  serial : bool;
  suspending : bool
}.

(** Build-time switches: [STREAMTEST_LIBUSB] selects the libusb-backed
  Bulk/Interrupt stream class; [NDEBUG] compiles [assert] away. *)
Record Build : Type := mkBuild {
  STREAMTEST_LIBUSB : bool;
  NDEBUG : bool
}.

(** The test numbers are enumerators of [USBDevice] whose values are not in
  the sources; they are parameters of the development. *)
Record TestNumbers : Type := mkTestNumbers {
  kUsbTestNumberStreams : Z;
  kUsbTestNumberIso : Z;
  kUsbTestNumberMixed : Z
}.

(** Case labels of one switch are pairwise distinct. *)
Definition distinct_labels (k : TestNumbers) : Prop :=
  kUsbTestNumberStreams k <> kUsbTestNumberIso k /\
  kUsbTestNumberStreams k <> kUsbTestNumberMixed k /\
  kUsbTestNumberIso k <> kUsbTestNumberMixed k.

Definition kTransferBytes : Z := Z.shiftl 0x10 20.

(** Times are in microseconds. *)
Definition kRunInterval : Z := 5 * 1000000.
Definition kSuspendingInterval : Z := 5 * 1000.
Definition kSuspendedInterval : Z := 5 * 1000000.
Definition kResumeInterval : Z := 30 * 1000.

(** ** Test descriptor interpreter *)

Section Interpreter.
Variable K : TestNumbers.

(** [testArg[i]]: the array has four elements. *)
Definition arg (testArg : list Z) (i : nat) : Z := nth i testArg 0.

(** The first switch of [RunTest]: the stream count. *)
Definition nstreams_of (testNum : Z) (testArg : list Z) : Z :=
  if (testNum =? kUsbTestNumberStreams K)
     || (testNum =? kUsbTestNumberIso K)
     || (testNum =? kUsbTestNumberMixed K)
  then Z.land (arg testArg 0) 0xf
  else 2.

(** [transfer_bytes = (transfer_bytes + nstreams - 1) / nstreams] in
    [uint32_t]; a zero divisor is undefined behaviour, here [None]. *)
Definition transfer_share (nstreams : Z) : option Z :=
  if nstreams =? 0 then None
  else Some (u32 (kTransferBytes + nstreams - 1) / nstreams).

Definition mixedTypes (testArg : list Z) : Z :=
  u32 (Z.lor (Z.lor (Z.shiftl (arg testArg 3) 16)
                    (Z.shiftl (arg testArg 2) 8))
             (arg testArg 1)).

(** The inner switch of the Mixed case, on the two-bit code. *)
Definition mixed_code_type (code : Z) : StreamType :=
  if code =? 0 then StreamType_Control
  else if code =? 1 then StreamType_Isochronous
  else if code =? 2 then StreamType_Bulk
  else StreamType_Interrupt.

(** The switch on [testNum] at the head of the opening loop.  The loop runs
    [idx] below [nstreams], at most 15, so the shift count [idx * 2] stays
    below the width of [uint32_t]. *)
Definition stream_type (cfg : TestConfig) (testNum : Z) (testArg : list Z)
    (idx : nat) : StreamType :=
  if testNum =? kUsbTestNumberStreams K then
    if serial cfg && negb (suspending cfg) then StreamType_Serial
    else StreamType_Bulk
  else if testNum =? kUsbTestNumberIso K then StreamType_Isochronous
  else if testNum =? kUsbTestNumberMixed K then
    mixed_code_type
      (Z.land (Z.shiftr (mixedTypes testArg) (Z.of_nat idx * 2)) 3)
  else StreamType_Bulk.

(** The switch on [streamType]: which types have a case that constructs a
    stream object.  Everything else falls to [default]. *)
Definition has_factory (b : Build) (t : StreamType) : bool :=
  match t with
  | StreamType_Serial => true
  | StreamType_Interrupt | StreamType_Bulk => STREAMTEST_LIBUSB b
  | _ => false
  end.

End Interpreter.

(** The two-bit field of the Mixed descriptor, in the spec's words: the
    arguments 3, 2 and 1 put side by side, two bits per stream. *)
Definition spec_mixed_field (testArg : list Z) (i : nat) : Z :=
  Z.land
    (Z.shiftr
       (Z.lor (Z.lor (Z.shiftl (arg testArg 3) 16) (Z.shiftl (arg testArg 2) 8))
              (arg testArg 1))
       (2 * Z.of_nat i))
    3.

Definition spec_code_type (code : Z) : option StreamType :=
  match code with
  | 0 => Some StreamType_Control
  | 1 => Some StreamType_Isochronous
  | 2 => Some StreamType_Bulk
  | 3 => Some StreamType_Interrupt
  | _ => None
  end.

(** ** Calls to the collaborators *)

(** One constructor per call [RunTest] makes on a stream, on the device
    handle or on the clock, with the value the call returned, and one per
    line it prints.  A stream is named by its index: slot [idx] of the
    [streams] array only ever holds the object constructed for [idx]. *)
Inductive Event : Type :=
| EvNewSerial (idx : nat) (transfer_bytes : Z)
| EvNewInt (bulk : bool) (idx : nat) (transfer_bytes : Z)
| EvSerialOpen (idx : nat) (in_port out_port : string) (ok : bool)
| EvIntOpen (idx : nat) (ok : bool)
| EvDelete (idx : nat)
| EvAssertFail
| EvService (idx : nat) (ok : bool)
| EvTransferBytes (idx : nat) (v : Z)
| EvBytesRecvd (idx : nat) (v : Z)
| EvBytesSent (idx : nat) (v : Z)
| EvCompleted (idx : nat) (c : bool)
| EvPause (idx : nat)
| EvResume (idx : nat)
| EvStop (idx : nat)
| EvCurrentState (s : DeviceState)
| EvSetState (s : DeviceState)
| EvSuspend
| EvDevResume
| EvDevService (ok : bool)
| EvTimeUs (t : Z)
| EvElapsedTime (start : Z) (e : Z)
| EvPrint (msg : string)
| EvPrintStreams (nstreams : Z) (transfer_bytes : Z)
| EvPrintType (idx : nat) (t : StreamType)
| EvProgress (total_recv : Z) (bytes_left : Z)
| EvPrintElapsed (us : Z).

(** The collaborators: the device handle, the stream objects (by index), the
    clock of usbdev_utils.h.  Their code is outside [RunTest]; each operation
    may answer anything and may change the world. *)
Record Collab (W : Type) : Type := mkCollab {
  dev_TestNumber : W -> Z;
  dev_TestArg : nat -> W -> Z;
  dev_CurrentState : W -> DeviceState * W;
  dev_SetState : DeviceState -> W -> W;
  dev_Suspend : W -> W;
  dev_Resume : W -> W;
  dev_Service : W -> bool * W;
  serial_new : nat -> Z -> TestConfig -> W -> W;
  serial_Open : nat -> string -> string -> W -> bool * W;
  int_new : bool -> nat -> Z -> TestConfig -> W -> W;
  int_Open : nat -> W -> bool * W;
  stream_delete : nat -> W -> W;
  stream_Service : nat -> W -> bool * W;
  stream_TransferBytes : nat -> W -> Z * W;
  stream_BytesRecvd : nat -> W -> Z * W;
  stream_BytesSent : nat -> W -> Z * W;
  stream_Completed : nat -> W -> bool * W;
  stream_Pause : nat -> W -> W;
  stream_Resume : nat -> W -> W;
  stream_Stop : nat -> W -> W;
  time_us : W -> Z * W;
  elapsed_time : Z -> W -> Z * W
}.

Arguments dev_TestNumber {W} _ _.
Arguments dev_TestArg {W} _ _ _.
Arguments dev_CurrentState {W} _ _.
Arguments dev_SetState {W} _ _ _.
Arguments dev_Suspend {W} _ _.
Arguments dev_Resume {W} _ _.
Arguments dev_Service {W} _ _.
Arguments serial_new {W} _ _ _ _ _.
Arguments serial_Open {W} _ _ _ _ _.
Arguments int_new {W} _ _ _ _ _ _.
Arguments int_Open {W} _ _ _.
Arguments stream_delete {W} _ _ _.
Arguments stream_Service {W} _ _ _.
Arguments stream_TransferBytes {W} _ _ _.
Arguments stream_BytesRecvd {W} _ _ _.
Arguments stream_BytesSent {W} _ _ _.
Arguments stream_Completed {W} _ _ _.
Arguments stream_Pause {W} _ _ _.
Arguments stream_Resume {W} _ _ _.
Arguments stream_Stop {W} _ _ _.
Arguments time_us {W} _ _.
Arguments elapsed_time {W} _ _ _.

Definition u64 (z : Z) : Z := z mod 2 ^ 64.

(** ** A monad of world-passing computations that log their calls *)

Definition M (W A : Type) : Type := W -> A * W * list Event.

Definition ret {W A : Type} (a : A) : M W A := fun w => (a, w, []).

Definition bind {W A B : Type} (m : M W A) (f : A -> M W B) : M W B :=
  fun w =>
    let '(a, w1, t1) := m w in
    let '(b, w2, t2) := f a w1 in
    (b, w2, t1 ++ t2).

Declare Scope run_scope.
Delimit Scope run_scope with run.
Notation "x <- m ;; k" := (bind m (fun x => k))
  (at level 61, m at next level, right associativity) : run_scope.
Notation "m ;; k" := (bind m (fun _ => k))
  (at level 61, right associativity) : run_scope.
Local Open Scope run_scope.

(** A call that returns a value, a call that returns nothing (or whose
    result is dropped), and a line of output. *)
Definition call {W A : Type} (op : W -> A * W) (wrap : A -> A)
    (ev : A -> Event) : M W A :=
  fun w => let (a, w') := op w in (wrap a, w', [ev (wrap a)]).

Definition act {W : Type} (op : W -> W) (ev : Event) : M W unit :=
  fun w => (tt, op w, [ev]).

Definition emit {W : Type} (ev : Event) : M W unit :=
  fun w => (tt, w, [ev]).

(** [for (idx in idxs) body(idx);] *)
Fixpoint for_each {W : Type} (idxs : list nat) (body : nat -> M W unit)
    : M W unit :=
  match idxs with
  | [] => ret tt
  | idx :: rest => body idx ;; for_each rest body
  end.

(** ** The locals of the polling loop *)

(** The per-tick locals. *)
Record TickVars : Type := mkVars {
  total_bytes : Z;
  total_recv : Z;
  total_sent : Z;
  failed : bool;
  done : bool
}.

(** What a tick leaves behind: the state it observed, its locals, and the
    loop-carried [start_time] and [prev_bytes]. *)
Record TickEnd : Type := mkTickEnd {
  tk_state : DeviceState;
  tk_vars : TickVars;
  tk_start_time : Z;
  tk_prev_bytes : Z
}.

(** Subtraction and [std::abs] in [int].  A result outside the range of
    [int] is undefined in C++; the compiled program wraps around in two's
    complement, and so does the model: the difference of [INT_MIN] and 0 is
    [INT_MIN], whose absolute value is again [INT_MIN]. *)
Definition int_sub (a b : Z) : Z := to_int32 (a - b).
Definition int_abs (a : Z) : Z := to_int32 (Z.abs a).

(** [std::abs((int32_t)total_sent - (int32_t)prev_bytes) >= 0x1000 || done] *)
Definition report_due (sent prev : Z) (dn : bool) : bool :=
  (0x1000 <=? int_abs (int_sub (to_int32 sent) (to_int32 prev))) || dn.

Definition bytes_left (total sent : Z) : Z :=
  if sent <? total then u32 (total - sent) else 0.

Inductive Opening : Type :=
| OpenedAll
| OpenFailed
| OpenAborted.

Inductive LoopExit : Type :=
| ExitDone
| ExitFailed
| ExitFuel.

Inductive Outcome : Type :=
| Returned (rc : Z)
| Aborted
| Undefined
| OutOfFuel.

Record LoopRun (W : Type) : Type := mkLoopRun {
  lr_exit : LoopExit;
  lr_ticks : list (TickEnd * list Event);
  lr_world : W;
  lr_start_time : Z
}.

Arguments mkLoopRun {W} _ _ _ _.
Arguments lr_exit {W} _.
Arguments lr_ticks {W} _.
Arguments lr_world {W} _.
Arguments lr_start_time {W} _.

(** A whole run: how it ended, the calls before the polling loop, the ticks
    of the loop with the calls of each, and the calls after the loop. *)
Record Run : Type := mkRun {
  outcome : Outcome;
  setup_trace : list Event;
  ticks : list (TickEnd * list Event);
  final_trace : list Event
}.

Definition run_trace (r : Run) : list Event :=
  setup_trace r ++ List.concat (map snd (ticks r)) ++ final_trace r.

(** ** RunTest *)

Section Orchestrator.
Context {W : Type}.
Variable E : Collab W.
Variable K : TestNumbers.
Variable bld : Build.
Variable cfg : TestConfig.

Definition same {A : Type} (a : A) : A := a.

Definition call_time_us : M W Z := call (time_us E) u64 EvTimeUs.

Definition call_elapsed_time (start : Z) : M W Z :=
  call (elapsed_time E start) u64 (EvElapsedTime start).

(** *** Opening the streams *)

(** The [default] case of the switch on [streamType].  With assertions
    compiled in the process aborts ([None]); with [NDEBUG] the [break] is
    reached and [opened] is still false. *)
Definition open_default : M W (option bool) :=
  if NDEBUG bld then ret (Some false)
  else emit EvAssertFail ;; ret None.

(** The Bulk/Interrupt case, present when [STREAMTEST_LIBUSB] is set. *)
Definition open_int (bulk : bool) (idx : nat) (tb : Z) : M W (option bool) :=
  act (int_new E bulk idx tb cfg) (EvNewInt bulk idx tb) ;;
  opened <- call (int_Open E idx) same (EvIntOpen idx) ;;
  ret (Some opened).

(** The switch on [streamType] for stream [idx]: constructs the stream
    object and opens it.  Returns [opened] and the port names for the next
    stream; [None] when the assertion fails.  [new] throws rather than
    return null, so the tests [if (s)] and [if (interrupt)] always pass.
    [PortNext] stands for the function of that name, which rewrites the
    number in a port name; it is taken as a function on names. *)
Definition open_stream (t : StreamType) (idx : nat) (tb : Z)
    (PortNext : string -> string) (in_port out_port : string)
    : M W (option bool * string * string) :=
  match t with
  | StreamType_Serial =>
      act (serial_new E idx tb cfg) (EvNewSerial idx tb) ;;
      opened <- call (serial_Open E idx in_port out_port) same
                  (EvSerialOpen idx in_port out_port) ;;
      if opened then ret (Some true, PortNext in_port, PortNext out_port)
      else ret (Some false, in_port, out_port)
  | StreamType_Interrupt =>
      r <- (if STREAMTEST_LIBUSB bld then open_int false idx tb
            else open_default) ;;
      ret (r, in_port, out_port)
  | StreamType_Bulk =>
      r <- (if STREAMTEST_LIBUSB bld then open_int true idx tb
            else open_default) ;;
      ret (r, in_port, out_port)
  | _ =>
      r <- open_default ;;
      ret (r, in_port, out_port)
  end.

(** [if (idx > 0U) { do { idx--; delete streams[idx]; } while (idx > 0U); }] *)
Fixpoint rollback (idx : nat) : M W unit :=
  match idx with
  | O => ret tt
  | S j => act (stream_delete E j) (EvDelete j) ;; rollback j
  end.

(** The loop [for (idx = 0; idx < nstreams; idx++)] that initializes all
    streams, from the indices still to do. *)
Fixpoint open_streams (testNum : Z) (testArg : list Z) (tb : Z)
    (PortNext : string -> string) (idxs : list nat)
    (in_port out_port : string) : M W Opening :=
  match idxs with
  | [] => ret OpenedAll
  | idx :: rest =>
      let streamType := stream_type K cfg testNum testArg idx in
      emit (EvPrintType idx streamType) ;;
      r <- open_stream streamType idx tb PortNext in_port out_port ;;
      match r with
      | (None, _, _) => ret OpenAborted
      | (Some opened, in_port', out_port') =>
          if negb opened then
            emit (EvPrint "Failed to open stream") ;;
            rollback idx ;;
            ret OpenFailed
          else
            open_streams testNum testArg tb PortNext rest in_port' out_port'
      end
  end.

(** *** One tick of the polling loop *)

(** The servicing loop of the Streaming case, with its [break]. *)
Fixpoint service_streams (idxs : list nat) (v : TickVars) : M W TickVars :=
  match idxs with
  | [] => ret v
  | idx :: rest =>
      ok <- call (stream_Service E idx) same (EvService idx) ;;
      if negb ok then
        ret (mkVars (total_bytes v) (total_recv v) (total_sent v) true (done v))
      else
        tb <- call (stream_TransferBytes E idx) u32 (EvTransferBytes idx) ;;
        rv <- call (stream_BytesRecvd E idx) u32 (EvBytesRecvd idx) ;;
        sn <- call (stream_BytesSent E idx) u32 (EvBytesSent idx) ;;
        c <- call (stream_Completed E idx) same (EvCompleted idx) ;;
        service_streams rest
          (mkVars (u32 (total_bytes v + tb)) (u32 (total_recv v + rv))
                  (u32 (total_sent v + sn)) (failed v)
                  (if negb c then false else done v))
  end.

Definition pause_all (n : nat) : M W unit :=
  for_each (seq 0 n) (fun idx => act (stream_Pause E idx) (EvPause idx)).

Definition resume_all (n : nat) : M W unit :=
  for_each (seq 0 n) (fun idx => act (stream_Resume E idx) (EvResume idx)).

Definition stop_all (n : nat) : M W unit :=
  for_each (seq 0 n) (fun idx => act (stream_Stop E idx) (EvStop idx)).

(** The transition out of Streaming; [&&] evaluates [elapsed_time] only when
    [cfg.suspending] is set.  Returns the new [start_time]. *)
Definition initiate_suspend (n : nat) (start_time : Z) : M W Z :=
  if suspending cfg then
    e <- call_elapsed_time start_time ;;
    if kRunInterval <=? e then
      emit (EvPrint "Waiting to suspend") ;;
      pause_all n ;;
      if true then
        act (dev_Suspend E) EvSuspend ;;
        call_time_us
      else
        emit (EvPrint "Attempting to resume") ;;
        resume_all n ;;
        emit (EvPrint "Resuming streaming...") ;;
        call_time_us
    else ret start_time
  else ret start_time.

Definition vars0 : TickVars := mkVars 0 0 0 false false.

(** The switch on [dev->CurrentState()]: the tick's locals and the new
    [start_time]. *)
Definition state_case (n : nat) (st : DeviceState) (start_time : Z)
    : M W (TickVars * Z) :=
  match st with
  | StateStreaming =>
      v <- service_streams (seq 0 n) (mkVars 0 0 0 false true) ;;
      start_time' <- initiate_suspend n start_time ;;
      ret (v, start_time')
  | StateSuspending =>
      e <- call_elapsed_time start_time ;;
      if kSuspendingInterval <=? e then
        act (dev_SetState E StateSuspended) (EvSetState StateSuspended) ;;
        t <- call_time_us ;;
        emit (EvPrint "Suspended") ;;
        ret (vars0, t)
      else ret (vars0, start_time)
  | StateSuspended =>
      e <- call_elapsed_time start_time ;;
      if kSuspendedInterval <=? e then
        act (dev_Resume E) EvDevResume ;;
        t <- call_time_us ;;
        ret (vars0, t)
      else ret (vars0, start_time)
  | StateResuming =>
      e <- call_elapsed_time start_time ;;
      if kResumeInterval <=? e then
        resume_all n ;;
        act (dev_SetState E StateStreaming) (EvSetState StateStreaming) ;;
        t <- call_time_us ;;
        ret (vars0, t)
      else ret (vars0, start_time)
  end.

(** The body of the [do ... while (!done)] loop.  A tick whose [failed] is
    set has stopped every stream and returns 3. *)
Definition tick (n : nat) (start_time prev_bytes : Z) : M W TickEnd :=
  st <- call (dev_CurrentState E) same EvCurrentState ;;
  r <- state_case n st start_time ;;
  let (v, start_time') := r in
  failed' <- (if negb (failed v) then
                ok <- call (dev_Service E) same EvDevService ;;
                ret (negb ok)
              else ret (failed v)) ;;
  let v' := mkVars (total_bytes v) (total_recv v) (total_sent v) failed'
                   (done v) in
  if failed' then
    stop_all n ;;
    ret (mkTickEnd st v' start_time' prev_bytes)
  else if report_due (total_sent v) prev_bytes (done v) then
    emit (EvProgress (total_recv v)
                     (bytes_left (total_bytes v) (total_sent v))) ;;
    ret (mkTickEnd st v' start_time' (total_sent v))
  else ret (mkTickEnd st v' start_time' prev_bytes).

(** *** The polling loop *)

Fixpoint main_loop (fuel : nat) (n : nat) (start_time prev_bytes : Z)
    (w : W) : LoopRun W :=
  match fuel with
  | O => mkLoopRun ExitFuel [] w start_time
  | S fuel' =>
      let '(te, w', evs) := tick n start_time prev_bytes w in
      if failed (tk_vars te) then
        mkLoopRun ExitFailed [(te, evs)] w' (tk_start_time te)
      else if done (tk_vars te) then
        mkLoopRun ExitDone [(te, evs)] w' (tk_start_time te)
      else
        let r := main_loop fuel' n (tk_start_time te) (tk_prev_bytes te) w' in
        mkLoopRun (lr_exit r) ((te, evs) :: lr_ticks r) (lr_world r)
                  (lr_start_time r)
  end.

(** *** The whole function *)

Definition read_testArg (w : W) : list Z :=
  map (fun a => u8 (dev_TestArg E a w)) (seq 0 4).

Definition setup (tb : Z) (nstreams : Z) (testNum : Z) (testArg : list Z)
    (PortNext : string -> string) (in_port out_port : string)
    : M W Opening :=
  (if verbose cfg then emit (EvPrintStreams nstreams tb) else ret tt) ;;
  open_streams testNum testArg tb PortNext (seq 0 (Z.to_nat nstreams))
               in_port out_port.

Definition finish (n : nat) (start_time : Z) : M W unit :=
  t <- call_time_us ;;
  stop_all n ;;
  emit (EvPrintElapsed (u64 (t - start_time))).

(** [RunTest] started in world [w]: the run, and the world it leaves. *)
Definition RunTest_in (fuel : nat) (PortNext : string -> string)
    (in_port out_port : string) (w : W) : Run * W :=
  let testNum := u8 (dev_TestNumber E w) in
  let testArg := read_testArg w in
  let nstreams := nstreams_of K testNum testArg in
  match transfer_share nstreams with
  | None => (mkRun Undefined [] [] [], w)
  | Some tb =>
      let '(o, w1, t1) :=
        setup tb nstreams testNum testArg PortNext in_port out_port w in
      match o with
      | OpenAborted => (mkRun Aborted t1 [] [], w1)
      | OpenFailed => (mkRun (Returned 1) t1 [] [], w1)
      | OpenedAll =>
          let '(start_time, w2, t2) :=
            (emit (EvPrint "Streaming...") ;; call_time_us) w1 in
          let lr := main_loop fuel (Z.to_nat nstreams) start_time 0 w2 in
          match lr_exit lr with
          | ExitFuel =>
              (mkRun OutOfFuel (t1 ++ t2) (lr_ticks lr) [], lr_world lr)
          | ExitFailed =>
              (mkRun (Returned 3) (t1 ++ t2) (lr_ticks lr) [], lr_world lr)
          | ExitDone =>
              let '(_, w3, t3) :=
                finish (Z.to_nat nstreams) (lr_start_time lr) (lr_world lr) in
              (mkRun (Returned 0) (t1 ++ t2) (lr_ticks lr) t3, w3)
          end
      end
  end.

Definition RunTest (fuel : nat) (PortNext : string -> string)
    (in_port out_port : string) (w : W) : Run :=
  fst (RunTest_in fuel PortNext in_port out_port w).

Definition RunTest_world (fuel : nat) (PortNext : string -> string)
    (in_port out_port : string) (w : W) : W :=
  snd (RunTest_in fuel PortNext in_port out_port w).

End Orchestrator.

(** ** The log against the collaborators *)

Definition state_eqb (a b : DeviceState) : bool :=
  match a, b with
  | StateStreaming, StateStreaming | StateSuspending, StateSuspending
  | StateSuspended, StateSuspended | StateResuming, StateResuming => true
  | _, _ => false
  end.

(** The world after a call that answers: [None] if the answer logged is not
    the answer the collaborator gives. *)
Definition answered {W A : Type} (eqb : A -> A -> bool) (r : A * W)
    (logged : A) : option W :=
  if eqb (fst r) logged then Some (snd r) else None.

(** The call an event stands for, made on the collaborators in world [w].
    Lines of output and the failed assertion leave the world alone. *)
Definition replay_step {W : Type} (E : Collab W) (cfg : TestConfig)
    (e : Event) (w : W) : option W :=
  match e with
  | EvNewSerial idx tb => Some (serial_new E idx tb cfg w)
  | EvNewInt bulk idx tb => Some (int_new E bulk idx tb cfg w)
  | EvSerialOpen idx in_port out_port ok =>
      answered Bool.eqb (serial_Open E idx in_port out_port w) ok
  | EvIntOpen idx ok => answered Bool.eqb (int_Open E idx w) ok
  | EvDelete idx => Some (stream_delete E idx w)
  | EvService idx ok => answered Bool.eqb (stream_Service E idx w) ok
  | EvTransferBytes idx v =>
      answered (fun a b => u32 a =? b) (stream_TransferBytes E idx w) v
  | EvBytesRecvd idx v =>
      answered (fun a b => u32 a =? b) (stream_BytesRecvd E idx w) v
  | EvBytesSent idx v =>
      answered (fun a b => u32 a =? b) (stream_BytesSent E idx w) v
  | EvCompleted idx c => answered Bool.eqb (stream_Completed E idx w) c
  | EvPause idx => Some (stream_Pause E idx w)
  | EvResume idx => Some (stream_Resume E idx w)
  | EvStop idx => Some (stream_Stop E idx w)
  | EvCurrentState st => answered state_eqb (dev_CurrentState E w) st
  | EvSetState st => Some (dev_SetState E st w)
  | EvSuspend => Some (dev_Suspend E w)
  | EvDevResume => Some (dev_Resume E w)
  | EvDevService ok => answered Bool.eqb (dev_Service E w) ok
  | EvTimeUs t => answered (fun a b => u64 a =? b) (time_us E w) t
  | EvElapsedTime start e =>
      answered (fun a b => u64 a =? b) (elapsed_time E start w) e
  | EvAssertFail | EvPrint _ | EvPrintStreams _ _ | EvPrintType _ _
  | EvProgress _ _ | EvPrintElapsed _ => Some w
  end.

(** A log replayed on the collaborators from world [w]: the world after its
    last call, if every answer in the log is the answer given. *)
Fixpoint replay {W : Type} (E : Collab W) (cfg : TestConfig)
    (t : list Event) (w : W) : option W :=
  match t with
  | [] => Some w
  | e :: t' =>
      match replay_step E cfg e w with
      | Some w' => replay E cfg t' w'
      | None => None
      end
  end.

(** A computation whose log can be replayed: from any world, the calls it
    logs, made on the collaborators in that order, give the answers it
    logged and lead to the world it ends in. *)
Definition faithful {W A : Type} (E : Collab W) (cfg : TestConfig)
    (m : M W A) : Prop :=
  forall w a w' t, m w = (a, w', t) -> replay E cfg t w = Some w'.

(** The collaborators keep a list of the streams that are open, [live]:
    a successful [Open()] puts the stream at its head, [delete] takes it
    out, and constructing a stream or reading the clock leaves it alone. *)
Definition tracks_open {W : Type} (E : Collab W) (cfg : TestConfig)
    (live : W -> list nat) : Prop :=
  (forall idx tb w, live (serial_new E idx tb cfg w) = live w)
  /\ (forall bulk idx tb w, live (int_new E bulk idx tb cfg w) = live w)
  /\ (forall idx in_port out_port w,
        live (snd (serial_Open E idx in_port out_port w))
        = if fst (serial_Open E idx in_port out_port w)
          then idx :: live w else live w)
  /\ (forall idx w,
        live (snd (int_Open E idx w))
        = if fst (int_Open E idx w) then idx :: live w else live w)
  /\ (forall idx w,
        live (stream_delete E idx w) = remove Nat.eq_dec idx (live w))
  /\ (forall w, live (snd (time_us E w)) = live w).

(** ** Reading traces *)

(** The [Open] calls of a trace, with their results. *)
Definition opens (t : list Event) : list (nat * bool) :=
  flat_map (fun e => match e with
                     | EvSerialOpen idx _ _ ok => [(idx, ok)]
                     | EvIntOpen idx ok => [(idx, ok)]
                     | _ => []
                     end) t.

(** The streams destroyed in a trace. *)
Definition deletes (t : list Event) : list nat :=
  flat_map (fun e => match e with EvDelete idx => [idx] | _ => [] end) t.

(** The [Completed] calls of a trace, with their results. *)
Definition completed_calls (t : list Event) : list (nat * bool) :=
  flat_map (fun e => match e with
                     | EvCompleted idx c => [(idx, c)]
                     | _ => []
                     end) t.

(** [f] answered [true] for each of the streams 0 .. n-1, once, in order. *)
Definition all_true (n : nat) : list (nat * bool) :=
  map (fun idx => (idx, true)) (seq 0 n).

Definition is_assert (e : Event) : bool :=
  match e with EvAssertFail => true | _ => false end.


(** Traffic: servicing a stream or the device. *)
Definition is_traffic (e : Event) : bool :=
  match e with
  | EvService _ _ | EvDevService _ => true
  | _ => false
  end.

Definition is_pause_or_suspend (e : Event) : bool :=
  match e with
  | EvPause _ | EvSuspend => true
  | _ => false
  end.

Definition is_resume_or_setstate (e : Event) : bool :=
  match e with
  | EvResume _ | EvSetState _ => true
  | _ => false
  end.

(** The calls the servicing loop makes. *)
Definition is_stream_query (e : Event) : bool :=
  match e with
  | EvService _ _ | EvTransferBytes _ _ | EvBytesRecvd _ _
  | EvBytesSent _ _ | EvCompleted _ _ => true
  | _ => false
  end.

(** The events of the opening phase. *)
Definition is_setup_event (e : Event) : bool :=
  match e with
  | EvNewSerial _ _ | EvNewInt _ _ _ | EvSerialOpen _ _ _ _ | EvIntOpen _ _
  | EvDelete _ | EvAssertFail | EvPrint _ | EvPrintStreams _ _
  | EvPrintType _ _ | EvTimeUs _ => true
  | _ => false
  end.

(** The events of the polling loop and of the code after it. *)
Definition is_loop_event (e : Event) : bool :=
  match e with
  | EvNewSerial _ _ | EvNewInt _ _ _ | EvSerialOpen _ _ _ _ | EvIntOpen _ _
  | EvDelete _ | EvAssertFail | EvPrintStreams _ _ | EvPrintType _ _ => false
  | _ => true
  end.

(** The stream objects that were opened and not destroyed, most recent
    first. *)
Definition live_step (live : list nat) (e : Event) : list nat :=
  match e with
  | EvSerialOpen idx _ _ true => idx :: live
  | EvIntOpen idx true => idx :: live
  | EvDelete idx => remove Nat.eq_dec idx live
  | _ => live
  end.

Definition live_streams (t : list Event) : list nat :=
  fold_left live_step t [].

(** A descriptor is well formed for a build and a configuration when each of
    its streams has a type with a case in the opening switch. *)
Definition well_formed (K : TestNumbers) (bld : Build) (cfg : TestConfig)
    (testNum : Z) (testArg : list Z) : Prop :=
  forall idx : nat,
    (Z.of_nat idx < nstreams_of K testNum testArg)%Z ->
    has_factory bld (stream_type K cfg testNum testArg idx) = true.

(** ** A simulated bench *)

(** A small concrete world on which the orchestrator can be run: a device
    with a state and a test descriptor, a clock that advances each time it
    is consulted, and streams whose answers are fixed per index. *)
Module Bench.

Record World : Type := mkWorld {
  b_testNum : Z;
  b_testArg : list Z;
  b_state : DeviceState;
  b_clock : Z;
  b_open_ok : nat -> bool;
  b_service_ok : nat -> bool;
  b_completed : nat -> bool;
  b_sent : nat -> Z
}.

Definition set_state (s : DeviceState) (w : World) : World :=
  mkWorld (b_testNum w) (b_testArg w) s (b_clock w) (b_open_ok w)
          (b_service_ok w) (b_completed w) (b_sent w).

Definition advance (d : Z) (w : World) : World :=
  mkWorld (b_testNum w) (b_testArg w) (b_state w) (b_clock w + d)
          (b_open_ok w) (b_service_ok w) (b_completed w) (b_sent w).

Definition collab : Collab World :=
  mkCollab World
    b_testNum
    (fun a w => nth a (b_testArg w) 0)
    (fun w => (b_state w, w))
    set_state
    (set_state StateSuspending)
    (set_state StateResuming)
    (fun w => (true, w))
    (fun _ _ _ w => w)
    (fun idx _ _ w => (b_open_ok w idx, w))
    (fun _ _ _ _ w => w)
    (fun idx w => (b_open_ok w idx, w))
    (fun _ w => w)
    (fun idx w => (b_service_ok w idx, w))
    (fun idx w => (0x2000, w))
    (fun idx w => (b_sent w idx, w))
    (fun idx w => (b_sent w idx, w))
    (fun idx w => (b_completed w idx, w))
    (fun _ w => w)
    (fun _ w => w)
    (fun _ w => w)
    (fun w => (b_clock w, advance 1000 w))
    (fun start w => (b_clock w - start, advance 20000 w)).

(** Test numbers for the bench. *)
Definition numbers : TestNumbers := mkTestNumbers 1 2 3.

Definition libusb : Build := mkBuild true false.
Definition serial_only : Build := mkBuild false false.
Definition release : Build := mkBuild true true.

Definition plain : TestConfig := mkConfig false true true true false false.
Definition with_suspend : TestConfig :=
  mkConfig false true true true false true.
Definition with_serial : TestConfig :=
  mkConfig false true true true true false.

Definition next_port (p : string) : string := (p ++ "'")%string.

Definition always (b : bool) (idx : nat) : bool := b.
Definition except (k : nat) (idx : nat) : bool := negb (Nat.eqb idx k).

End Bench.

(** The bench with a registry: the same collaborators, which also keep the
    list of the streams that are open and of the streams that are paused. *)
Module Lab.

Record World : Type := mkLab {
  base : Bench.World;
  opened : list nat;
  paused : list nat
}.

Definition on (b : Bench.World) : World := mkLab b [] [].

Definition lift (f : Bench.World -> Bench.World) (w : World) : World :=
  mkLab (f (base w)) (opened w) (paused w).

Definition lift_call {A : Type} (f : Bench.World -> A * Bench.World)
    (w : World) : A * World :=
  let (a, b) := f (base w) in (a, mkLab b (opened w) (paused w)).

Definition open_with (idx : nat) (f : Bench.World -> bool * Bench.World)
    (w : World) : bool * World :=
  let (ok, b) := f (base w) in
  (ok, mkLab b (if ok then idx :: opened w else opened w) (paused w)).

Definition collab : Collab World :=
  mkCollab World
    (fun w => dev_TestNumber Bench.collab (base w))
    (fun a w => dev_TestArg Bench.collab a (base w))
    (lift_call (dev_CurrentState Bench.collab))
    (fun s => lift (dev_SetState Bench.collab s))
    (lift (dev_Suspend Bench.collab))
    (lift (dev_Resume Bench.collab))
    (lift_call (dev_Service Bench.collab))
    (fun idx tb c => lift (serial_new Bench.collab idx tb c))
    (fun idx in_port out_port =>
       open_with idx (serial_Open Bench.collab idx in_port out_port))
    (fun bulk idx tb c => lift (int_new Bench.collab bulk idx tb c))
    (fun idx => open_with idx (int_Open Bench.collab idx))
    (fun idx w =>
       mkLab (stream_delete Bench.collab idx (base w))
             (remove Nat.eq_dec idx (opened w)) (paused w))
    (fun idx => lift_call (stream_Service Bench.collab idx))
    (fun idx => lift_call (stream_TransferBytes Bench.collab idx))
    (fun idx => lift_call (stream_BytesRecvd Bench.collab idx))
    (fun idx => lift_call (stream_BytesSent Bench.collab idx))
    (fun idx => lift_call (stream_Completed Bench.collab idx))
    (fun idx w =>
       mkLab (stream_Pause Bench.collab idx (base w)) (opened w)
             (idx :: paused w))
    (fun idx w =>
       mkLab (stream_Resume Bench.collab idx (base w)) (opened w)
             (remove Nat.eq_dec idx (paused w)))
    (fun idx => lift (stream_Stop Bench.collab idx))
    (lift_call (time_us Bench.collab))
    (fun start => lift_call (elapsed_time Bench.collab start)).

End Lab.

(** ** The suspend/resume cycle, as a table *)

(** The dwell of each state. *)
Definition dwell (s : DeviceState) : Z :=
  match s with
  | StateStreaming => kRunInterval
  | StateSuspending => kSuspendingInterval
  | StateSuspended => kSuspendedInterval
  | StateResuming => kResumeInterval
  end.

(** The calls a tick makes when it leaves state [s], [t] being the clock
    reading that starts the next interval. *)
Definition transition_calls (n : nat) (s : DeviceState) (t : Z)
    : list Event :=
  match s with
  | StateStreaming =>
      EvPrint "Waiting to suspend"
      :: map EvPause (seq 0 n) ++ [EvSuspend; EvTimeUs t]
  | StateSuspending =>
      [EvSetState StateSuspended; EvTimeUs t; EvPrint "Suspended"]
  | StateSuspended => [EvDevResume; EvTimeUs t]
  | StateResuming =>
      map EvResume (seq 0 n) ++ [EvSetState StateStreaming; EvTimeUs t]
  end.

(** The timer part of a tick in state [s]: nothing (Streaming without
    suspend testing), a reading below the dwell, or a reading that reaches
    it followed by the transition. *)
Definition timer_trace (cfg : TestConfig) (n : nat) (s : DeviceState)
    (start_time start_time' : Z) (t : list Event) : Prop :=
  (s = StateStreaming /\ suspending cfg = false /\ t = []
   /\ start_time' = start_time)
  \/ (exists e, e < dwell s /\ t = [EvElapsedTime start_time e]
                /\ start_time' = start_time)
  \/ (exists e, dwell s <= e
                /\ t = EvElapsedTime start_time e
                       :: transition_calls n s start_time').

(** The end of a tick, after the switch: the device is serviced unless a
    stream failed; a failed tick stops every stream; otherwise the progress
    line is printed when due. *)
Definition tail_trace (n : nat) (v : TickVars) (prev_bytes : Z)
    (te : TickEnd) (t : list Event) : Prop :=
  (failed (tk_vars te) = true /\ tk_prev_bytes te = prev_bytes
   /\ ((failed v = true /\ t = map EvStop (seq 0 n))
       \/ (failed v = false
           /\ t = EvDevService false :: map EvStop (seq 0 n))))
  \/ (failed (tk_vars te) = false /\ failed v = false
      /\ ((report_due (total_sent v) prev_bytes (done v) = true
           /\ t = [EvDevService true;
                   EvProgress (total_recv v)
                              (bytes_left (total_bytes v) (total_sent v))]
           /\ tk_prev_bytes te = total_sent v)
          \/ (report_due (total_sent v) prev_bytes (done v) = false
              /\ t = [EvDevService true]
              /\ tk_prev_bytes te = prev_bytes))).

(** The calls of the timer part and of the tail of a tick. *)
Definition is_timer_event (e : Event) : bool :=
  match e with
  | EvElapsedTime _ _ | EvPrint _ | EvPause _ | EvResume _ | EvSuspend
  | EvDevResume | EvSetState _ | EvTimeUs _ => true
  | _ => false
  end.

Definition is_tail_event (e : Event) : bool :=
  match e with
  | EvDevService _ | EvStop _ | EvProgress _ _ => true
  | _ => false
  end.

(** ** Three sentences of the specification, as they are written *)

(** "[done] becomes true if and only if every stream's [Completed()] is true
    on the same tick", for a tick of [n] streams. *)
Definition done_iff_all_completed (n : nat) (tk : TickEnd * list Event)
    : Prop :=
  done (tk_vars (fst tk)) = true <-> completed_calls (snd tk) = all_true n.


(** "An unrecognized stream type aborts the process before any traffic
    begins", for the run [r] of a test with the given descriptor. *)
Definition aborts_on_unrecognised_type (K : TestNumbers) (bld : Build)
    (cfg : TestConfig) (testNum : Z) (testArg : list Z) (r : Run) : Prop :=
  (exists k : nat,
     Z.of_nat k < nstreams_of K testNum testArg
     /\ has_factory bld (stream_type K cfg testNum testArg k) = false) ->
  outcome r = Aborted /\ existsb is_traffic (run_trace r) = false.

(** [f] answered [true] for each of the streams i .. i+m-1. *)
Definition all_true_from (i m : nat) : list (nat * bool) :=
  map (fun idx => (idx, true)) (seq i m).

(** What opening one stream can log: the construction and the [Open] call
    of a type that has a case, nothing (the [default] case under [NDEBUG],
    which leaves [opened] false), or the failed assertion. *)
Definition open_trace (bld : Build) (t : StreamType) (idx : nat)
    (r : option bool) (tr : list Event) : Prop :=
  match r with
  | Some ok =>
      (has_factory bld t = true /\ opens tr = [(idx, ok)]
       /\ deletes tr = [] /\ existsb is_assert tr = false
       /\ Forall (fun e => is_setup_event e = true) tr)
      \/ (has_factory bld t = false /\ NDEBUG bld = true /\ ok = false
          /\ tr = [])
  | None =>
      has_factory bld t = false /\ NDEBUG bld = false /\ tr = [EvAssertFail]
  end.

(** ** Runs on the bench *)

Module Runs.
Import Bench.
Local Open Scope string_scope.

Definition run_on (bld : Build) (cfg : TestConfig) (fuel : nat) (w : World)
    : Run :=
  RunTest collab numbers bld cfg fuel next_port "/dev/ttyUSB0" "/dev/ttyUSB0"
          w.

Definition tick_on (cfg : TestConfig) (n : nat) (start_time prev_bytes : Z)
    (w : World) : TickEnd * list Event :=
  let '(te, _, evs) := tick collab cfg n start_time prev_bytes w in (te, evs).

(** Two Bulk streams, the device found in Resuming: the run waits out the
    resume dwell, goes back to Streaming and completes. *)
Definition resuming : World :=
  mkWorld 1 [2; 0; 0; 0] StateResuming 0 (always true) (always true)
          (always true) (fun _ => 0x2000).

Definition cycle_run : Run := run_on libusb with_suspend 6 resuming.

(** Two Bulk streams, the first of which fails to be serviced. *)
Definition service_fails : World :=
  mkWorld 1 [2; 0; 0; 0] StateStreaming 0 (always true) (except 0%nat)
          (always false) (fun _ => 0).

Definition failing_run : Run := run_on libusb plain 6 service_fails.

Definition failing_tick : TickEnd * list Event :=
  (mkTickEnd StateStreaming (mkVars 0 0 0 true true) 0 0,
   [EvCurrentState StateStreaming; EvService 0 false; EvStop 0; EvStop 1]).



(** The clock stands at six seconds in Streaming, at 40 ms in Resuming. *)
Definition long_streaming : World :=
  mkWorld 1 [2; 0; 0; 0] StateStreaming 6000000 (always true) (always true)
          (always false) (fun _ => 0).

Definition long_resuming : World :=
  mkWorld 1 [2; 0; 0; 0] StateResuming 40000 (always true) (always true)
          (always false) (fun _ => 0).

(** Three streams of a Mixed test, Bulk, Interrupt, Bulk; the third fails
    to open. *)
Definition third_fails : World :=
  mkWorld 3 [3; 0x2E; 0; 0] StateStreaming 0 (except 2%nat) (always true)
          (always true) (fun _ => 0).

Definition rollback_run : Run := run_on libusb plain 6 third_fails.

(** An Isochronous test: no case of the opening switch takes it. *)
Definition isochronous : World :=
  mkWorld 2 [2; 0; 0; 0] StateStreaming 0 (always true) (always true)
          (always true) (fun _ => 0).

Definition iso_run : Run := run_on libusb plain 6 isochronous.

(** Two streams of a Streams test over serial ports. *)
Definition two_streams : World :=
  mkWorld 1 [2; 0; 0; 0] StateStreaming 0 (always true) (always true)
          (always true) (fun _ => 0x2000).

Definition serial_run : Run := run_on serial_only with_serial 6 two_streams.

(** A Streams test whose first argument has a zero low nibble. *)
Definition no_streams : World :=
  mkWorld 1 [0x10; 0; 0; 0] StateStreaming 0 (always true) (always true)
          (always true) (fun _ => 0).

(** A Mixed test of a Bulk and an Isochronous stream; the Bulk stream
    fails to open. *)
Definition unreached : World :=
  mkWorld 3 [2; 6; 0; 0] StateStreaming 0 (except 0%nat) (always true)
          (always true) (fun _ => 0).

Definition unreached_run : Run := run_on libusb plain 6 unreached.

End Runs.

(** Runs on the bench that keeps a registry. *)
Module LabRuns.
Import Bench.

(** The tick that leaves Streaming, six seconds on the clock. *)
Definition suspend_tick : TickEnd * Lab.World * list Event :=
  tick Lab.collab with_suspend 2 0 0 (Lab.on Runs.long_streaming).

(** The device found in Resuming at 40 ms, both streams paused. *)
Definition paused_resuming : Lab.World :=
  Lab.mkLab Runs.long_resuming [1; 0]%nat [1; 0]%nat.

Definition resume_tick : TickEnd * Lab.World * list Event :=
  tick Lab.collab with_suspend 2 0 0 paused_resuming.

(** [RunTest] on the registry bench, from a world with no stream open. *)
Definition run_in (bld : Build) (cfg : TestConfig) (fuel : nat)
    (b : Bench.World) : Run * Lab.World :=
  RunTest_in Lab.collab numbers bld cfg fuel next_port "/dev/ttyUSB0"
             "/dev/ttyUSB0" (Lab.on b).

(** Three streams of a Mixed test; the third fails to open. *)
Definition rollback_run : Run * Lab.World :=
  run_in libusb plain 6 Runs.third_fails.

End LabRuns.


(** ** Command-line parsing *)

(** A C string is read one character at a time; past its end, and at a NUL
    character, the character read is NUL. *)
Definition code (c : ascii) : Z := Z.of_N (N_of_ascii c).

Definition peek (p : string) : ascii :=
  match p with
  | EmptyString => Ascii.zero
  | String c _ => c
  end.

Definition skip (p : string) : string :=
  match p with
  | EmptyString => EmptyString
  | String _ p' => p'
  end.

(** [isdigit] and [tolower] of the C locale. *)
Definition isdigit (c : ascii) : bool := (48 <=? code c) && (code c <=? 57).

Definition tolower (c : ascii) : ascii :=
  if (65 <=? code c) && (code c <=? 90)
  then ascii_of_N (N_of_ascii c + 32)
  else c.

(** Parse a command line option and return boolean value. *)
Definition GetBool (p : string) : bool :=
  Ascii.eqb (peek p) "1"
  || Ascii.eqb (tolower (peek p)) "y"
  || Ascii.eqb (peek p) "013"
  || Ascii.eqb (peek p) "010"
  || Ascii.eqb (peek p) Ascii.zero.

(** The [do ... while (n < 0x100u && isdigit( *p))] loop of [GetByte], entered
    with [*p] a digit; [n] is a [uint32_t]. *)
Fixpoint GetByte_loop (p : string) (n : Z) : Z * string :=
  match p with
  | EmptyString => (n, p)
  | String c p' =>
      let n' := u32 (n * 10 + code c - 48) in
      if (n' <? 0x100) && isdigit (peek p') then GetByte_loop p' n'
      else (n', p')
  end.

(** Parse a command line option, retrieving a byte and indicating
    success/failure: on success the byte and the rest of the text, on
    failure neither [byte] nor [*pp] is written. *)
Definition GetByte (p : string) : option (Z * string) :=
  if isdigit (peek p) then
    let (n, p') := GetByte_loop p 0 in
    if n <? 0x100 then Some (u8 n, p') else None
  else None.

(** Parse a command line option specifying the bus number and device
    address.  The two references are written as the parse goes: the result
    carries their values on return. *)
Definition GetDevice (p : string) (busNumber devAddress : Z)
    : bool * Z * Z :=
  match GetByte p with
  | None => (false, busNumber, devAddress)
  | Some (bus, p1) =>
      if Ascii.eqb (peek p1) ":" then
        match GetByte (skip p1) with
        | None => (false, bus, devAddress)
        | Some (addr, p2) => (Ascii.eqb (peek p2) Ascii.zero, bus, addr)
        end
      else (false, bus, devAddress)
  end.

(** ** Port names *)

(** What [printf("%u")] writes. *)
Definition decimal (v : Z) : string :=
  NilZero.string_of_uint (N.to_uint (Z.to_N v)).

Definition INT_MAX : Z := 2 ^ 31 - 1.

(** [atoi] on text that starts with a digit: the value of the run of
    digits. *)
Fixpoint atoi_digits (p : string) (acc : Z) : Z :=
  match p with
  | EmptyString => acc
  | String c p' =>
      if isdigit c then atoi_digits p' (acc * 10 + (code c - 48)) else acc
  end.

(** [snprintf(next, n, "%u", v)]: at most [n - 1] characters and the
    terminator; with [n = 0] nothing is written. *)
Definition snprintf_u (old : string) (n : nat) (v : Z) : string :=
  match n with
  | O => old
  | S k => substring 0 k (decimal v)
  end.

(** The run of digits at the head of [p]. *)
Fixpoint digit_run (p : string) : string :=
  match p with
  | EmptyString => EmptyString
  | String c p' => if isdigit c then String c (digit_run p') else EmptyString
  end.

(** The [while] loop of [PortNext] over the text copied to [next], of which
    [n] bytes of the buffer are left.  The text up to the first digit
    stays, the number that starts there is replaced by its successor, and
    what followed the number is gone.  [strncpy] copies no terminator for
    a name of [n] characters or more: reading on at the end of the buffer,
    for the first digit or for the end of the number, is undefined
    ([None]), and so is [atoi] beyond [INT_MAX]. *)
Fixpoint PortNext_scan (n : nat) (next : string) : option string :=
  match n, next with
  | O, _ => None
  | S _, EmptyString => Some EmptyString
  | S k, String c rest =>
      if isdigit c then
        if (String.length (digit_run next) <? n)%nat then
          let port := atoi_digits next 0 in
          if port <=? INT_MAX then Some (snprintf_u next n (u32 (port + 1)))
          else None
        else None
      else option_map (String c) (PortNext_scan k rest)
  end.

(** Construct a modified port name for the next stream, in a buffer of [n]
    bytes: [strncpy(next, curr, n)], then the scan. *)
Definition PortNext (n : nat) (curr : string) : option string :=
  PortNext_scan n curr.

(** [PortNext] as [RunTest] uses it, with buffers of [FILENAME_MAX] bytes.
    Where the C function is undefined the name is left as it was: the
    properties of the port names below are about names on which it is
    defined. *)
Definition PortNext_in (FILENAME_MAX : nat) (curr : string) : string :=
  match PortNext FILENAME_MAX curr with
  | Some next => next
  | None => curr
  end.

(** The text after the run of digits at the head of [p]. *)
Fixpoint after_digits (p : string) : string :=
  match p with
  | EmptyString => EmptyString
  | String c p' => if isdigit c then after_digits p' else p
  end.

(** No character of [p] is a digit. *)
Fixpoint no_digit (p : string) : bool :=
  match p with
  | EmptyString => true
  | String c p' => negb (isdigit c) && no_digit p'
  end.

(** Every character of [p] is a digit. *)
Fixpoint all_digits (p : string) : bool :=
  match p with
  | EmptyString => true
  | String c p' => isdigit c && all_digits p'
  end.

(** ** More readings of a trace *)

(** The streams stopped in a trace. *)
Definition stops (t : list Event) : list nat :=
  flat_map (fun e => match e with EvStop idx => [idx] | _ => [] end) t.

(** The [Service] calls on streams in a trace, with their results. *)
Definition services (t : list Event) : list (nat * bool) :=
  flat_map (fun e => match e with
                     | EvService idx ok => [(idx, ok)]
                     | _ => []
                     end) t.

(** The [Service] calls on the device in a trace, with their results. *)
Definition device_services (t : list Event) : list bool :=
  flat_map (fun e => match e with EvDevService ok => [ok] | _ => [] end) t.

(** The answers of the streams to [TransferBytes], [BytesRecvd] and
    [BytesSent] in a trace. *)
Definition transfer_answers (t : list Event) : list Z :=
  flat_map (fun e => match e with EvTransferBytes _ v => [v] | _ => [] end) t.

Definition recvd_answers (t : list Event) : list Z :=
  flat_map (fun e => match e with EvBytesRecvd _ v => [v] | _ => [] end) t.

Definition sent_answers (t : list Event) : list Z :=
  flat_map (fun e => match e with EvBytesSent _ v => [v] | _ => [] end) t.

Definition sum (l : list Z) : Z := fold_right Z.add 0 l.

(** The serial ports opened in a trace: stream, input port, output port. *)
Definition serial_opens (t : list Event) : list (nat * string * string) :=
  flat_map (fun e => match e with
                     | EvSerialOpen idx in_port out_port _ =>
                         [(idx, in_port, out_port)]
                     | _ => []
                     end) t.

(** The calls that change the pace of the test: pausing or resuming a
    stream, suspending or resuming the device, setting its state. *)
Definition is_transition_call (e : Event) : bool :=
  match e with
  | EvPause _ | EvResume _ | EvSuspend | EvDevResume | EvSetState _ => true
  | _ => false
  end.

(** The names [pre ++ k], ..., [pre ++ (k + i)] are within what [PortNext]
    handles in a buffer of [n] bytes: no digit before the number, numbers
    that [atoi] can read, names shorter than the buffer. *)
Definition numbered_names (n : nat) (pre : string) (k : Z) (i : nat)
    : Prop :=
  no_digit pre = true /\ 0 <= k /\ k + Z.of_nat i <= INT_MAX + 1
  /\ forall j, (j <= i)%nat ->
       (String.length (pre ++ decimal (k + Z.of_nat j)) < n)%nat.


(** ** The program *)

(** What [main] gathers from the command line: the configuration, bus and
    address of the device, and the port names ([None] for a null
    pointer). *)
Record Options : Type := mkOptions {
  o_cfg : TestConfig;
  o_override_flags : bool;
  o_busNumber : Z;
  o_devAddress : Z;
  o_out_port : option string;
  o_in_port : option string
}.

Definition with_cfg (o : Options) (c : TestConfig) (override : bool)
    : Options :=
  mkOptions c override (o_busNumber o) (o_devAddress o) (o_out_port o)
            (o_in_port o).

Definition with_device (o : Options) (bus addr : Z) : Options :=
  mkOptions (o_cfg o) (o_override_flags o) bus addr (o_out_port o)
            (o_in_port o).

(** The text from the third character of an argument on, [&argv[i][2]]. *)
Definition option_value (a : string) : string := skip (skip a).

(** The loop of [main] over [argv[1 ..]].  An error ends the program with
    its exit code, after naming the argument at fault and printing the
    syntax. *)
Fixpoint parse_args (args : list string) (o : Options)
    : Options + (Z * string) :=
  match args with
  | [] => inl o
  | a :: rest =>
      if Ascii.eqb (peek a) "-" then
        let c := o_cfg o in
        let v := GetBool (option_value a) in
        let sw := tolower (peek (skip a)) in
        if Ascii.eqb sw "c" then
          parse_args rest
            (with_cfg o (mkConfig (verbose c) (retrieve c) v (send c)
                                  (serial c) (suspending c)) true)
        else if Ascii.eqb sw "d" then
          match GetDevice (option_value a) (o_busNumber o) (o_devAddress o)
          with
          | (true, bus, addr) => parse_args rest (with_device o bus addr)
          | (false, _, _) => inr (7, a)
          end
        else if Ascii.eqb sw "r" then
          parse_args rest
            (with_cfg o (mkConfig (verbose c) v (check c) (send c)
                                  (serial c) (suspending c)) true)
        else if Ascii.eqb sw "s" then
          parse_args rest
            (with_cfg o (mkConfig (verbose c) (retrieve c) (check c) v
                                  (serial c) (suspending c)) true)
        else if Ascii.eqb sw "t" then
          parse_args rest
            (with_cfg o (mkConfig (verbose c) (retrieve c) (check c) (send c)
                                  v (suspending c)) (o_override_flags o))
        else if Ascii.eqb sw "v" then
          parse_args rest
            (with_cfg o (mkConfig v (retrieve c) (check c) (send c)
                                  (serial c) (suspending c))
                      (o_override_flags o))
        else if Ascii.eqb sw "z" then
          parse_args rest
            (with_cfg o (mkConfig (verbose c) (retrieve c) (check c) (send c)
                                  (serial c) v) (o_override_flags o))
        else if Ascii.eqb sw "-" then
          if String.eqb (option_value a) "device" then
            match rest with
            | [] => inr (6, a)
            | b :: rest' =>
                match GetDevice b (o_busNumber o) (o_devAddress o) with
                | (true, bus, addr) =>
                    parse_args rest' (with_device o bus addr)
                | (false, _, _) => inr (6, b)
                end
            end
          else inr (6, a)
        else inr (6, a)
      else
        match o_out_port o, o_in_port o with
        | None, _ =>
            parse_args rest
              (mkOptions (o_cfg o) (o_override_flags o) (o_busNumber o)
                         (o_devAddress o) (Some a) (o_in_port o))
        | Some _, None =>
            parse_args rest
              (mkOptions (o_cfg o) (o_override_flags o) (o_busNumber o)
                         (o_devAddress o) (o_out_port o) (Some a))
        | Some _, Some _ => inr (7, a)
        end
  end.

(** The locals of [main] before the loop; [cfg] is the global, with its
    [override_flags] cleared. *)
Definition initial_options (cfg : TestConfig) : Options :=
  mkOptions cfg false 0 0 None None.

Definition default_port : string := "/dev/ttyUSB0".

Definition port_or_default (p : option string) : string :=
  match p with
  | Some name => name
  | None => default_port
  end.

Definition kVendorID : Z := 0x18d1.
Definition kProductID : Z := 0x503a.

(** The calls [main] makes on the device handle, and the run of the test. *)
Inductive MainEvent : Type :=
| MvUsage (code : Z) (argument : string)
| MvBanner
| MvInit (verbose : bool) (vendor product devAddress busNumber : Z)
         (ok : bool)
| MvOpen (ok : bool)
| MvReadTestDesc (ok : bool)
| MvRunTest (cfg : TestConfig) (in_port out_port : string) (r : Run)
| MvFin.

(** The life cycle of the device handle, outside [RunTest]. *)
Record DeviceLife (W : Type) : Type := mkDeviceLife {
  dev_Init : bool -> Z -> Z -> Z -> Z -> W -> bool * W;
  dev_Open : W -> bool * W;
  dev_ReadTestDesc : W -> bool * W
}.

Arguments dev_Init {W} _ _ _ _ _ _ _.
Arguments dev_Open {W} _ _.
Arguments dev_ReadTestDesc {W} _ _.

(** [main]: the exit status (or how else the process ended) and the calls
    made.  [cfg] is the global configuration as first constructed. *)
Definition main {W : Type} (E : Collab W) (L : DeviceLife W)
    (K : TestNumbers) (bld : Build) (fuel : nat)
    (PortNext : string -> string) (cfg : TestConfig) (args : list string)
    (w : W) : Outcome * list MainEvent :=
  match parse_args args (initial_options cfg) with
  | inr (rc, a) => (Returned rc, [MvUsage rc a])
  | inl o =>
      let out_port := port_or_default (o_out_port o) in
      let in_port := port_or_default (o_in_port o) in
      let (ok, w1) :=
        dev_Init L (verbose (o_cfg o)) kVendorID kProductID (o_devAddress o)
                 (o_busNumber o) w in
      let init :=
        [MvBanner;
         MvInit (verbose (o_cfg o)) kVendorID kProductID (o_devAddress o)
                (o_busNumber o) ok] in
      if negb ok then (Returned 2, init)
      else
        let (ok, w2) := dev_Open L w1 in
        if negb ok then (Returned 3, init ++ [MvOpen false; MvFin])
        else
          let (ok, w3) := dev_ReadTestDesc L w2 in
          if negb ok then
            (Returned 3, init ++ [MvOpen true; MvReadTestDesc false; MvFin])
          else
            let r := RunTest E K bld (o_cfg o) fuel PortNext in_port out_port
                             w3 in
            let calls :=
              init ++ [MvOpen true; MvReadTestDesc true;
                       MvRunTest (o_cfg o) in_port out_port r] in
            match outcome r with
            | Returned rc => (Returned rc, calls ++ [MvFin])
            | end_of_process => (end_of_process, calls)
            end
  end.

(** ** More runs on the bench *)

Module MoreRuns.
Import Bench.

(** The device found in Suspending, 6 ms on the clock; in Suspended, six
    seconds on the clock. *)
Definition suspending_due : World :=
  mkWorld 1 [2; 0; 0; 0] StateSuspending 6000 (always true) (always true)
          (always false) (fun _ => 0).

Definition suspended_due : World :=
  mkWorld 1 [2; 0; 0; 0] StateSuspended 6000000 (always true) (always true)
          (always false) (fun _ => 0).

(** Three Bulk streams; [Service()] fails on the second. *)
Definition second_fails : World :=
  mkWorld 1 [3; 0; 0; 0] StateStreaming 0 (always true) (except 1%nat)
          (always false) (fun idx => 100 * Z.of_nat (S idx)).

(** Three Bulk streams that have sent 100, 200 and 300 bytes. *)
Definition three_streams : World :=
  mkWorld 1 [3; 0; 0; 0] StateStreaming 0 (always true) (always true)
          (always true) (fun idx => 100 * Z.of_nat (S idx)).

(** A device handle that initialises, opens and reports its descriptor, or
    fails at one of the three. *)
Definition life (init open desc : bool) : DeviceLife World :=
  mkDeviceLife World (fun _ _ _ _ _ w => (init, w)) (fun w => (open, w))
               (fun w => (desc, w)).

End MoreRuns.




(** A [Service()] call, of a stream or of the device, that failed; an
    [Open()] call that failed. *)
Definition is_failed_service (e : Event) : bool :=
  match e with
  | EvService _ false | EvDevService false => true
  | _ => false
  end.

Definition is_failed_open (e : Event) : bool :=
  match e with
  | EvSerialOpen _ _ _ false | EvIntOpen _ false => true
  | _ => false
  end.

(** The arguments of a command line that name ports: those that do not
    begin with a dash, apart from the value that follows [--device]. *)
Fixpoint port_args (args : list string) : list string :=
  match args with
  | [] => []
  | a :: rest =>
      if Ascii.eqb (peek a) "-" then
        if String.eqb a "--device" then
          match rest with
          | [] => []
          | _ :: rest' => port_args rest'
          end
        else port_args rest
      else a :: port_args rest
  end.

(** The port names gathered so far, output port first. *)
Definition ports_set (o : Options) : list string :=
  match o_out_port o, o_in_port o with
  | Some a, Some b => [a; b]
  | Some a, None => [a]
  | None, _ => []
  end.

(** * Properties *)

(** ** The test descriptor interpreter *)

Lemma u8_range (z : Z) : is_u8 (u8 z).
Proof. unfold is_u8, u8. apply Z.mod_pos_bound. lia. Qed.

Lemma read_testArg_u8 {W : Type} (E : Collab W) (w : W) :
  Forall is_u8 (read_testArg E w).
Proof.
  unfold read_testArg. apply Forall_forall. intros x Hx.
  apply in_map_iff in Hx. destruct Hx as [a [<- _]]. apply u8_range.
Qed.

Lemma arg_u8 (testArg : list Z) (i : nat) :
  Forall is_u8 testArg -> is_u8 (arg testArg i).
Proof.
  intros H. unfold arg.
  destruct (Nat.lt_ge_cases i (List.length testArg)) as [Hi|Hi].
  - rewrite Forall_forall in H. apply H. apply nth_In. exact Hi.
  - rewrite nth_overflow by exact Hi. unfold is_u8. lia.
Qed.

(** The low nibble is a count between 0 and 15. *)
Lemma nibble_range (z : Z) : 0 <= Z.land z 0xf < 16.
Proof.
  change 0xf with (Z.ones 4). rewrite Z.land_ones by lia.
  apply Z.mod_pos_bound. lia.
Qed.

Lemma nstreams_of_range (K : TestNumbers) (testNum : Z) (testArg : list Z) :
  0 <= nstreams_of K testNum testArg < 16.
Proof.
  unfold nstreams_of.
  destruct (_ || _); [apply nibble_range | lia].
Qed.

(** Putting a value of [n] bits below a shifted one is an addition. *)
Lemma lor_shiftl_low (hi lo n : Z) :
  0 <= n -> 0 <= lo < 2 ^ n ->
  Z.lor (Z.shiftl hi n) lo = hi * 2 ^ n + lo.
Proof.
  intros Hn Hlo.
  rewrite <- Z.shiftl_mul_pow2 by exact Hn.
  assert (Hland : Z.land (Z.shiftl hi n) lo = 0);
    [|rewrite <- (Z.lxor_lor _ _ Hland); symmetry;
      apply Z.add_nocarry_lxor; exact Hland].
  apply Z.bits_inj'. intros k Hk.
  rewrite Z.land_spec, Z.bits_0.
  destruct (Z.lt_ge_cases k n) as [Hlt|Hge].
  - rewrite Z.shiftl_spec_low by exact Hlt. reflexivity.
  - assert (Hb : Z.testbit lo k = false).
    { destruct (Z.eq_dec lo 0) as [->|Hne]; [apply Z.bits_0|].
      apply Z.bits_above_log2; [lia|].
      apply Z.lt_le_trans with n; [|exact Hge].
      apply Z.log2_lt_pow2; lia. }
    rewrite Hb. apply andb_false_r.
Qed.

(** The three bytes put side by side are a 24-bit number. *)
Lemma mixed_raw_exact (a3 a2 a1 : Z) :
  is_u8 a3 -> is_u8 a2 -> is_u8 a1 ->
  Z.lor (Z.lor (Z.shiftl a3 16) (Z.shiftl a2 8)) a1
  = a3 * 65536 + a2 * 256 + a1.
Proof.
  unfold is_u8. intros H3 H2 H1.
  assert (E1 : Z.lor (Z.shiftl a3 16) (Z.shiftl a2 8)
               = Z.shiftl (a3 * 256 + a2) 8).
  { replace (Z.shiftl a3 16) with (Z.shiftl (Z.shiftl a3 8) 8)
      by (rewrite Z.shiftl_shiftl by lia; reflexivity).
    rewrite <- Z.shiftl_lor. f_equal.
    rewrite (lor_shiftl_low a3 a2 8) by (change (2 ^ 8) with 256; lia).
    reflexivity. }
  rewrite E1.
  rewrite (lor_shiftl_low (a3 * 256 + a2) a1 8)
    by (change (2 ^ 8) with 256; lia).
  change (2 ^ 8) with 256. lia.
Qed.

(** So the conversion to [uint32_t] changes nothing. *)
Lemma mixedTypes_exact (testArg : list Z) :
  Forall is_u8 testArg ->
  mixedTypes testArg =
  arg testArg 3 * 65536 + arg testArg 2 * 256 + arg testArg 1.
Proof.
  intros H.
  pose proof (arg_u8 testArg 1 H) as H1.
  pose proof (arg_u8 testArg 2 H) as H2.
  pose proof (arg_u8 testArg 3 H) as H3.
  unfold mixedTypes, u32.
  rewrite (mixed_raw_exact _ _ _ H3 H2 H1).
  unfold is_u8 in *.
  apply Z.mod_small. change (2 ^ 32) with 4294967296. lia.
Qed.

Lemma mixedTypes_spec_field (testArg : list Z) (i : nat) :
  Forall is_u8 testArg ->
  Z.land (Z.shiftr (mixedTypes testArg) (Z.of_nat i * 2)) 3
  = spec_mixed_field testArg i.
Proof.
  intros H. unfold spec_mixed_field.
  replace (2 * Z.of_nat i) with (Z.of_nat i * 2) by lia.
  rewrite (mixedTypes_exact testArg H).
  rewrite (mixed_raw_exact _ _ _ (arg_u8 testArg 3 H) (arg_u8 testArg 2 H)
             (arg_u8 testArg 1 H)).
  reflexivity.
Qed.

(** A two-bit field is one of the four codes. *)
Lemma two_bits_range (z : Z) : 0 <= Z.land z 3 < 4.
Proof.
  change 3 with (Z.ones 2). rewrite Z.land_ones by lia.
  apply Z.mod_pos_bound. lia.
Qed.

Lemma mixed_code_type_spec (code : Z) :
  0 <= code < 4 -> spec_code_type code = Some (mixed_code_type code).
Proof.
  intros H.
  assert (C : code = 0 \/ code = 1 \/ code = 2 \/ code = 3) by lia.
  destruct C as [->|[->|[->| ->]]]; reflexivity.
Qed.

(** C2. The stream count computed by [RunTest] is the low nibble of
    [testArg[0]] when the test number is Streams, Isochronous or Mixed, and
    2 for every other test number. *)
Theorem C2_stream_count (K : TestNumbers) (testNum : Z) (testArg : list Z) :
  (testNum = kUsbTestNumberStreams K \/ testNum = kUsbTestNumberIso K
   \/ testNum = kUsbTestNumberMixed K ->
   nstreams_of K testNum testArg = Z.land (nth 0 testArg 0) 0xF)
  /\
  (testNum <> kUsbTestNumberStreams K -> testNum <> kUsbTestNumberIso K ->
   testNum <> kUsbTestNumberMixed K ->
   nstreams_of K testNum testArg = 2).
Proof.
  unfold nstreams_of, arg. split.
  - intros [->|[->| ->]]; rewrite !Z.eqb_refl, ?orb_true_r; reflexivity.
  - intros H1 H2 H3.
    apply Z.eqb_neq in H1, H2, H3. rewrite H1, H2, H3. reflexivity.
Qed.

Lemma C2_witness :
  nstreams_of Bench.numbers 3 [0x25; 0; 0; 0] = Z.land 0x25 0xF
  /\ nstreams_of Bench.numbers 9 [0x25; 0; 0; 0] = 2.
Proof.
  split.
  - apply (proj1 (C2_stream_count Bench.numbers 3 [0x25; 0; 0; 0])).
    right; right. reflexivity.
  - apply (proj2 (C2_stream_count Bench.numbers 9 [0x25; 0; 0; 0]));
      discriminate.
Defined.

(** C3. For the Mixed test the type of stream [i] is the two-bit field at
    offset 2*i of the 24-bit value assembled from arguments 3, 2 and 1, with
    0 Control, 1 Isochronous, 2 Bulk, 3 Interrupt; all-zero arguments give
    Control for every stream and a field of 0b11 gives Interrupt. *)
Theorem C3_mixed_decoding (K : TestNumbers) (cfg : TestConfig)
    (testArg : list Z) (i : nat) :
  distinct_labels K ->
  Forall is_u8 testArg ->
  let t := stream_type K cfg (kUsbTestNumberMixed K) testArg i in
  spec_code_type (spec_mixed_field testArg i) = Some t
  /\ spec_mixed_field testArg i
     = (arg testArg 3 * 65536 + arg testArg 2 * 256 + arg testArg 1)
         / 4 ^ Z.of_nat i mod 4
  /\ (arg testArg 1 = 0 -> arg testArg 2 = 0 -> arg testArg 3 = 0 ->
      t = StreamType_Control)
  /\ (spec_mixed_field testArg i = 3 -> t = StreamType_Interrupt).
Proof.
  intros [Hsi [Hsm Him]] Hargs t.
  assert (Ht : t = mixed_code_type (spec_mixed_field testArg i)).
  { unfold t, stream_type.
    destruct (Z.eqb_spec (kUsbTestNumberMixed K) (kUsbTestNumberStreams K))
      as [e|_]; [congruence|].
    destruct (Z.eqb_spec (kUsbTestNumberMixed K) (kUsbTestNumberIso K))
      as [e|_]; [congruence|].
    rewrite Z.eqb_refl.
    rewrite (mixedTypes_spec_field testArg i Hargs). reflexivity. }
  assert (Hfield : spec_mixed_field testArg i
     = (arg testArg 3 * 65536 + arg testArg 2 * 256 + arg testArg 1)
         / 4 ^ Z.of_nat i mod 4).
  { unfold spec_mixed_field.
    rewrite (mixed_raw_exact _ _ _ (arg_u8 testArg 3 Hargs)
               (arg_u8 testArg 2 Hargs) (arg_u8 testArg 1 Hargs)).
    change 3 with (Z.ones 2). rewrite Z.land_ones by lia.
    rewrite Z.shiftr_div_pow2 by lia.
    rewrite Z.pow_mul_r by lia. reflexivity. }
  split; [|split; [exact Hfield|split]].
  - rewrite Ht. apply mixed_code_type_spec.
    unfold spec_mixed_field. apply two_bits_range.
  - intros E1 E2 E3. rewrite Ht, Hfield, E1, E2, E3.
    simpl (0 * _ + _ + _). rewrite Z.div_0_l by (apply Z.pow_nonzero; lia).
    reflexivity.
  - intros E3. rewrite Ht, E3. reflexivity.
Qed.

Lemma C3_witness :
  spec_code_type (spec_mixed_field [3; 0x2E; 0; 0] 1)
  = Some (stream_type Bench.numbers Bench.plain 3 [3; 0x2E; 0; 0] 1)
  /\ spec_mixed_field [3; 0x2E; 0; 0] 1 = 3
  /\ stream_type Bench.numbers Bench.plain 3 [3; 0x2E; 0; 0] 1
     = StreamType_Interrupt.
Proof.
  assert (Hd : distinct_labels Bench.numbers)
    by (repeat split; discriminate).
  assert (Hb : Forall is_u8 [3; 0x2E; 0; 0])
    by (repeat constructor; unfold is_u8; lia).
  destruct (C3_mixed_decoding Bench.numbers Bench.plain [3; 0x2E; 0; 0] 1
              Hd Hb) as (Hcode & _ & _ & Hint).
  split; [exact Hcode|]. split; [reflexivity|].
  apply Hint. reflexivity.
Defined.

(** The division is defined exactly when the stream count is not zero. *)
Lemma transfer_share_defined (nstreams : Z) :
  nstreams <> 0 <-> exists tb, transfer_share nstreams = Some tb.
Proof.
  unfold transfer_share. destruct (Z.eqb_spec nstreams 0) as [->|Hne].
  - split; [congruence | intros [tb Htb]; discriminate].
  - split; [eauto | auto].
Qed.

(** C9, evaluated where it fails.  When the test number is Streams,
    Isochronous or Mixed and the low nibble of the first argument is zero,
    the stream count is zero and the per-stream transfer size divides by it:
    [RunTest] has no defined result. *)
Theorem C9_zero_streams_divides_by_zero {W : Type} (E : Collab W)
    (K : TestNumbers) (bld : Build) (cfg : TestConfig) (fuel : nat)
    (PortNext : string -> string) (in_port out_port : string) (w : W) :
  let testNum := u8 (dev_TestNumber E w) in
  let testArg := read_testArg E w in
  testNum = kUsbTestNumberStreams K \/ testNum = kUsbTestNumberIso K
  \/ testNum = kUsbTestNumberMixed K ->
  Z.land (arg testArg 0) 0xF = 0 ->
  nstreams_of K testNum testArg = 0
  /\ transfer_share (nstreams_of K testNum testArg) = None
  /\ RunTest E K bld cfg fuel PortNext in_port out_port w
     = mkRun Undefined [] [] [].
Proof.
  intros testNum testArg Hnum Hnib.
  assert (Hn : nstreams_of K testNum testArg = 0).
  { unfold nstreams_of.
    destruct Hnum as [->|[->| ->]]; rewrite !Z.eqb_refl, ?orb_true_r;
      exact Hnib. }
  split; [exact Hn|]. split; [rewrite Hn; reflexivity|].
  unfold RunTest, RunTest_in. fold testNum testArg. rewrite Hn. reflexivity.
Qed.

Lemma C9_witness :
  nstreams_of Bench.numbers 1 [0x10; 0; 0; 0] = 0
  /\ transfer_share (nstreams_of Bench.numbers 1 [0x10; 0; 0; 0]) = None
  /\ Runs.run_on Bench.libusb Bench.plain 6 Runs.no_streams
     = mkRun Undefined [] [] [].
Proof.
  apply (C9_zero_streams_divides_by_zero Bench.collab Bench.numbers
           Bench.libusb Bench.plain 6 Bench.next_port "/dev/ttyUSB0"
           "/dev/ttyUSB0" Runs.no_streams).
  - left. reflexivity.
  - reflexivity.
Defined.

(** ** The log is faithful to the collaborators *)

Lemma state_eqb_refl (s : DeviceState) : state_eqb s s = true.
Proof. destruct s; reflexivity. Qed.

Section Replay.
Context {W : Type}.
Variable E : Collab W.
Variable cfg : TestConfig.

Lemma replay_app (t1 t2 : list Event) :
  forall w,
    replay E cfg (t1 ++ t2) w
    = match replay E cfg t1 w with
      | Some w1 => replay E cfg t2 w1
      | None => None
      end.
Proof.
  induction t1 as [|e t1 IH]; intros w; simpl; [reflexivity|].
  destruct (replay_step E cfg e w); [apply IH | reflexivity].
Qed.

Lemma replay_app_inv (t1 t2 : list Event) (w w' : W) :
  replay E cfg (t1 ++ t2) w = Some w' ->
  exists w1, replay E cfg t1 w = Some w1 /\ replay E cfg t2 w1 = Some w'.
Proof.
  rewrite replay_app. destruct (replay E cfg t1 w) as [w1|]; [|discriminate].
  intros H. exists w1. auto.
Qed.

(** A run of calls that answer nothing, one per index. *)
Lemma replay_map (ev : nat -> Event) (op : nat -> W -> W) (l : list nat) :
  (forall i w, replay_step E cfg (ev i) w = Some (op i w)) ->
  forall w,
    replay E cfg (map ev l) w = Some (fold_left (fun w0 i => op i w0) l w).
Proof.
  intros Hev. induction l as [|i l IH]; intros w; simpl; [reflexivity|].
  rewrite Hev. apply IH.
Qed.

Lemma faithful_ret {A : Type} (a : A) : faithful E cfg (ret a).
Proof. intros w a' w' t H. inversion H; subst. reflexivity. Qed.

Lemma faithful_bind {A B : Type} (m : M W A) (f : A -> M W B) :
  faithful E cfg m -> (forall a, faithful E cfg (f a)) ->
  faithful E cfg (bind m f).
Proof.
  intros Hm Hf w b w' t H. unfold bind in H.
  destruct (m w) as [[a w1] t1] eqn:H1.
  destruct (f a w1) as [[b' w2] t2] eqn:H2.
  inversion H; subst. rewrite replay_app, (Hm _ _ _ _ H1).
  exact (Hf _ _ _ _ _ H2).
Qed.

Lemma faithful_emit (ev : Event) :
  (forall w, replay_step E cfg ev w = Some w) -> faithful E cfg (emit ev).
Proof.
  intros Hev w a w' t H. inversion H; subst. simpl. rewrite Hev. reflexivity.
Qed.

Lemma faithful_act (op : W -> W) (ev : Event) :
  (forall w, replay_step E cfg ev w = Some (op w)) ->
  faithful E cfg (act op ev).
Proof.
  intros Hev w a w' t H. inversion H; subst. simpl. rewrite Hev. reflexivity.
Qed.

Lemma faithful_call {A : Type} (op : W -> A * W) (wrap : A -> A)
    (ev : A -> Event) :
  (forall w, replay_step E cfg (ev (wrap (fst (op w)))) w = Some (snd (op w))) ->
  faithful E cfg (call op wrap ev).
Proof.
  intros Hev w a w' t H. unfold call in H. specialize (Hev w).
  destruct (op w) as [a0 w0]. inversion H; subst. simpl in *.
  rewrite Hev. reflexivity.
Qed.

Lemma faithful_for_each (idxs : list nat) (body : nat -> M W unit) :
  (forall idx, faithful E cfg (body idx)) ->
  faithful E cfg (for_each idxs body).
Proof.
  intros Hb. induction idxs as [|i idxs IH]; simpl.
  - apply faithful_ret.
  - apply faithful_bind; [apply Hb | intros _; exact IH].
Qed.

(** The world around a run of calls [ev i], one per index of [l], followed
    by the call [e]. *)
Lemma replay_around (pre post : list Event) (ev : nat -> Event)
    (op : nat -> W -> W) (l : list nat) (e : Event) (f : W -> W)
    (w w' : W) :
  (forall i w0, replay_step E cfg (ev i) w0 = Some (op i w0)) ->
  (forall w0, replay_step E cfg e w0 = Some (f w0)) ->
  replay E cfg (pre ++ map ev l ++ e :: post) w = Some w' ->
  exists w1,
    replay E cfg pre w = Some w1
    /\ replay E cfg post (f (fold_left (fun w0 i => op i w0) l w1)) = Some w'.
Proof.
  intros Hev He H. apply replay_app_inv in H. destruct H as (w1 & Hpre & H).
  exists w1. split; [exact Hpre|].
  rewrite replay_app, (replay_map ev op l Hev) in H. simpl in H.
  rewrite He in H. exact H.
Qed.

(** Collaborators that keep the list of open streams keep it as the log
    says, through the calls of the opening phase. *)
Lemma tracks_open_replay (live : W -> list nat) (t : list Event) :
  tracks_open E cfg live ->
  Forall (fun e => is_setup_event e = true) t ->
  forall w w',
    replay E cfg t w = Some w' -> live w' = fold_left live_step t (live w).
Proof.
  intros (Hns & Hni & Hso & Hio & Hdel & Htime) Hall.
  induction Hall as [|e t He _ IH]; intros w w' H.
  - injection H as <-. reflexivity.
  - simpl in H. destruct (replay_step E cfg e w) as [w1|] eqn:Hstep;
      [|discriminate].
    rewrite (IH _ _ H). simpl. f_equal.
    destruct e; try discriminate He; cbn [replay_step] in Hstep;
      unfold answered in Hstep;
      try (injection Hstep as <-; simpl; auto; fail).
    + specialize (Hso idx in_port out_port w).
      destruct (serial_Open E idx in_port out_port w) as [a w2].
      simpl in *. destruct (Bool.eqb a ok) eqn:Hok; [|discriminate].
      apply Bool.eqb_prop in Hok. injection Hstep as <-. subst a.
      rewrite Hso. destruct ok; reflexivity.
    + specialize (Hio idx w).
      destruct (int_Open E idx w) as [a w2].
      simpl in *. destruct (Bool.eqb a ok) eqn:Hok; [|discriminate].
      apply Bool.eqb_prop in Hok. injection Hstep as <-. subst a.
      rewrite Hio. destruct ok; reflexivity.
    + specialize (Htime w). destruct (time_us E w) as [a w2].
      simpl in *. destruct (u64 a =? t0); [|discriminate].
      injection Hstep as <-. exact Htime.
Qed.

End Replay.

(** One step of a proof that the log of a computation can be replayed:
    by the shape of the computation. *)
Ltac answered_again :=
  intro; cbn [replay_step]; unfold answered, same;
  rewrite ?Bool.eqb_reflx, ?Z.eqb_refl, ?state_eqb_refl; reflexivity.

Ltac faithful_step :=
  match goal with
  | |- faithful _ _ (bind _ _) => apply faithful_bind; [|intro]
  | |- faithful _ _ (ret _) => apply faithful_ret
  | |- faithful _ _ (emit _) => apply faithful_emit; intro; reflexivity
  | |- faithful _ _ (act _ _) => apply faithful_act; intro; reflexivity
  | |- faithful _ _ (call _ _ _) => apply faithful_call; answered_again
  | |- faithful _ _ (for_each _ _) => apply faithful_for_each; intro
  | |- faithful _ _ (if ?b then _ else _) => destruct b
  | |- faithful _ _ (let (_, _) := ?x in _) => destruct x
  | |- faithful _ _ (match ?x with _ => _ end) => destruct x
  end.

Section FaithfulLog.
Context {W : Type}.
Variable E : Collab W.
Variable K : TestNumbers.
Variable bld : Build.
Variable cfg : TestConfig.

Lemma service_streams_faithful (idxs : list nat) :
  forall v, faithful E cfg (service_streams E idxs v).
Proof.
  induction idxs as [|i idxs IH]; intros v; simpl;
    repeat faithful_step; apply IH.
Qed.

Lemma rollback_faithful (idx : nat) : faithful E cfg (rollback E idx).
Proof. induction idx as [|j IH]; simpl; repeat faithful_step; exact IH. Qed.

Lemma open_stream_faithful (t : StreamType) (idx : nat) (tb : Z)
    (PortNext : string -> string) (in_port out_port : string) :
  faithful E cfg (open_stream E bld cfg t idx tb PortNext in_port out_port).
Proof.
  unfold open_stream, open_int, open_default.
  destruct t; repeat faithful_step.
Qed.

Lemma open_streams_faithful (testNum : Z) (testArg : list Z) (tb : Z)
    (PortNext : string -> string) (idxs : list nat) :
  forall in_port out_port,
    faithful E cfg (open_streams E K bld cfg testNum testArg tb PortNext idxs
                                 in_port out_port).
Proof.
  induction idxs as [|i idxs IH]; intros ip op; simpl.
  - apply faithful_ret.
  - apply faithful_bind; [faithful_step|intros _].
    apply faithful_bind; [apply open_stream_faithful|intros [[[ok|] ip'] op']].
    + destruct ok; cbn [negb]; [apply IH|].
      repeat faithful_step. apply rollback_faithful.
    + apply faithful_ret.
Qed.

Lemma setup_faithful (tb nstreams testNum : Z) (testArg : list Z)
    (PortNext : string -> string) (in_port out_port : string) :
  faithful E cfg (setup E K bld cfg tb nstreams testNum testArg PortNext
                        in_port out_port).
Proof.
  unfold setup. apply faithful_bind; [repeat faithful_step|intros _].
  apply open_streams_faithful.
Qed.

Lemma tick_faithful (n : nat) (start_time prev_bytes : Z) :
  faithful E cfg (tick E cfg n start_time prev_bytes).
Proof.
  unfold tick, state_case, initiate_suspend, pause_all, resume_all, stop_all,
    call_elapsed_time, call_time_us.
  repeat (faithful_step || apply service_streams_faithful).
Qed.

Lemma finish_faithful (n : nat) (start_time : Z) :
  faithful E cfg (finish E n start_time).
Proof.
  unfold finish, stop_all, call_time_us. repeat faithful_step.
Qed.

Lemma main_loop_faithful (fuel n : nat) :
  forall st pb w,
    replay E cfg
      (List.concat (map snd (lr_ticks (main_loop E cfg fuel n st pb w)))) w
    = Some (lr_world (main_loop E cfg fuel n st pb w)).
Proof.
  induction fuel as [|fuel IH]; intros st pb w; [reflexivity|].
  simpl. destruct (tick E cfg n st pb w) as [[te w1] evs] eqn:Ht.
  pose proof (tick_faithful _ _ _ _ _ _ _ Ht) as Hf.
  destruct (failed (tk_vars te)); [simpl; rewrite app_nil_r; exact Hf|].
  destruct (done (tk_vars te)); [simpl; rewrite app_nil_r; exact Hf|].
  simpl. rewrite replay_app, Hf. apply IH.
Qed.

(** Every call [RunTest] logs is a call it makes: the log of a run,
    replayed on the collaborators from the world the run started in, gives
    the answers logged and ends in the world the run leaves. *)
Lemma RunTest_faithful (fuel : nat) (PortNext : string -> string)
    (in_port out_port : string) (w : W) :
  replay E cfg (run_trace (RunTest E K bld cfg fuel PortNext in_port
                                   out_port w)) w
  = Some (RunTest_world E K bld cfg fuel PortNext in_port out_port w).
Proof.
  unfold RunTest, RunTest_world, RunTest_in, run_trace.
  destruct (transfer_share _) as [tb|]; [|reflexivity].
  destruct (setup E K bld cfg tb _ _ _ PortNext in_port out_port w)
    as [[o w1] t1] eqn:Hsetup.
  pose proof (setup_faithful _ _ _ _ _ _ _ _ _ _ _ Hsetup) as Hs.
  destruct o; try (simpl; rewrite app_nil_r; exact Hs).
  unfold bind, emit, call_time_us, call.
  destruct (time_us E w1) as [tu w2] eqn:Htu.
  set (n := Z.to_nat _).
  pose proof (main_loop_faithful fuel n (u64 tu) 0 w2) as Hl.
  set (lr := main_loop E cfg fuel n (u64 tu) 0 w2) in *.
  assert (Hpre : replay E cfg (t1 ++ [EvPrint "Streaming..."]
                                  ++ [EvTimeUs (u64 tu)]) w
                 = Some w2).
  { rewrite replay_app, Hs. simpl. unfold answered. rewrite Htu. simpl.
    rewrite Z.eqb_refl. reflexivity. }
  destruct (lr_exit lr).
  - destruct (finish E n (lr_start_time lr) (lr_world lr)) as [[u w3] t3]
      eqn:Hfin.
    pose proof (finish_faithful _ _ _ _ _ _ Hfin) as Hf.
    cbn [fst snd outcome setup_trace ticks final_trace].
    rewrite replay_app, Hpre, replay_app, Hl. exact Hf.
  - cbn [fst snd outcome setup_trace ticks final_trace].
    rewrite replay_app, Hpre, app_nil_r. exact Hl.
  - cbn [fst snd outcome setup_trace ticks final_trace].
    rewrite replay_app, Hpre, app_nil_r. exact Hl.
Qed.

End FaithfulLog.

(** ** Facts about traces *)

Lemma Forall_map_all {A B : Type} (P : B -> Prop) (f : A -> B) (l : list A) :
  (forall a, P (f a)) -> Forall P (map f l).
Proof. intros H. induction l; simpl; constructor; auto. Qed.

Lemma completed_calls_app (t1 t2 : list Event) :
  completed_calls (t1 ++ t2) = completed_calls t1 ++ completed_calls t2.
Proof. unfold completed_calls. apply flat_map_app. Qed.

Lemma completed_calls_none (t : list Event) :
  Forall (fun e => match e with EvCompleted _ _ => False | _ => True end) t ->
  completed_calls t = [].
Proof.
  induction 1 as [|e t He _ IH]; [reflexivity|].
  simpl. rewrite IH. destruct e; simpl; try reflexivity. contradiction.
Qed.

Section LoopFacts.
Context {W : Type}.
Variable E : Collab W.
Variable cfg : TestConfig.

Lemma for_each_act (op : nat -> W -> W) (ev : nat -> Event)
    (idxs : list nat) (w : W) :
  for_each idxs (fun idx => act (op idx) (ev idx)) w
  = (tt, fold_left (fun w idx => op idx w) idxs w, map ev idxs).
Proof.
  revert w. induction idxs as [|i idxs IH]; intros w; [reflexivity|].
  simpl. unfold bind at 1. unfold act at 1. rewrite IH. reflexivity.
Qed.

(** The servicing loop calls only the streams; while no [Service] fails it
    asks each stream for [Completed] once, in order, and [done] is the
    conjunction of the answers. *)
Lemma service_streams_spec (idxs : list nat) (v : TickVars) (w : W) :
  forall v' w' t,
    service_streams E idxs v w = (v', w', t) ->
    Forall (fun e => is_stream_query e = true) t
    /\ (failed v = false -> failed v' = false ->
        map fst (completed_calls t) = idxs
        /\ done v' = done v && forallb snd (completed_calls t)).
Proof.
  revert v w. induction idxs as [|i idxs IH]; intros v w v' w' t H.
  - inversion H; subst. split; [constructor|].
    intros _ _. simpl. rewrite andb_true_r. auto.
  - simpl in H. unfold bind, call in H.
    destruct (stream_Service E i w) as [ok w1].
    destruct ok; simpl in H.
    + destruct (stream_TransferBytes E i w1) as [tb w2].
      destruct (stream_BytesRecvd E i w2) as [rv w3].
      destruct (stream_BytesSent E i w3) as [sn w4].
      destruct (stream_Completed E i w4) as [c w5].
      match type of H with
      | context [service_streams E idxs ?v0 w5] =>
          specialize (IH v0 w5);
          destruct (service_streams E idxs v0 w5) as [[v1 w6] t1]
      end.
      specialize (IH _ _ _ eq_refl). destruct IH as [IHq IHd].
      inversion H; subst; clear H.
      split.
      * repeat constructor. exact IHq.
      * intros Hf Hf'. simpl in IHd. specialize (IHd Hf Hf').
        destruct IHd as [IHm IHdone].
        unfold same. simpl. rewrite IHm. split; [reflexivity|].
        rewrite IHdone. destruct c; simpl; [reflexivity|].
        destruct (done v); reflexivity.
    + inversion H; subst; clear H. split; [repeat constructor|].
      simpl. intros _ Hf. discriminate.
Qed.
End LoopFacts.

Section TickFacts.
Context {W : Type}.
Variable E : Collab W.
Variable cfg : TestConfig.

Lemma initiate_suspend_spec (n : nat) (st : Z) (w : W) :
  forall st' w' t,
    initiate_suspend E cfg n st w = (st', w', t) ->
    timer_trace cfg n StateStreaming st st' t.
Proof.
  intros st' w' t H. unfold initiate_suspend in H.
  destruct (suspending cfg) eqn:Hs.
  - unfold bind, call_elapsed_time, call in H.
    destruct (elapsed_time E st w) as [e w1].
    destruct (Z.leb_spec kRunInterval (u64 e)) as [Hle|Hlt].
    + unfold pause_all, emit in H. cbv beta iota in H.
      rewrite for_each_act in H.
      unfold call_time_us, call, act in H. cbv beta iota in H.
      destruct (time_us E _) as [tu w2].
      inversion H; subst; clear H.
      right; right. exists (u64 e). split; [exact Hle|]. simpl.
      reflexivity.
    + inversion H; subst; clear H.
      right; left. exists (u64 e). auto.
  - inversion H; subst; clear H. left. auto.
Qed.

(** The three waiting states have one shape: read the elapsed time and, if
    it has reached the dwell, make the transition and restart the clock. *)
Ltac waiting_state H :=
  exists (@nil Event);
  unfold bind, call_elapsed_time, call in H;
  let e := fresh "e" in
  let w1 := fresh "w" in
  let Hle := fresh "Hle" in
  match type of H with
  | context [elapsed_time ?E0 ?st0 ?w0] =>
      destruct (elapsed_time E0 st0 w0) as [e w1]
  end;
  match type of H with
  | context [?k <=? u64 e] => destruct (Z.leb_spec k (u64 e)) as [Hle|Hle]
  end;
  [ unfold resume_all in H; rewrite ?for_each_act in H;
    unfold call_time_us, call, act, emit in H;
    match type of H with
    | context [time_us ?E0 ?w2] => destruct (time_us E0 w2)
    end;
    simpl in H; inversion H; subst; clear H;
    eexists; split; [reflexivity|]; split;
    [ right; right; exists (u64 e); split; [exact Hle|];
      simpl; rewrite ?app_nil_r; reflexivity
    | split; [auto | discriminate] ]
  | inversion H; subst; clear H;
    eexists; split; [reflexivity|]; split;
    [ right; left; exists (u64 e); auto
    | split; [auto | discriminate] ] ].

Lemma state_case_spec (n : nat) (s : DeviceState) (st : Z) (w : W) :
  forall v st' w' body,
    state_case E cfg n s st w = (v, st', w', body) ->
    exists svc tm,
      body = svc ++ tm
      /\ timer_trace cfg n s st st' tm
      /\ (s <> StateStreaming -> svc = [] /\ v = vars0)
      /\ (s = StateStreaming ->
          exists w1,
            service_streams E (seq 0 n) (mkVars 0 0 0 false true) w
            = (v, w1, svc)).
Proof.
  intros v st' w' body H. destruct s; simpl in H;
    [|waiting_state H | waiting_state H | waiting_state H].
  unfold bind at 1 in H.
  destruct (service_streams E (seq 0 n) _ w) as [[v1 w1] svc] eqn:Hsvc.
  unfold bind in H.
  destruct (initiate_suspend E cfg n st w1) as [[st1 w2] tm] eqn:Htm.
  simpl in H. inversion H; subst; clear H.
  exists svc, tm. rewrite ?app_nil_r.
  split; [reflexivity|]. split; [eapply initiate_suspend_spec; eauto|].
  split; [congruence|]. intros _. exists w1. reflexivity.
Qed.

(** The anatomy of a tick: the state is read once, first; then the case of
    that state runs; then the tail. *)
Lemma tick_spec (n : nat) (st pb : Z) (w : W) :
  forall te w' evs,
    tick E cfg n st pb w = (te, w', evs) ->
    exists w1 v w2 body tail,
      dev_CurrentState E w = (tk_state te, w1)
      /\ state_case E cfg n (tk_state te) st w1
         = (v, tk_start_time te, w2, body)
      /\ evs = EvCurrentState (tk_state te) :: body ++ tail
      /\ total_bytes (tk_vars te) = total_bytes v
      /\ total_recv (tk_vars te) = total_recv v
      /\ total_sent (tk_vars te) = total_sent v
      /\ done (tk_vars te) = done v
      /\ tail_trace n v pb te tail.
Proof.
  intros te w' evs H. unfold tick in H.
  unfold bind at 1 in H. unfold call at 1 in H.
  destruct (dev_CurrentState E w) as [s w1].
  unfold bind at 1 in H. unfold same in H.
  destruct (state_case E cfg n s st w1) as [[[v st1] w2] body] eqn:Hcase.
  unfold bind at 1 in H.
  destruct (failed v) eqn:Hfv; simpl in H.
  - unfold stop_all, bind in H. rewrite for_each_act in H.
    unfold ret in H. inversion H; subst; clear H. simpl.
    exists w1, v, w2, body. eexists.
    repeat (split; [reflexivity || eassumption|]).
    rewrite ?app_nil_r.
    left. simpl. repeat split. left. auto.
  - unfold bind at 1 in H. unfold call in H.
    destruct (dev_Service E w2) as [ok w3]. unfold same in H.
    destruct ok; simpl in H.
    + destruct (report_due (total_sent v) pb (done v)) eqn:Hrep.
      * unfold bind, emit, ret in H. inversion H; subst; clear H. simpl.
        exists w1, v, w2, body. eexists.
        repeat (split; [reflexivity || eassumption|]).
        right. simpl. repeat split; auto.
      * unfold ret in H. inversion H; subst; clear H. simpl.
        exists w1, v, w2, body. eexists.
        repeat (split; [reflexivity || eassumption|]).
        right. simpl. repeat split; auto.
    + unfold stop_all, bind in H. rewrite for_each_act in H.
      unfold ret in H. inversion H; subst; clear H. simpl.
      exists w1, v, w2, body. eexists.
      repeat (split; [reflexivity || eassumption|]).
      rewrite ?app_nil_r.
      left. simpl. repeat split. right. auto.
Qed.

End TickFacts.

Section TickAnatomy.
Context {W : Type}.
Variable E : Collab W.
Variable cfg : TestConfig.

Lemma timer_trace_events (n : nat) (s : DeviceState) (st st' : Z)
    (t : list Event) :
  timer_trace cfg n s st st' t ->
  Forall (fun e => is_timer_event e = true) t.
Proof.
  intros [[_ [_ [-> _]]]|[[e [_ [-> _]]]|[e [_ ->]]]].
  - constructor.
  - repeat constructor.
  - constructor; [reflexivity|].
    destruct s; simpl; repeat constructor;
      apply Forall_app; split;
      try (apply Forall_map_all; reflexivity); repeat constructor.
Qed.

Lemma tail_trace_events (n : nat) (v : TickVars) (pb : Z) (te : TickEnd)
    (t : list Event) :
  tail_trace n v pb te t ->
  Forall (fun e => is_tail_event e = true) t.
Proof.
  intros [[_ [_ [[_ ->]|[_ ->]]]]|[_ [_ [[_ [-> _]]|[_ [-> _]]]]]];
    repeat constructor; apply Forall_map_all; reflexivity.
Qed.

(** A tick, taken apart: the state read, the servicing calls (none unless
    the state is Streaming), the timer part, the tail. *)
Lemma tick_anatomy (n : nat) (st pb : Z) (w : W) :
  forall te w' evs,
    tick E cfg n st pb w = (te, w', evs) ->
    exists v svc tm tail,
      evs = EvCurrentState (tk_state te) :: svc ++ tm ++ tail
      /\ Forall (fun e => is_stream_query e = true) svc
      /\ timer_trace cfg n (tk_state te) st (tk_start_time te) tm
      /\ tail_trace n v pb te tail
      /\ total_sent (tk_vars te) = total_sent v
      /\ done (tk_vars te) = done v
      /\ (tk_state te <> StateStreaming -> svc = [] /\ v = vars0)
      /\ (tk_state te = StateStreaming -> failed v = false ->
          map fst (completed_calls svc) = seq 0 n
          /\ done v = forallb snd (completed_calls svc)).
Proof.
  intros te w' evs H.
  destruct (tick_spec E cfg n st pb w te w' evs H)
    as (w1 & v & w2 & body & tail & _ & Hcase & Hevs & _ & _ & Hsent
        & Hdone & Htail).
  destruct (state_case_spec E cfg n _ st w1 _ _ _ _ Hcase)
    as (svc & tm & Hbody & Htm & Hother & Hstream).
  exists v, svc, tm, tail.
  split; [rewrite Hevs, Hbody, <- app_assoc; reflexivity|].
  split.
  { destruct (tk_state te) eqn:Hs;
      try (destruct Hother as [-> _]; [discriminate|constructor]).
    destruct (Hstream eq_refl) as [w3 Hsvc].
    apply (service_streams_spec E _ _ _ _ _ _ Hsvc). }
  repeat (split; [assumption|]).
  intros Hs Hfv. destruct (Hstream Hs) as [w3 Hsvc].
  destruct (service_streams_spec E _ _ _ _ _ _ Hsvc) as [_ Hd].
  apply (Hd eq_refl Hfv).
Qed.

End TickAnatomy.

(** ** The polling loop and the whole run *)

Section RunFacts.
Context {W : Type}.
Variable E : Collab W.
Variable K : TestNumbers.
Variable bld : Build.
Variable cfg : TestConfig.

(** Every tick the loop records is a run of [tick]. *)
Lemma main_loop_ticks (fuel n : nat) :
  forall st pb w te evs,
    In (te, evs) (lr_ticks (main_loop E cfg fuel n st pb w)) ->
    exists st' pb' w0 w1, tick E cfg n st' pb' w0 = (te, w1, evs).
Proof.
  induction fuel as [|fuel IH]; intros st pb w te evs H; [contradiction|].
  simpl in H.
  destruct (tick E cfg n st pb w) as [[te0 w1] evs0] eqn:Ht.
  destruct (failed (tk_vars te0)).
  - destruct H as [H|[]]. inversion H; subst. eauto.
  - destruct (done (tk_vars te0)).
    + destruct H as [H|[]]. inversion H; subst. eauto.
    + destruct H as [H|H]; [inversion H; subst; eauto|].
      eapply IH; eauto.
Qed.

(** The loop leaves through [while (!done)] only after a tick that did not
    fail and whose [done] is set; no earlier tick had [done] set. *)
Lemma main_loop_done (fuel n : nat) :
  forall st pb w,
    lr_exit (main_loop E cfg fuel n st pb w) = ExitDone ->
    exists pre te evs,
      lr_ticks (main_loop E cfg fuel n st pb w) = pre ++ [(te, evs)]
      /\ failed (tk_vars te) = false
      /\ done (tk_vars te) = true
      /\ Forall (fun p => done (tk_vars (fst p)) = false) pre.
Proof.
  induction fuel as [|fuel IH]; intros st pb w H; [discriminate|].
  simpl in *.
  destruct (tick E cfg n st pb w) as [[te0 w1] evs0] eqn:Ht.
  destruct (failed (tk_vars te0)) eqn:Hf; [discriminate|].
  destruct (done (tk_vars te0)) eqn:Hd.
  - exists [], te0, evs0. simpl. auto.
  - simpl in H. destruct (IH _ _ _ H) as (pre & te & evs & Hl & Hfl & Hdn & Hp).
    exists ((te0, evs0) :: pre), te, evs. simpl. rewrite Hl.
    repeat split; auto.
Qed.

Lemma main_loop_not_done (fuel n : nat) :
  forall st pb w,
    lr_exit (main_loop E cfg fuel n st pb w) <> ExitDone ->
    forall te evs,
      In (te, evs) (lr_ticks (main_loop E cfg fuel n st pb w)) ->
      failed (tk_vars te) = true \/ done (tk_vars te) = false.
Proof.
  induction fuel as [|fuel IH]; intros st pb w H te evs Hin; [contradiction|].
  simpl in *.
  destruct (tick E cfg n st pb w) as [[te0 w1] evs0] eqn:Ht.
  destruct (failed (tk_vars te0)) eqn:Hf.
  - destruct Hin as [Hin|[]]. inversion Hin; subst. auto.
  - destruct (done (tk_vars te0)) eqn:Hd; [contradiction H; reflexivity|].
    destruct Hin as [Hin|Hin]; [inversion Hin; subst; auto|].
    eapply IH; eauto.
Qed.

(** The shapes a run can take. *)
Lemma RunTest_inv (fuel : nat) (PortNext : string -> string)
    (in_port out_port : string) (w : W) :
  let testNum := u8 (dev_TestNumber E w) in
  let testArg := read_testArg E w in
  let nstreams := nstreams_of K testNum testArg in
  let r := RunTest E K bld cfg fuel PortNext in_port out_port w in
  (nstreams = 0 /\ r = mkRun Undefined [] [] [])
  \/ (1 <= nstreams /\
      exists tb o w1 t1,
        transfer_share nstreams = Some tb
        /\ setup E K bld cfg tb nstreams testNum testArg PortNext in_port
                 out_port w = (o, w1, t1)
        /\ ((o = OpenAborted /\ r = mkRun Aborted t1 [] [])
            \/ (o = OpenFailed /\ r = mkRun (Returned 1) t1 [] [])
            \/ (o = OpenedAll /\
                exists start w2,
                  let lr := main_loop E cfg fuel (Z.to_nat nstreams) start 0
                                      w2 in
                  setup_trace r
                  = t1 ++ [EvPrint "Streaming..."; EvTimeUs start]
                  /\ ticks r = lr_ticks lr
                  /\ ((lr_exit lr = ExitFuel /\ outcome r = OutOfFuel
                       /\ final_trace r = [])
                      \/ (lr_exit lr = ExitFailed /\ outcome r = Returned 3
                          /\ final_trace r = [])
                      \/ (lr_exit lr = ExitDone /\ outcome r = Returned 0
                          /\ exists t,
                               final_trace r
                               = EvTimeUs t
                                 :: map EvStop (seq 0 (Z.to_nat nstreams))
                                 ++ [EvPrintElapsed
                                       (u64 (t - lr_start_time lr))]))))).
Proof.
  intros testNum testArg nstreams r.
  pose proof (nstreams_of_range K testNum testArg) as Hr.
  fold nstreams in Hr.
  unfold r, RunTest, RunTest_in. fold testNum testArg nstreams.
  unfold transfer_share.
  destruct (Z.eqb_spec nstreams 0) as [Hz|Hnz]; [left; auto|].
  right. split; [lia|].
  destruct (setup E K bld cfg _ nstreams testNum testArg PortNext in_port
              out_port w) as [[o w1] t1] eqn:Hsetup.
  eexists _, o, w1, t1. split; [reflexivity|]. split; [exact Hsetup|].
  destruct o; [right; right | right; left; auto | left; auto].
  split; [reflexivity|].
  unfold bind, emit, call_time_us, call.
  destruct (time_us E w1) as [tu w2].
  exists (u64 tu), w2. cbv zeta.
  destruct (lr_exit (main_loop E cfg fuel (Z.to_nat nstreams) (u64 tu) 0 w2))
    eqn:Hexit.
  - unfold finish, bind, call_time_us, call, stop_all, emit.
    destruct (time_us E _) as [tf w3].
    rewrite for_each_act. simpl.
    split; [reflexivity|]. split; [reflexivity|].
    right; right. split; [reflexivity|]. split; [reflexivity|].
    exists (u64 tf). reflexivity.
  - simpl. split; [reflexivity|]. split; [reflexivity|].
    right; left. auto.
  - simpl. split; [reflexivity|]. split; [reflexivity|].
    left. auto.
Qed.

(** Every tick of a run is a run of [tick], with the stream count of the
    descriptor, which is at least 1. *)
Lemma RunTest_ticks (fuel : nat) (PortNext : string -> string)
    (in_port out_port : string) (w : W) (te : TickEnd) (evs : list Event) :
  let n := Z.to_nat (nstreams_of K (u8 (dev_TestNumber E w))
                                 (read_testArg E w)) in
  In (te, evs)
     (ticks (RunTest E K bld cfg fuel PortNext in_port out_port w)) ->
  (1 <= n)%nat
  /\ exists st pb w0 w1, tick E cfg n st pb w0 = (te, w1, evs).
Proof.
  intros n Hin. unfold n.
  destruct (RunTest_inv fuel PortNext in_port out_port w)
    as [[_ Hr]|[Hn (tb & o & w1 & t1 & _ & _ & Hcases)]].
  - rewrite Hr in Hin. contradiction.
  - destruct Hcases as [[_ Hr]|[[_ Hr]|[_ (start & w2 & Hloop)]]];
      try (rewrite Hr in Hin; contradiction).
    cbv zeta in Hloop. destruct Hloop as (_ & Hticks & _).
    rewrite Hticks in Hin. split; [lia|].
    eapply main_loop_ticks; eauto.
Qed.

End RunFacts.

(** ** Properties of a tick *)

Lemma existsb_outside {A : Type} (p c : A -> bool) (l : list A) :
  (forall a, c a = true -> p a = false) ->
  Forall (fun a => c a = true) l -> existsb p l = false.
Proof.
  intros Hc H. induction H as [|a l Ha _ IH]; [reflexivity|].
  simpl. rewrite (Hc a Ha), IH. reflexivity.
Qed.

Lemma not_in_outside {A : Type} (c : A -> bool) (l : list A) (a : A) :
  Forall (fun x => c x = true) l -> c a = false -> ~ In a l.
Proof.
  intros H Ha Hin. rewrite Forall_forall in H. apply H in Hin. congruence.
Qed.

Lemma Forall_outside {A : Type} (p c : A -> bool) (l : list A) :
  (forall a, c a = true -> p a = false) ->
  Forall (fun a => c a = true) l -> Forall (fun a => p a = false) l.
Proof. intros Hc H. eapply Forall_impl; [|exact H]. exact Hc. Qed.

Lemma completed_calls_outside (c : Event -> bool) (t : list Event) :
  (forall idx b, c (EvCompleted idx b) = false) ->
  Forall (fun e => c e = true) t -> completed_calls t = [].
Proof.
  intros Hc H. apply completed_calls_none.
  eapply Forall_impl; [|exact H]. intros e He.
  destruct e; try exact I. rewrite Hc in He. discriminate.
Qed.

(** When each stream was asked once, all answered [true] exactly when the
    list of answers is the all-true one. *)
Lemma flags_all_true (l : list (nat * bool)) (idxs : list nat) :
  map fst l = idxs ->
  forallb snd l = true <-> l = map (fun idx => (idx, true)) idxs.
Proof.
  intros <-. induction l as [|[i b] l IH]; simpl; [tauto|].
  rewrite andb_true_iff, IH. split.
  - intros [Hb Hl]. simpl in Hb. subst b. f_equal. exact Hl.
  - intros H. injection H as Hb Hl. subst b. auto.
Qed.

Lemma transition_calls_events (n : nat) (s : DeviceState) (t : Z) :
  Forall (fun e => match e with EvElapsedTime _ _ => False | _ => True end)
         (transition_calls n s t).
Proof.
  destruct s; simpl; repeat constructor;
    apply Forall_app; split;
    try (apply Forall_map_all; intros; exact I); repeat constructor.
Qed.

Section TickProperties.
Context {W : Type}.
Variable E : Collab W.
Variable cfg : TestConfig.
Variables (n : nat) (st pb : Z) (w : W).
Variables (te : TickEnd) (w' : W) (evs : list Event).
Hypothesis Htick : tick E cfg n st pb w = (te, w', evs).

(** The state is read first. *)
Lemma tick_reads_state_first :
  exists rest, evs = EvCurrentState (tk_state te) :: rest
               /\ forall s, ~ In (EvCurrentState s) rest.
Proof.
  destruct (tick_anatomy E cfg n st pb w te w' evs Htick)
    as (v & svc & tm & tail & Hevs & Hsvc & Htm & Htail & _).
  eexists. split; [exact Hevs|]. intros s Hin.
  apply in_app_or in Hin. destruct Hin as [Hin|Hin].
  { revert Hin. eapply not_in_outside; [exact Hsvc | reflexivity]. }
  apply in_app_or in Hin. destruct Hin as [Hin|Hin]; revert Hin.
  - eapply not_in_outside;
      [exact (timer_trace_events cfg _ _ _ _ _ Htm) | reflexivity].
  - eapply not_in_outside;
      [exact (tail_trace_events _ _ _ _ _ Htail) | reflexivity].
Qed.

(** Outside Streaming a tick services no stream and leaves [done] unset. *)
Lemma tick_not_streaming :
  tk_state te <> StateStreaming ->
  done (tk_vars te) = false
  /\ completed_calls evs = []
  /\ forall idx ok, ~ In (EvService idx ok) evs.
Proof.
  intros Hs.
  destruct (tick_anatomy E cfg n st pb w te w' evs Htick)
    as (v & svc & tm & tail & Hevs & _ & Htm & Htail & _ & Hdone & Hother & _).
  destruct (Hother Hs) as [-> ->]. simpl in Hevs.
  pose proof (timer_trace_events cfg _ _ _ _ _ Htm) as Ctm.
  pose proof (tail_trace_events _ _ _ _ _ Htail) as Ctail.
  split; [rewrite Hdone; reflexivity|]. split.
  - rewrite Hevs. change (completed_calls (tm ++ tail) = []).
    rewrite completed_calls_app.
    rewrite (completed_calls_outside is_timer_event tm) by auto.
    rewrite (completed_calls_outside is_tail_event tail) by auto.
    reflexivity.
  - intros idx ok Hin. rewrite Hevs in Hin.
    destruct Hin as [Hin|Hin]; [discriminate|].
    apply in_app_or in Hin. destruct Hin as [Hin|Hin]; revert Hin.
    + eapply not_in_outside; [exact Ctm | reflexivity].
    + eapply not_in_outside; [exact Ctail | reflexivity].
Qed.

(** In a tick that does not fail, [done] is set exactly when the state is
    Streaming and every stream answered [Completed()] with true. *)
Lemma tick_done_iff :
  failed (tk_vars te) = false ->
  done (tk_vars te) = true
  <-> tk_state te = StateStreaming /\ completed_calls evs = all_true n.
Proof.
  intros Hf.
  destruct (tick_anatomy E cfg n st pb w te w' evs Htick)
    as (v & svc & tm & tail & Hevs & _ & Htm & Htail & _ & Hdone & Hother
        & Hstream).
  assert (Hfv : failed v = false).
  { destruct Htail as [[Hc _]|[_ [Hc _]]]; congruence. }
  destruct (tk_state te) eqn:Hs;
    try (destruct tick_not_streaming as [Hd _]; [congruence|];
         rewrite Hd; split; [discriminate | intros [Hc _]; discriminate]).
  destruct (Hstream eq_refl Hfv) as [Hidx Hd].
  assert (Hc : completed_calls evs = completed_calls svc).
  { rewrite Hevs. change (completed_calls (svc ++ tm ++ tail)
                          = completed_calls svc).
    rewrite !completed_calls_app.
    rewrite (completed_calls_outside is_timer_event tm)
      by (auto; exact (timer_trace_events cfg _ _ _ _ _ Htm)).
    rewrite (completed_calls_outside is_tail_event tail)
      by (auto; exact (tail_trace_events _ _ _ _ _ Htail)).
    rewrite app_nil_r. reflexivity. }
  rewrite Hdone, Hd, Hc. unfold all_true.
  rewrite (flags_all_true _ _ Hidx). tauto.
Qed.


(** The one reading of the elapsed time in a tick decides its
    transition. *)
Lemma tick_elapsed_reading (s0 e : Z) :
  In (EvElapsedTime s0 e) evs ->
  exists svc tail,
    Forall (fun x => is_stream_query x = true) svc
    /\ Forall (fun x => is_tail_event x = true) tail
    /\ ((e < dwell (tk_state te)
         /\ evs = EvCurrentState (tk_state te)
                  :: svc ++ [EvElapsedTime st e] ++ tail)
        \/ (dwell (tk_state te) <= e
            /\ evs = EvCurrentState (tk_state te)
                     :: svc
                     ++ (EvElapsedTime st e
                         :: transition_calls n (tk_state te)
                              (tk_start_time te))
                     ++ tail)).
Proof.
  intros Hin.
  destruct (tick_anatomy E cfg n st pb w te w' evs Htick)
    as (v & svc & tm & tail & Hevs & Hsvc & Htm & Htail & _).
  pose proof (tail_trace_events _ _ _ _ _ Htail) as Ctail.
  exists svc, tail. split; [exact Hsvc|]. split; [exact Ctail|].
  rewrite Hevs in Hin.
  destruct Hin as [Hin|Hin]; [discriminate|].
  apply in_app_or in Hin. destruct Hin as [Hin|Hin].
  { exfalso. revert Hin. eapply not_in_outside; [exact Hsvc|reflexivity]. }
  apply in_app_or in Hin. destruct Hin as [Hin|Hin].
  2:{ exfalso. revert Hin.
      eapply not_in_outside; [exact Ctail|reflexivity]. }
  destruct Htm as [[_ [_ [-> _]]]|[[e' [Hlt [-> _]]]|[e' [Hle ->]]]].
  - contradiction.
  - destruct Hin as [Hin|[]]. inversion Hin; subst. left. auto.
  - destruct Hin as [Hin|Hin].
    + inversion Hin; subst. right. auto.
    + exfalso. pose proof (transition_calls_events n (tk_state te)
                             (tk_start_time te)) as Hc.
      rewrite Forall_forall in Hc. apply (Hc _ Hin).
Qed.

End TickProperties.

(** ** The claims about the polling loop *)




(** C1. In a tick of the main loop whose observed device state is not
    Streaming (the state is what [CurrentState()] returned, the first call of
    the tick and the only one), no stream's [Service()] is called. *)
Theorem C1_no_service_outside_streaming {W : Type} (E : Collab W)
    (K : TestNumbers) (bld : Build) (cfg : TestConfig) (fuel : nat)
    (PortNext : string -> string) (in_port out_port : string) (w : W)
    (te : TickEnd) (evs : list Event) :
  In (te, evs) (ticks (RunTest E K bld cfg fuel PortNext in_port out_port w)) ->
  tk_state te <> StateStreaming ->
  (exists rest, evs = EvCurrentState (tk_state te) :: rest
                /\ forall s, ~ In (EvCurrentState s) rest)
  /\ forall idx ok, ~ In (EvService idx ok) evs.
Proof.
  intros Hin Hs.
  destruct (RunTest_ticks E K bld cfg fuel PortNext in_port out_port w te evs
              Hin) as [_ (st & pb & w0 & w1 & Htick)].
  split.
  - exact (tick_reads_state_first E cfg _ _ _ _ _ _ _ Htick).
  - exact (proj2 (proj2 (tick_not_streaming E cfg _ _ _ _ _ _ _ Htick Hs))).
Qed.

Lemma C1_witness :
  In (nth 2 (ticks Runs.cycle_run) Runs.failing_tick) (ticks Runs.cycle_run)
  /\ tk_state (fst (nth 2 (ticks Runs.cycle_run) Runs.failing_tick))
     = StateResuming
  /\ forall idx ok,
       ~ In (EvService idx ok)
            (snd (nth 2 (ticks Runs.cycle_run) Runs.failing_tick)).
Proof.
  assert (Hin : In (nth 2 (ticks Runs.cycle_run) Runs.failing_tick)
                   (ticks Runs.cycle_run)).
  { apply nth_In. vm_compute. lia. }
  split; [exact Hin|]. split; [reflexivity|].
  rewrite (surjective_pairing (nth 2 _ _)) in Hin.
  refine (proj2 (C1_no_service_outside_streaming _ _ _ _ _ _ _ _ _ _ _ Hin _)).
  vm_compute. discriminate.
Defined.

(** C10. A tick whose observed state is not Streaming ends with [done]
    false; so a run that returns 0 left the loop on a tick that observed
    Streaming, did not fail, and in which every stream answered
    [Completed()] with true, and no earlier tick had [done] set. *)
Theorem C10_done_needs_streaming {W : Type} (E : Collab W)
    (K : TestNumbers) (bld : Build) (cfg : TestConfig) (fuel : nat)
    (PortNext : string -> string) (in_port out_port : string) (w : W) :
  let r := RunTest E K bld cfg fuel PortNext in_port out_port w in
  let n := Z.to_nat (nstreams_of K (u8 (dev_TestNumber E w))
                                 (read_testArg E w)) in
  (forall te evs,
      In (te, evs) (ticks r) -> tk_state te <> StateStreaming ->
      done (tk_vars te) = false)
  /\ (outcome r = Returned 0 ->
      exists pre te evs,
        ticks r = pre ++ [(te, evs)]
        /\ tk_state te = StateStreaming
        /\ failed (tk_vars te) = false
        /\ done (tk_vars te) = true
        /\ completed_calls evs = all_true n
        /\ Forall (fun p => done (tk_vars (fst p)) = false) pre).
Proof.
  intros r n. split.
  - intros te evs Hin Hs.
    destruct (RunTest_ticks E K bld cfg fuel PortNext in_port out_port w te
                evs Hin) as [_ (st & pb & w0 & w1 & Htick)].
    exact (proj1 (tick_not_streaming E cfg _ _ _ _ _ _ _ Htick Hs)).
  - intros Hout.
    destruct (RunTest_inv E K bld cfg fuel PortNext in_port out_port w)
      as [[_ Hr]|[_ (tb & o & w1 & t1 & _ & _ & Hcases)]];
      fold r in Hr || fold r in Hcases.
    { rewrite Hr in Hout. discriminate. }
    destruct Hcases as [[_ Hr]|[[_ Hr]|[_ (start & w2 & Hloop)]]];
      try (rewrite Hr in Hout; discriminate).
    cbv zeta in Hloop.
    destruct Hloop as (_ & Hticks & [(_ & Ho & _)|[(_ & Ho & _)|(Hexit & _)]]);
      try congruence.
    destruct (main_loop_done E cfg _ _ _ _ _ Hexit)
      as (pre & te & evs & Hl & Hf & Hd & Hpre).
    exists pre, te, evs. rewrite Hticks, Hl.
    assert (Hin : In (te, evs) (ticks r)).
    { rewrite Hticks, Hl. apply in_or_app. right. left. reflexivity. }
    destruct (RunTest_ticks E K bld cfg fuel PortNext in_port out_port w te
                evs Hin) as [_ (st & pb & w0 & w3 & Htick)].
    destruct (proj1 (tick_done_iff E cfg _ _ _ _ _ _ _ Htick Hf) Hd)
      as [Hs Hc].
    repeat split; assumption.
Qed.

Lemma C10_witness :
  outcome Runs.cycle_run = Returned 0
  /\ exists pre te evs,
       ticks Runs.cycle_run = pre ++ [(te, evs)]
       /\ tk_state te = StateStreaming
       /\ failed (tk_vars te) = false
       /\ done (tk_vars te) = true
       /\ completed_calls evs = all_true 2
       /\ Forall (fun p => done (tk_vars (fst p)) = false) pre.
Proof.
  split; [reflexivity|].
  apply (proj2 (C10_done_needs_streaming Bench.collab Bench.numbers
                  Bench.libusb Bench.with_suspend 6 Bench.next_port
                  "/dev/ttyUSB0" "/dev/ttyUSB0" Runs.resuming)).
  reflexivity.
Defined.

(** C6, as the code has it. In a tick of the main loop that does not fail,
    [done] is true exactly when the observed state is Streaming and every
    stream was asked [Completed()] in that tick and answered true. *)
Theorem C6_done_iff_completed_unless_failed {W : Type} (E : Collab W)
    (K : TestNumbers) (bld : Build) (cfg : TestConfig) (fuel : nat)
    (PortNext : string -> string) (in_port out_port : string) (w : W)
    (te : TickEnd) (evs : list Event) :
  In (te, evs) (ticks (RunTest E K bld cfg fuel PortNext in_port out_port w)) ->
  failed (tk_vars te) = false ->
  done (tk_vars te) = true
  <-> tk_state te = StateStreaming
      /\ completed_calls evs
         = all_true (Z.to_nat (nstreams_of K (u8 (dev_TestNumber E w))
                                           (read_testArg E w))).
Proof.
  intros Hin Hf.
  destruct (RunTest_ticks E K bld cfg fuel PortNext in_port out_port w te evs
              Hin) as [_ (st & pb & w0 & w1 & Htick)].
  exact (tick_done_iff E cfg _ _ _ _ _ _ _ Htick Hf).
Qed.

Lemma C6_witness :
  In (nth 3 (ticks Runs.cycle_run) Runs.failing_tick) (ticks Runs.cycle_run)
  /\ (done (tk_vars (fst (nth 3 (ticks Runs.cycle_run) Runs.failing_tick)))
      = true
      <-> tk_state (fst (nth 3 (ticks Runs.cycle_run) Runs.failing_tick))
          = StateStreaming
          /\ completed_calls
               (snd (nth 3 (ticks Runs.cycle_run) Runs.failing_tick))
             = all_true 2).
Proof.
  assert (Hin : In (nth 3 (ticks Runs.cycle_run) Runs.failing_tick)
                   (ticks Runs.cycle_run)).
  { apply nth_In. vm_compute. lia. }
  split; [exact Hin|].
  rewrite (surjective_pairing (nth 3 _ _)) in Hin.
  apply (C6_done_iff_completed_unless_failed Bench.collab Bench.numbers
           Bench.libusb Bench.with_suspend 6 Bench.next_port
           "/dev/ttyUSB0" "/dev/ttyUSB0" Runs.resuming _ _ Hin).
  reflexivity.
Defined.

(** C6, as it is written, fails on a tick in which a stream's [Service()]
    fails: [done] was set before the servicing loop and the [break] leaves
    it set, although no stream was asked [Completed()] (and none would have
    answered true). *)
Lemma C6_counterexample :
  ticks Runs.failing_run = [Runs.failing_tick]
  /\ done (tk_vars (fst Runs.failing_tick)) = true
  /\ completed_calls (snd Runs.failing_tick) = []
  /\ Bench.b_completed Runs.service_fails 0%nat = false
  /\ Bench.b_completed Runs.service_fails 1%nat = false
  /\ ~ done_iff_all_completed 2 Runs.failing_tick.
Proof.
  repeat split; try reflexivity.
  intros [H _]. specialize (H eq_refl). discriminate H.
Qed.




(** C5. With suspend/resume testing on, a tick that observes Streaming or
    Resuming reads the time elapsed since [start_time].  If the state is
    Streaming and the reading is at least 5,000,000 us, [Pause()] is called
    on every stream and then the device is told to suspend; if the state is
    Resuming and the reading is at least 30,000 us, [Resume()] is called on
    every stream and then the device state is set to Streaming.  Nothing
    before or after in the tick pauses, suspends, resumes or sets the
    state.  The calls are made on the collaborators: the world the tick
    leaves is the world after the calls before them, with [Pause()]
    applied for each stream in turn and then [Suspend()] (or [Resume()] for
    each stream and then [SetState(Streaming)]), followed by the calls
    after them. *)
Theorem C5_pause_before_suspend_resume_before_streaming {W : Type}
    (E : Collab W) (cfg : TestConfig) (n : nat) (start_time prev_bytes : Z)
    (w : W) (te : TickEnd) (w' : W) (evs : list Event) :
  tick E cfg n start_time prev_bytes w = (te, w', evs) ->
  suspending cfg = true ->
  (tk_state te = StateStreaming \/ tk_state te = StateResuming ->
   exists e, In (EvElapsedTime start_time e) evs)
  /\ (forall e,
        In (EvElapsedTime start_time e) evs ->
        tk_state te = StateStreaming -> 5000000 <= e ->
        exists pre post w1,
          evs = pre ++ map EvPause (seq 0 n) ++ EvSuspend :: post
          /\ Forall (fun x => is_pause_or_suspend x = false) pre
          /\ Forall (fun x => is_pause_or_suspend x = false) post
          /\ replay E cfg pre w = Some w1
          /\ replay E cfg post
               (dev_Suspend E
                  (fold_left (fun w0 idx => stream_Pause E idx w0) (seq 0 n)
                             w1))
             = Some w')
  /\ (forall e,
        In (EvElapsedTime start_time e) evs ->
        tk_state te = StateResuming -> 30000 <= e ->
        exists pre post w1,
          evs = pre ++ map EvResume (seq 0 n)
                    ++ EvSetState StateStreaming :: post
          /\ Forall (fun x => is_resume_or_setstate x = false) pre
          /\ Forall (fun x => is_resume_or_setstate x = false) post
          /\ replay E cfg pre w = Some w1
          /\ replay E cfg post
               (dev_SetState E StateStreaming
                  (fold_left (fun w0 idx => stream_Resume E idx w0) (seq 0 n)
                             w1))
             = Some w').
Proof.
  intros Htick Hsusp.
  pose proof (tick_faithful E cfg _ _ _ _ _ _ _ Htick) as Hlog.
  assert (Hshape : forall e, In (EvElapsedTime start_time e) evs ->
     exists svc tail,
       Forall (fun x => is_stream_query x = true) svc
       /\ Forall (fun x => is_tail_event x = true) tail
       /\ ((e < dwell (tk_state te)
            /\ evs = EvCurrentState (tk_state te)
                     :: svc ++ [EvElapsedTime start_time e] ++ tail)
           \/ (dwell (tk_state te) <= e
               /\ evs = EvCurrentState (tk_state te)
                        :: svc
                        ++ (EvElapsedTime start_time e
                            :: transition_calls n (tk_state te)
                                 (tk_start_time te))
                        ++ tail)))
    by (intros e; apply (tick_elapsed_reading E cfg _ _ _ _ _ _ _ Htick)).
  split; [|split].
  - intros _.
    destruct (tick_anatomy E cfg _ _ _ _ _ _ _ Htick)
      as (v & svc & tm & tail & -> & _ & Htm & _).
    destruct Htm as [(_ & Hoff & _)|[(e & _ & -> & _)|(e & _ & ->)]];
      [congruence| |]; exists e; right; apply in_or_app; right;
      apply in_or_app; left; left; reflexivity.
  - intros e Hin Hs Hle.
    destruct (Hshape e Hin) as (svc & tail & Hsvc & Htail & Hcase).
    rewrite Hs in Hcase. destruct Hcase as [[Hlt _]|[_ Hevs]].
    { exfalso. simpl in Hlt. unfold kRunInterval in Hlt. lia. }
    assert (Heq : evs
                  = (EvCurrentState StateStreaming
                     :: svc ++ [EvElapsedTime start_time e;
                                EvPrint "Waiting to suspend"])
                    ++ map EvPause (seq 0 n)
                    ++ EvSuspend :: EvTimeUs (tk_start_time te) :: tail).
    { rewrite Hevs. simpl. rewrite <- !app_assoc. reflexivity. }
    rewrite Heq in Hlog.
    destruct (replay_around E cfg _ _ EvPause (stream_Pause E) _ EvSuspend
                (dev_Suspend E) _ _ (fun _ _ => eq_refl) (fun _ => eq_refl)
                Hlog) as (w1 & Hpre & Hpost).
    eexists _, _, w1.
    split; [exact Heq|].
    split; [|split; [|split; [exact Hpre | exact Hpost]]].
    + constructor; [reflexivity|]. apply Forall_app. split.
      * apply (Forall_outside _ is_stream_query);
          [intros []; simpl; congruence | exact Hsvc].
      * repeat constructor.
    + constructor; [reflexivity|].
      apply (Forall_outside _ is_tail_event);
        [intros []; simpl; congruence | exact Htail].
  - intros e Hin Hs Hle.
    destruct (Hshape e Hin) as (svc & tail & Hsvc & Htail & Hcase).
    rewrite Hs in Hcase. destruct Hcase as [[Hlt _]|[_ Hevs]].
    { exfalso. simpl in Hlt. unfold kResumeInterval in Hlt. lia. }
    assert (Heq : evs
                  = (EvCurrentState StateResuming
                     :: svc ++ [EvElapsedTime start_time e])
                    ++ map EvResume (seq 0 n)
                    ++ EvSetState StateStreaming
                       :: EvTimeUs (tk_start_time te) :: tail).
    { rewrite Hevs. simpl. rewrite <- !app_assoc. reflexivity. }
    rewrite Heq in Hlog.
    destruct (replay_around E cfg _ _ EvResume (stream_Resume E) _
                (EvSetState StateStreaming) (dev_SetState E StateStreaming)
                _ _ (fun _ _ => eq_refl) (fun _ => eq_refl) Hlog)
      as (w1 & Hpre & Hpost).
    eexists _, _, w1.
    split; [exact Heq|].
    split; [|split; [|split; [exact Hpre | exact Hpost]]].
    + constructor; [reflexivity|]. apply Forall_app. split.
      * apply (Forall_outside _ is_stream_query);
          [intros []; simpl; congruence | exact Hsvc].
      * repeat constructor.
    + constructor; [reflexivity|].
      apply (Forall_outside _ is_tail_event);
        [intros []; simpl; congruence | exact Htail].
Qed.

Lemma C5_witness :
  (exists pre post w1,
      snd (LabRuns.suspend_tick)
      = pre ++ map EvPause (seq 0 2) ++ EvSuspend :: post
      /\ Forall (fun x => is_pause_or_suspend x = false) pre
      /\ Forall (fun x => is_pause_or_suspend x = false) post
      /\ replay Lab.collab Bench.with_suspend pre
            (Lab.on Runs.long_streaming) = Some w1
      /\ replay Lab.collab Bench.with_suspend post
            (dev_Suspend Lab.collab
               (fold_left (fun w0 idx => stream_Pause Lab.collab idx w0)
                          (seq 0 2) w1))
          = Some (snd (fst LabRuns.suspend_tick)))
  /\ (exists pre post w1,
         snd (LabRuns.resume_tick)
         = pre ++ map EvResume (seq 0 2)
               ++ EvSetState StateStreaming :: post
         /\ Forall (fun x => is_resume_or_setstate x = false) pre
         /\ Forall (fun x => is_resume_or_setstate x = false) post
         /\ replay Lab.collab Bench.with_suspend pre LabRuns.paused_resuming
             = Some w1
         /\ replay Lab.collab Bench.with_suspend post
               (dev_SetState Lab.collab StateStreaming
                  (fold_left (fun w0 idx => stream_Resume Lab.collab idx w0)
                             (seq 0 2) w1))
             = Some (snd (fst LabRuns.resume_tick)))
  /\ Lab.paused (snd (fst LabRuns.suspend_tick)) = [1; 0]%nat
  /\ Bench.b_state (Lab.base (snd (fst LabRuns.suspend_tick)))
     = StateSuspending
  /\ Lab.paused (snd (fst LabRuns.resume_tick)) = []
  /\ Bench.b_state (Lab.base (snd (fst LabRuns.resume_tick)))
     = StateStreaming.
Proof.
  split; [|split; [|repeat split; reflexivity]].
  - refine (proj1 (proj2
              (C5_pause_before_suspend_resume_before_streaming
                 Lab.collab Bench.with_suspend 2 0 0
                 (Lab.on Runs.long_streaming)
                 (fst (fst LabRuns.suspend_tick))
                 (snd (fst LabRuns.suspend_tick))
                 (snd LabRuns.suspend_tick)
                 _ _)) 6000000 _ _ _).
    + reflexivity.
    + reflexivity.
    + vm_compute. tauto.
    + reflexivity.
    + lia.
  - refine (proj2 (proj2
              (C5_pause_before_suspend_resume_before_streaming
                 Lab.collab Bench.with_suspend 2 0 0 LabRuns.paused_resuming
                 (fst (fst LabRuns.resume_tick))
                 (snd (fst LabRuns.resume_tick))
                 (snd LabRuns.resume_tick)
                 _ _)) 40000 _ _ _).
    + reflexivity.
    + reflexivity.
    + vm_compute. tauto.
    + reflexivity.
    + lia.
Defined.

(** ** Opening the streams *)

Lemma opens_app (t1 t2 : list Event) : opens (t1 ++ t2) = opens t1 ++ opens t2.
Proof. unfold opens. apply flat_map_app. Qed.

Lemma deletes_app (t1 t2 : list Event) :
  deletes (t1 ++ t2) = deletes t1 ++ deletes t2.
Proof. unfold deletes. apply flat_map_app. Qed.

Lemma opens_deletes (l : list nat) : opens (map EvDelete l) = [].
Proof. induction l; simpl; auto. Qed.

Lemma deletes_deletes (l : list nat) : deletes (map EvDelete l) = l.
Proof. induction l; simpl; congruence. Qed.

Lemma all_true_from_S (i m : nat) :
  all_true_from i (S m) = (i, true) :: all_true_from (S i) m.
Proof. reflexivity. Qed.

Section OpenFacts.
Context {W : Type}.
Variable E : Collab W.
Variable K : TestNumbers.
Variable bld : Build.
Variable cfg : TestConfig.

Lemma rollback_trace (idx : nat) (w : W) :
  snd (rollback E idx w) = map EvDelete (rev (seq 0 idx)).
Proof.
  revert w. induction idx as [|j IH]; intros w; [reflexivity|].
  rewrite seq_S, rev_app_distr.
  simpl rollback. unfold bind, act.
  specialize (IH (stream_delete E j w)).
  destruct (rollback E j (stream_delete E j w)) as [[u w1] t1].
  simpl in *. rewrite IH. reflexivity.
Qed.

Lemma open_stream_spec (t : StreamType) (idx : nat) (tb : Z)
    (PortNext : string -> string) (in_port out_port : string) (w : W) :
  forall r in_port' out_port' w' tr,
    open_stream E bld cfg t idx tb PortNext in_port out_port w
    = (r, in_port', out_port', w', tr) ->
    open_trace bld t idx r tr.
Proof.
  intros r ip op w' tr H.
  assert (Hdef : forall (w0 : W) r0 w1 tr0,
             open_default bld w0 = (r0, w1, tr0) ->
             has_factory bld t = false -> open_trace bld t idx r0 tr0).
  { intros w0 r0 w1 tr0 Hd Hfac. unfold open_default in Hd.
    destruct (NDEBUG bld) eqn:Hn.
    - inversion Hd; subst. right. auto.
    - inversion Hd; subst. simpl. auto. }
  assert (Hint : forall bulk w0 r0 w1 tr0,
             open_int E cfg bulk idx tb w0 = (r0, w1, tr0) ->
             has_factory bld t = true -> open_trace bld t idx r0 tr0).
  { intros bulk w0 r0 w1 tr0 Hd Hfac. unfold open_int, bind, act, call in Hd.
    destruct (int_Open E idx _) as [ok w2].
    inversion Hd; subst. left. simpl. repeat split; auto;
      repeat constructor. }
  destruct t; simpl in H; unfold bind in H.
  - destruct (open_default bld w) as [[r0 w1] tr0] eqn:Hd.
    inversion H; subst. rewrite app_nil_r. eapply Hdef; eauto.
  - destruct (open_default bld w) as [[r0 w1] tr0] eqn:Hd.
    inversion H; subst. rewrite app_nil_r. eapply Hdef; eauto.
  - destruct (STREAMTEST_LIBUSB bld) eqn:Hl.
    + destruct (open_int E cfg true idx tb w) as [[r0 w1] tr0] eqn:Hd.
      inversion H; subst. rewrite app_nil_r. eapply Hint; eauto.
    + destruct (open_default bld w) as [[r0 w1] tr0] eqn:Hd.
      inversion H; subst. rewrite app_nil_r. eapply Hdef; eauto.
  - destruct (STREAMTEST_LIBUSB bld) eqn:Hl.
    + destruct (open_int E cfg false idx tb w) as [[r0 w1] tr0] eqn:Hd.
      inversion H; subst. rewrite app_nil_r. eapply Hint; eauto.
    + destruct (open_default bld w) as [[r0 w1] tr0] eqn:Hd.
      inversion H; subst. rewrite app_nil_r. eapply Hdef; eauto.
  - unfold act, call in H.
    destruct (serial_Open E idx in_port out_port _) as [ok w2].
    unfold same in H. destruct ok; inversion H; subst;
      left; simpl; repeat split; auto; repeat constructor.
Qed.

(** The opening loop from index [i] on.  Either every stream has a case and
    opens; or some stream [k] does not open, after [i .. k-1] opened, and
    streams [k-1 .. 0] are deleted; or the assertion fails at some [k]. *)
Lemma open_streams_spec (testNum : Z) (testArg : list Z) (tb : Z)
    (PortNext : string -> string) (m : nat) :
  forall i in_port out_port w o w' t,
    open_streams E K bld cfg testNum testArg tb PortNext (seq i m) in_port
                 out_port w = (o, w', t) ->
    Forall (fun e => is_setup_event e = true) t
    /\ match o with
       | OpenedAll =>
           opens t = all_true_from i m /\ deletes t = []
           /\ existsb is_assert t = false
           /\ forall j, In j (seq i m) ->
                has_factory bld (stream_type K cfg testNum testArg j) = true
       | OpenFailed =>
           exists k pre,
             In k (seq i m)
             /\ t = pre ++ EvPrint "Failed to open stream"
                        :: map EvDelete (rev (seq 0 k))
             /\ deletes pre = [] /\ existsb is_assert pre = false
             /\ (opens pre = all_true_from i (k - i) ++ [(k, false)]
                 \/ (opens pre = all_true_from i (k - i)
                     /\ NDEBUG bld = true
                     /\ has_factory bld
                          (stream_type K cfg testNum testArg k) = false))
       | OpenAborted =>
           exists k pre,
             In k (seq i m)
             /\ t = pre ++ [EvAssertFail]
             /\ deletes pre = [] /\ existsb is_assert pre = false
             /\ opens pre = all_true_from i (k - i)
             /\ NDEBUG bld = false
             /\ has_factory bld (stream_type K cfg testNum testArg k) = false
       end.
Proof.
  induction m as [|m IH]; intros i ip op w o w' t H.
  - inversion H; subst. split; [constructor|]. simpl.
    repeat split; auto; intros j [].
  - simpl in H. unfold bind at 1 in H. unfold emit at 1 in H.
    unfold bind at 1 in H.
    set (ty := stream_type K cfg testNum testArg i) in *.
    destruct (open_stream E bld cfg ty i tb PortNext ip op w)
      as [[[[r ip'] op'] w1] tr] eqn:Hopen.
    pose proof (open_stream_spec _ _ _ _ _ _ _ _ _ _ _ _ Hopen) as Hone.
    destruct r as [ok|].
    + destruct ok; cbv beta iota in H; cbn [negb] in H; cbv beta iota in H.
      * (* stream [i] opened: on to the next *)
        destruct (open_streams E K bld cfg testNum testArg tb PortNext
                    (seq (S i) m) ip' op' w1) as [[o1 w2] t1] eqn:Hrest.
        inversion H; subst; clear H.
        destruct (IH _ _ _ _ _ _ _ Hrest) as [Hev Hrec].
        destruct Hone as [(Hfac & Hop & Hdel & Has & Hset)|(_ & _ & Hc & _)];
          [|discriminate].
        split.
        { constructor; [reflexivity|]. apply Forall_app. auto. }
        destruct o.
        -- destruct Hrec as (Ho & Hd & Ha & Hall).
           simpl. rewrite opens_app, deletes_app, existsb_app.
           rewrite Hop, Hdel, Has, Ho, Hd, Ha.
           repeat split; auto.
           intros j [<-|Hj]; [exact Hfac | auto].
        -- destruct Hrec as (k & pre & Hk & Ht & Hd & Ha & Ho).
           exists k, (EvPrintType i ty :: tr ++ pre).
           apply in_seq in Hk.
           split; [apply in_seq; lia|].
           split; [rewrite Ht; simpl; rewrite <- app_assoc; reflexivity|].
           simpl. rewrite opens_app, deletes_app, existsb_app.
           rewrite Hop, Hdel, Has, Hd, Ha.
           repeat split; auto.
           replace (k - i)%nat with (S (k - S i)) by lia.
           rewrite all_true_from_S. simpl.
           destruct Ho as [->|(-> & Hn & Hf)]; [left | right]; auto.
        -- destruct Hrec as (k & pre & Hk & Ht & Hd & Ha & Ho & Hn & Hf).
           exists k, (EvPrintType i ty :: tr ++ pre).
           apply in_seq in Hk.
           split; [apply in_seq; lia|].
           split; [rewrite Ht; simpl; rewrite <- app_assoc; reflexivity|].
           simpl. rewrite opens_app, deletes_app, existsb_app.
           rewrite Hop, Hdel, Has, Hd, Ha, Ho.
           repeat split; auto.
           replace (k - i)%nat with (S (k - S i)) by lia.
           reflexivity.
      * (* stream [i] did not open: roll back *)
        unfold bind, emit in H.
        pose proof (rollback_trace i w1) as Hroll.
        destruct (rollback E i w1) as [[u w2] t2]. simpl in Hroll.
        unfold ret in H. inversion H; subst; clear H.
        rewrite app_nil_r.
        assert (Hsetup : Forall (fun e => is_setup_event e = true) tr).
        { destruct Hone as [(_ & _ & _ & _ & Hs)|(_ & _ & _ & ->)];
            [exact Hs | constructor]. }
        split.
        { constructor; [reflexivity|]. apply Forall_app. split; [exact Hsetup|].
          constructor; [reflexivity|]. apply Forall_map_all. reflexivity. }
        exists i, (EvPrintType i ty :: tr).
        split; [left; reflexivity|].
        split; [simpl; rewrite <- ?app_assoc; reflexivity|].
        rewrite Nat.sub_diag. simpl.
        destruct Hone as [(Hfac & Hop & Hdel & Has & _)|(Hfac & Hn & _ & ->)].
        -- rewrite Hop, Hdel, Has. auto.
        -- simpl. repeat split; auto.
    + (* the assertion failed *)
      unfold ret in H. inversion H; subst; clear H.
      destruct Hone as (Hfac & Hn & ->).
      split; [repeat constructor|].
      exists i, [EvPrintType i ty].
      split; [left; reflexivity|].
      rewrite Nat.sub_diag. simpl. rewrite ?app_nil_r. repeat split; auto.
Qed.

End OpenFacts.

Lemma not_in_all_true_from (k i m : nat) : ~ In (k, false) (all_true_from i m).
Proof.
  unfold all_true_from. intros H. apply in_map_iff in H.
  destruct H as [j [H _]]. discriminate.
Qed.

Lemma opened_all_true_from (i m : nat) :
  map fst (filter snd (all_true_from i m)) = seq i m.
Proof.
  unfold all_true_from. induction (seq i m) as [|a l IH]; simpl; congruence.
Qed.

(** While nothing is deleted, the live streams are the ones that opened. *)
Lemma live_without_deletes (t : list Event) :
  forall acc,
    deletes t = [] ->
    fold_left live_step t acc = rev (map fst (filter snd (opens t))) ++ acc.
Proof.
  induction t as [|e t IH]; intros acc Hd; [reflexivity|].
  destruct e; simpl in Hd; try discriminate; simpl;
    try (rewrite IH by exact Hd; reflexivity).
  - destruct ok; simpl; rewrite IH by exact Hd; [|reflexivity].
    rewrite <- app_assoc. reflexivity.
  - destruct ok; simpl; rewrite IH by exact Hd; [|reflexivity].
    rewrite <- app_assoc. reflexivity.
Qed.

(** Deleting each live stream once leaves none. *)
Lemma live_after_deleting_all (l : list nat) :
  NoDup l -> fold_left live_step (map EvDelete l) l = [].
Proof.
  induction 1 as [|a l Hnotin _ IH]; [reflexivity|].
  simpl. destruct (Nat.eq_dec a a) as [_|Hne]; [|contradiction].
  rewrite notin_remove by exact Hnotin. exact IH.
Qed.

Section SetupFacts.
Context {W : Type}.
Variable E : Collab W.
Variable K : TestNumbers.
Variable bld : Build.
Variable cfg : TestConfig.

(** The opening phase of [RunTest]: the opening loop from index 0, after an
    optional line of output. *)
Lemma setup_spec (tb nstreams testNum : Z) (testArg : list Z)
    (PortNext : string -> string) (in_port out_port : string) (w : W) :
  forall o w' t,
    setup E K bld cfg tb nstreams testNum testArg PortNext in_port out_port w
    = (o, w', t) ->
    let n := Z.to_nat nstreams in
    Forall (fun e => is_setup_event e = true) t
    /\ match o with
       | OpenedAll =>
           opens t = all_true n /\ deletes t = []
           /\ existsb is_assert t = false
           /\ forall j, (j < n)%nat ->
                has_factory bld (stream_type K cfg testNum testArg j) = true
       | OpenFailed =>
           exists k pre,
             (k < n)%nat
             /\ t = pre ++ EvPrint "Failed to open stream"
                        :: map EvDelete (rev (seq 0 k))
             /\ deletes pre = [] /\ existsb is_assert pre = false
             /\ (opens pre = all_true k ++ [(k, false)]
                 \/ (opens pre = all_true k
                     /\ NDEBUG bld = true
                     /\ has_factory bld
                          (stream_type K cfg testNum testArg k) = false))
       | OpenAborted =>
           exists k pre,
             (k < n)%nat
             /\ t = pre ++ [EvAssertFail]
             /\ deletes pre = [] /\ existsb is_assert pre = false
             /\ opens pre = all_true k
             /\ NDEBUG bld = false
             /\ has_factory bld (stream_type K cfg testNum testArg k) = false
       end.
Proof.
  intros o w' t H n. unfold setup, bind in H. fold n in H.
  set (m := if verbose cfg then emit (EvPrintStreams nstreams tb) else ret tt)
    in H.
  assert (Hm : exists t0, m w = (tt, w, t0)
                 /\ opens t0 = [] /\ deletes t0 = []
                 /\ existsb is_assert t0 = false
                 /\ Forall (fun e => is_setup_event e = true) t0).
  { unfold m. destruct (verbose cfg); eexists; split;
      try reflexivity; simpl; repeat split; auto. }
  destruct Hm as (t0 & Hm & Ho0 & Hd0 & Ha0 & Hs0). rewrite Hm in H.
  destruct (open_streams E K bld cfg testNum testArg tb PortNext (seq 0 n)
              in_port out_port w) as [[o1 w1] t1] eqn:Hopen.
  inversion H; subst; clear H.
  destruct (open_streams_spec E K bld cfg _ _ _ _ _ _ _ _ _ _ _ _ Hopen)
    as [Hev Hcase].
  split; [apply Forall_app; auto|].
  destruct o.
  - destruct Hcase as (Ho & Hd & Ha & Hall).
    rewrite opens_app, deletes_app, existsb_app, Ho0, Hd0, Ha0, Ho, Hd, Ha.
    repeat split; auto. intros j Hj. apply Hall. apply in_seq. lia.
  - destruct Hcase as (k & pre & Hk & Ht & Hd & Ha & Ho).
    apply in_seq in Hk. rewrite Nat.sub_0_r in Ho.
    exists k, (t0 ++ pre).
    rewrite opens_app, deletes_app, existsb_app, Ho0, Hd0, Ha0, Hd, Ha, Ht.
    rewrite <- app_assoc. repeat split; auto. lia.
  - destruct Hcase as (k & pre & Hk & Ht & Hd & Ha & Ho & Hn & Hf).
    apply in_seq in Hk. rewrite Nat.sub_0_r in Ho.
    exists k, (t0 ++ pre).
    rewrite opens_app, deletes_app, existsb_app, Ho0, Hd0, Ha0, Hd, Ha, Ht.
    rewrite <- app_assoc. repeat split; auto. lia.
Qed.

End SetupFacts.

(** The registry bench keeps the list of open streams. *)
Lemma Lab_tracks_open (cfg : TestConfig) :
  tracks_open Lab.collab cfg Lab.opened.
Proof.
  repeat split; intros; simpl; unfold Lab.open_with, Lab.lift_call;
    try reflexivity;
    match goal with
    | |- context [let (_, _) := ?x in _] => destruct x as [[] ?]
    end; reflexivity.
Qed.

(** C4. If the [Open()] of stream [k] fails (streams 0 .. k-1 having
    opened, as the run got that far), [RunTest] then deletes the streams
    k-1, ..., 0, in that order and each once, deletes nothing else, leaves
    no stream open and returns 1 without entering the polling loop.  The
    deletions are made on the collaborators: the world the run leaves is
    the world the failed [Open()] left, with [delete] applied for k-1, ...,
    0 in turn; and collaborators that keep the list of open streams hold
    k-1, ..., 0 after the failed [Open()] and nothing when [RunTest]
    returns. *)
Theorem C4_rollback_on_open_failure {W : Type} (E : Collab W)
    (K : TestNumbers) (bld : Build) (cfg : TestConfig) (fuel : nat)
    (PortNext : string -> string) (in_port out_port : string) (w : W)
    (k : nat) :
  let r := RunTest E K bld cfg fuel PortNext in_port out_port w in
  let w' := RunTest_world E K bld cfg fuel PortNext in_port out_port w in
  In (k, false) (opens (setup_trace r)) ->
  exists pre w_fail,
    run_trace r = pre ++ EvPrint "Failed to open stream"
                      :: map EvDelete (rev (seq 0 k))
    /\ opens pre = all_true k ++ [(k, false)]
    /\ deletes pre = []
    /\ live_streams pre = rev (seq 0 k)
    /\ deletes (run_trace r) = rev (seq 0 k)
    /\ live_streams (run_trace r) = []
    /\ outcome r = Returned 1
    /\ ticks r = []
    /\ replay E cfg pre w = Some w_fail
    /\ w' = fold_left (fun w0 idx => stream_delete E idx w0) (rev (seq 0 k))
                      w_fail
    /\ forall live : W -> list nat,
         tracks_open E cfg live -> live w = [] ->
         live w_fail = rev (seq 0 k) /\ live w' = [].
Proof.
  intros r w' Hin.
  pose proof (RunTest_faithful E K bld cfg fuel PortNext in_port out_port w)
    as Hlog. fold r w' in Hlog.
  destruct (RunTest_inv E K bld cfg fuel PortNext in_port out_port w)
    as [[_ Hr]|[_ (tb & o & w1 & t1 & _ & Hsetup & Hcases)]];
    fold r in Hr || fold r in Hcases.
  { rewrite Hr in Hin. contradiction. }
  destruct (setup_spec E K bld cfg _ _ _ _ _ _ _ _ _ _ _ Hsetup)
    as [Hev Hspec].
  destruct Hcases as [[-> Hr]|[[-> Hr]|[-> (start & w2 & Hloop)]]].
  - (* the assertion failed: every [Open] before it succeeded *)
    exfalso. rewrite Hr in Hin. simpl in Hin.
    destruct Hspec as (k' & pre & _ & -> & _ & _ & Ho & _).
    rewrite opens_app, Ho in Hin. simpl in Hin. rewrite app_nil_r in Hin.
    exact (not_in_all_true_from _ _ _ Hin).
  - destruct Hspec as (k' & pre & _ & Ht & Hd & _ & Ho).
    rewrite Hr in Hin. simpl in Hin.
    rewrite Ht, opens_app in Hin. simpl in Hin.
    rewrite opens_deletes, app_nil_r in Hin.
    destruct Ho as [Ho|(Ho & _)]; rewrite Ho in Hin;
      [|exfalso; exact (not_in_all_true_from _ _ _ Hin)].
    apply in_app_or in Hin.
    destruct Hin as [Hin|[Hin|[]]];
      [exfalso; exact (not_in_all_true_from _ _ _ Hin)|].
    injection Hin as <-.
    assert (Hlive : live_streams pre = rev (seq 0 k')).
    { unfold live_streams. rewrite (live_without_deletes pre [] Hd), Ho.
      rewrite filter_app, map_app. simpl. rewrite !app_nil_r.
      change (all_true k') with (all_true_from 0 k').
      rewrite (opened_all_true_from 0 k'). reflexivity. }
    assert (Htrace : run_trace r
                     = pre ++ EvPrint "Failed to open stream"
                           :: map EvDelete (rev (seq 0 k'))).
    { rewrite Hr. unfold run_trace. simpl. rewrite app_nil_r. exact Ht. }
    assert (Hgone : live_streams (run_trace r) = []).
    { rewrite Htrace. unfold live_streams in *.
      rewrite fold_left_app, Hlive. simpl.
      apply live_after_deleting_all. apply NoDup_rev. apply seq_NoDup. }
    rewrite Htrace in Hlog. apply replay_app_inv in Hlog.
    destruct Hlog as (w_fail & Hpre & Hdel).
    cbn [replay replay_step] in Hdel.
    rewrite (replay_map E cfg EvDelete (stream_delete E) _
               (fun _ _ => eq_refl)) in Hdel.
    injection Hdel as Hdel.
    assert (Hsetup_pre : Forall (fun e => is_setup_event e = true) pre).
    { rewrite Ht in Hev. apply Forall_app in Hev. exact (proj1 Hev). }
    assert (Hsetup_all : Forall (fun e => is_setup_event e = true)
                                (run_trace r)).
    { rewrite Htrace, <- Ht. exact Hev. }
    exists pre, w_fail. rewrite <- Htrace.
    split; [reflexivity|]. split; [exact Ho|]. split; [exact Hd|].
    split; [exact Hlive|].
    split.
    { rewrite Htrace, deletes_app, Hd. simpl. apply deletes_deletes. }
    split; [exact Hgone|]. split; [rewrite Hr; reflexivity|].
    split; [rewrite Hr; reflexivity|]. split; [exact Hpre|].
    split; [symmetry; exact Hdel|].
    intros live Hlaw Hnone. split.
    + rewrite (tracks_open_replay E cfg live pre Hlaw Hsetup_pre _ _ Hpre),
        Hnone.
      exact Hlive.
    + pose proof (RunTest_faithful E K bld cfg fuel PortNext in_port
                    out_port w) as Hall. fold r w' in Hall.
      rewrite (tracks_open_replay E cfg live _ Hlaw Hsetup_all _ _ Hall),
        Hnone.
      exact Hgone.
  - exfalso. cbv zeta in Hloop. destruct Hloop as (Hs & _).
    destruct Hspec as (Ho & _).
    rewrite Hs, opens_app, Ho in Hin. simpl in Hin.
    rewrite app_nil_r in Hin.
    exact (not_in_all_true_from _ _ _ Hin).
Qed.

Lemma C4_witness :
  (exists pre w_fail,
     run_trace (fst LabRuns.rollback_run)
     = pre ++ EvPrint "Failed to open stream" :: map EvDelete (rev (seq 0 2))
     /\ opens pre = all_true 2 ++ [(2%nat, false)]
     /\ deletes pre = []
     /\ live_streams pre = rev (seq 0 2)
     /\ deletes (run_trace (fst LabRuns.rollback_run)) = rev (seq 0 2)
     /\ live_streams (run_trace (fst LabRuns.rollback_run)) = []
     /\ outcome (fst LabRuns.rollback_run) = Returned 1
     /\ ticks (fst LabRuns.rollback_run) = []
     /\ replay Lab.collab Bench.plain pre (Lab.on Runs.third_fails)
        = Some w_fail
     /\ snd LabRuns.rollback_run
        = fold_left (fun w0 idx => stream_delete Lab.collab idx w0)
                    (rev (seq 0 2)) w_fail
     /\ Lab.opened w_fail = rev (seq 0 2)
     /\ Lab.opened (snd LabRuns.rollback_run) = [])
  /\ Lab.opened (snd LabRuns.rollback_run) = [].
Proof.
  split; [|reflexivity].
  destruct (C4_rollback_on_open_failure Lab.collab Bench.numbers Bench.libusb
              Bench.plain 6 Bench.next_port "/dev/ttyUSB0" "/dev/ttyUSB0"
              (Lab.on Runs.third_fails) 2)
    as (pre & w_fail & H1 & H2 & H3 & H4 & H5 & H6 & H7 & H8 & H9 & H10
        & H11).
  { vm_compute. tauto. }
  exists pre, w_fail.
  destruct (H11 Lab.opened (Lab_tracks_open Bench.plain) eq_refl)
    as [H12 H13].
  repeat (split; [assumption|]). assumption.
Defined.

(** ** The run as a whole *)

Lemma existsb_assert_not_in (t : list Event) :
  existsb is_assert t = false -> ~ In EvAssertFail t.
Proof.
  intros H Hin. assert (Ht : existsb is_assert t = true).
  { apply existsb_exists. exists EvAssertFail. auto. }
  congruence.
Qed.

Lemma Forall_class_impl (c d : Event -> bool) (t : list Event) :
  (forall e, c e = true -> d e = true) ->
  Forall (fun e => c e = true) t -> Forall (fun e => d e = true) t.
Proof. intros Hcd H. eapply Forall_impl; [|exact H]. exact Hcd. Qed.

Section RunPhases.
Context {W : Type}.
Variable E : Collab W.
Variable K : TestNumbers.
Variable bld : Build.
Variable cfg : TestConfig.

Lemma tick_loop_events (n : nat) (st pb : Z) (w : W) :
  forall te w' evs,
    tick E cfg n st pb w = (te, w', evs) ->
    Forall (fun e => is_loop_event e = true) evs.
Proof.
  intros te w' evs H.
  destruct (tick_anatomy E cfg n st pb w te w' evs H)
    as (v & svc & tm & tail & -> & Hsvc & Htm & Htail & _).
  constructor; [reflexivity|].
  apply Forall_app. split; [|apply Forall_app; split].
  - apply (Forall_class_impl is_stream_query); [|exact Hsvc].
    intros []; simpl; congruence.
  - apply (Forall_class_impl is_timer_event);
      [|exact (timer_trace_events cfg _ _ _ _ _ Htm)].
    intros []; simpl; congruence.
  - apply (Forall_class_impl is_tail_event);
      [|exact (tail_trace_events _ _ _ _ _ Htail)].
    intros []; simpl; congruence.
Qed.

Variables (fuel : nat) (PortNext : string -> string).
Variables (in_port out_port : string) (w : W).

Let r := RunTest E K bld cfg fuel PortNext in_port out_port w.
Let testNum := u8 (dev_TestNumber E w).
Let testArg := read_testArg E w.
Let n := Z.to_nat (nstreams_of K testNum testArg).

(** The calls of the loop and after it are calls on opened streams, on the
    device and on the clock: nothing is constructed, opened, deleted or
    asserted there. *)
Lemma run_loop_events :
  Forall (fun e => is_loop_event e = true)
         (List.concat (map snd (ticks r)) ++ final_trace r).
Proof.
  apply Forall_app. split.
  - apply Forall_concat. apply Forall_forall. intros evs Hin.
    apply in_map_iff in Hin. destruct Hin as [[te evs'] [<- Hin]].
    destruct (RunTest_ticks E K bld cfg fuel PortNext in_port out_port w te
                evs' Hin) as [_ (st & pb & w0 & w1 & Htick)].
    exact (tick_loop_events _ _ _ _ _ _ _ Htick).
  - destruct (RunTest_inv E K bld cfg fuel PortNext in_port out_port w)
      as [[_ Hr]|[_ (tb & o & w1 & t1 & _ & _ & Hcases)]];
      fold r in Hr || fold r in Hcases.
    { rewrite Hr. constructor. }
    destruct Hcases as [[_ Hr]|[[_ Hr]|[_ (start & w2 & Hloop)]]];
      try (rewrite Hr; constructor).
    cbv zeta in Hloop.
    destruct Hloop
      as (_ & _ & [(_ & _ & ->)|[(_ & _ & ->)|(_ & _ & t & ->)]]);
      try constructor; [reflexivity|].
    apply Forall_app. split; [apply Forall_map_all; reflexivity|].
    repeat constructor.
Qed.

(** How a run can end, and what its opening phase then looked like. *)
Lemma RunTest_phases :
  Forall (fun e => is_setup_event e = true) (setup_trace r)
  /\ ((outcome r = Undefined /\ run_trace r = [] /\ n = 0%nat)
      \/ (outcome r = Aborted /\ ticks r = [] /\ final_trace r = []
          /\ NDEBUG bld = false
          /\ exists k pre,
               (k < n)%nat
               /\ has_factory bld (stream_type K cfg testNum testArg k)
                  = false
               /\ setup_trace r = pre ++ [EvAssertFail]
               /\ existsb is_assert pre = false
               /\ opens pre = all_true k)
      \/ (outcome r = Returned 1 /\ ticks r = [] /\ final_trace r = []
          /\ existsb is_assert (setup_trace r) = false
          /\ ((exists k, In (k, false) (opens (setup_trace r)))
              \/ (NDEBUG bld = true
                  /\ exists k,
                       (k < n)%nat
                       /\ has_factory bld
                            (stream_type K cfg testNum testArg k) = false)))
      \/ ((outcome r = OutOfFuel \/ outcome r = Returned 3
           \/ outcome r = Returned 0)
          /\ existsb is_assert (setup_trace r) = false
          /\ opens (setup_trace r) = all_true n
          /\ forall j, (j < n)%nat ->
               has_factory bld (stream_type K cfg testNum testArg j) = true)).
Proof.
  destruct (RunTest_inv E K bld cfg fuel PortNext in_port out_port w)
    as [[Hz Hr]|[_ (tb & o & w1 & t1 & _ & Hsetup & Hcases)]];
    [fold r testNum testArg in Hz, Hr
    |fold r testNum testArg in Hsetup, Hcases].
  { rewrite Hr. split; [constructor|]. left. unfold n. rewrite Hz. auto. }
  destruct (setup_spec E K bld cfg _ _ _ _ _ _ _ _ _ _ _ Hsetup)
    as [Hev Hspec]. fold n in Hspec.
  destruct Hcases as [[-> Hr]|[[-> Hr]|[-> (start & w2 & Hloop)]]].
  - rewrite Hr. simpl. split; [exact Hev|]. right; left.
    destruct Hspec as (k & pre & Hk & Ht & _ & Ha & Ho & Hn & Hf).
    repeat split; auto. exists k, pre. auto.
  - rewrite Hr. simpl. split; [exact Hev|]. right; right; left.
    destruct Hspec as (k & pre & Hk & -> & _ & Ha & Ho).
    repeat split; auto.
    + rewrite existsb_app, Ha. simpl.
      apply (existsb_outside is_assert
               (fun e => match e with EvDelete _ => true | _ => false end)).
      * intros []; simpl; congruence.
      * apply Forall_map_all. reflexivity.
    + destruct Ho as [Ho|(_ & Hn & Hfac)];
        [left | right; split; [exact Hn | exists k; auto]].
      exists k. rewrite opens_app, Ho. apply in_or_app. left.
      apply in_or_app. right. left. reflexivity.
  - cbv zeta in Hloop. destruct Hloop as (Hs & _ & Hexit).
    destruct Hspec as (Ho & _ & Ha & Hall).
    rewrite Hs. split.
    { apply Forall_app. split; [exact Hev | repeat constructor]. }
    right; right; right.
    rewrite existsb_app, opens_app, Ha, Ho. simpl. rewrite app_nil_r.
    repeat split; auto.
    destruct Hexit as [(_ & -> & _)|[(_ & -> & _)|(_ & -> & _)]]; auto.
Qed.

End RunPhases.

Lemma setup_event_no_traffic (t : list Event) :
  Forall (fun e => is_setup_event e = true) t ->
  Forall (fun e => is_traffic e = false) t.
Proof.
  apply Forall_outside. intros []; simpl; congruence.
Qed.

(** Over a whole run: every [Service()] call on a stream lies in a tick
    that observed Streaming. *)
Lemma service_calls_within_streaming_ticks {W : Type} (E : Collab W)
    (K : TestNumbers) (bld : Build) (cfg : TestConfig) (fuel : nat)
    (PortNext : string -> string) (in_port out_port : string) (w : W)
    (idx : nat) (ok : bool) :
  let r := RunTest E K bld cfg fuel PortNext in_port out_port w in
  In (EvService idx ok) (run_trace r) ->
  exists te evs,
    In (te, evs) (ticks r) /\ tk_state te = StateStreaming
    /\ In (EvService idx ok) evs.
Proof.
  intros r Hin.
  pose proof (RunTest_phases E K bld cfg fuel PortNext in_port out_port w)
    as [Hev _]. fold r in Hev.
  unfold run_trace in Hin. apply in_app_or in Hin.
  destruct Hin as [Hin|Hin].
  { exfalso. revert Hin. eapply not_in_outside; [exact Hev|reflexivity]. }
  apply in_app_or in Hin. destruct Hin as [Hin|Hin].
  - apply in_concat in Hin. destruct Hin as (evs & Hevs & Hin).
    apply in_map_iff in Hevs. destruct Hevs as ([te evs'] & <- & Htk).
    exists te, evs'. split; [exact Htk|]. split; [|exact Hin].
    destruct (RunTest_ticks E K bld cfg fuel PortNext in_port out_port w te
                evs' Htk) as [_ (st & pb & w0 & w1 & Htick)].
    destruct (tk_state te) eqn:Hs; [reflexivity| | |]; exfalso;
      (assert (Hne : tk_state te <> StateStreaming)
         by (rewrite Hs; discriminate));
      exact (proj2 (proj2 (tick_not_streaming E cfg _ _ _ _ _ _ _ Htick
                             Hne)) idx ok Hin).
  - exfalso.
    destruct (RunTest_inv E K bld cfg fuel PortNext in_port out_port w)
      as [[_ Hr]|[_ (tb & o & w1 & t1 & _ & _ & Hcases)]];
      fold r in Hr || fold r in Hcases.
    { rewrite Hr in Hin. contradiction. }
    destruct Hcases as [[_ Hr]|[[_ Hr]|[_ (start & w2 & Hloop)]]];
      try (rewrite Hr in Hin; contradiction).
    cbv zeta in Hloop.
    destruct Hloop
      as (_ & _ & [(_ & _ & Hf)|[(_ & _ & Hf)|(_ & _ & t & Hf)]]);
      rewrite Hf in Hin; try contradiction.
    destruct Hin as [Hin|Hin]; [discriminate|].
    apply in_app_or in Hin. destruct Hin as [Hin|[Hin|[]]];
      [|discriminate].
    apply in_map_iff in Hin. destruct Hin as (j & Hj & _). discriminate.
Qed.

(** ** The model at work *)

(** Serial streams take the port names in turn; [Open] is given the input
    port first. *)
Example serial_ports_advance :
  filter (fun e => match e with EvSerialOpen _ _ _ _ => true | _ => false end)
         (setup_trace Runs.serial_run)
  = [EvSerialOpen 0 "/dev/ttyUSB0" "/dev/ttyUSB0" true;
     EvSerialOpen 1 "/dev/ttyUSB0'" "/dev/ttyUSB0'" true]
  /\ outcome Runs.serial_run = Returned 0.
Proof. split; reflexivity. Qed.

(** Without libusb a Bulk stream has no case in the opening switch. *)
Example bulk_needs_libusb :
  Runs.run_on Bench.serial_only Bench.plain 6 Runs.two_streams
  = mkRun Aborted [EvPrintType 0 StreamType_Bulk; EvAssertFail] [] [].
Proof. reflexivity. Qed.

(** No case takes an Isochronous stream: the test aborts at stream 0, or,
    with assertions compiled out, reports a failure to open. *)
Example isochronous_is_refused :
  Runs.iso_run
  = mkRun Aborted [EvPrintType 0 StreamType_Isochronous; EvAssertFail] [] []
  /\ Runs.run_on Bench.release Bench.plain 6 Runs.isochronous
     = mkRun (Returned 1)
             [EvPrintType 0 StreamType_Isochronous;
              EvPrint "Failed to open stream"] [] [].
Proof. split; reflexivity. Qed.

(** Where the difference of the totals is [INT_MIN], so is its absolute
    value in [int], and no progress line is due. *)
Example report_at_int_min :
  report_due 2147483648 0 false = false
  /\ report_due 2147483647 2147483649 false = false
  /\ report_due 4096 0 false = true.
Proof. repeat split; reflexivity. Qed.

(** The transfer is shared out rounding up. *)
Example three_streams_share :
  transfer_share 3 = Some 5592406 /\ 3 * 5592406 = kTransferBytes + 2.
Proof. split; reflexivity. Qed.

(** C7, as the code has it.  When every stream of the descriptor has a
    type with a case in the opening switch, the [default] case is never
    reached: the assertion does not fail, the run does not abort, and it
    returns 1 from the opening loop only if an [Open()] failed.  When a
    stream has a type without a case, the polling loop is never entered
    and no stream or device is serviced; with assertions compiled in and
    no [Open()] failing before it, the assertion fails and the process
    aborts; with assertions compiled out ([NDEBUG]), or after a failed
    [Open()], the run returns 1 instead. *)
Theorem C7_assertion_only_without_factory {W : Type} (E : Collab W)
    (K : TestNumbers) (bld : Build) (cfg : TestConfig) (fuel : nat)
    (PortNext : string -> string) (in_port out_port : string) (w : W) :
  let r := RunTest E K bld cfg fuel PortNext in_port out_port w in
  let testNum := u8 (dev_TestNumber E w) in
  let testArg := read_testArg E w in
  (well_formed K bld cfg testNum testArg ->
   ~ In EvAssertFail (run_trace r) /\ outcome r <> Aborted
   /\ (outcome r = Returned 1 ->
       exists j, In (j, false) (opens (setup_trace r))))
  /\ (In EvAssertFail (run_trace r) ->
      outcome r = Aborted /\ ticks r = []
      /\ Forall (fun e => is_traffic e = false) (run_trace r))
  /\ (forall k : nat,
        Z.of_nat k < nstreams_of K testNum testArg ->
        has_factory bld (stream_type K cfg testNum testArg k) = false ->
        ticks r = []
        /\ Forall (fun e => is_traffic e = false) (run_trace r)
        /\ (NDEBUG bld = false ->
            (forall j, ~ In (j, false) (opens (setup_trace r))) ->
            outcome r = Aborted /\ In EvAssertFail (run_trace r))
        /\ (NDEBUG bld = true ->
            outcome r = Returned 1 /\ ~ In EvAssertFail (run_trace r))
        /\ ((exists j, In (j, false) (opens (setup_trace r))) ->
            outcome r = Returned 1 /\ ~ In EvAssertFail (run_trace r))).
Proof.
  intros r testNum testArg.
  pose proof (RunTest_phases E K bld cfg fuel PortNext in_port out_port w)
    as [Hev Hph].
  pose proof (run_loop_events E K bld cfg fuel PortNext in_port out_port w)
    as Hloop.
  fold r testNum testArg in Hev, Hph, Hloop.
  assert (Hassert : In EvAssertFail (run_trace r) ->
                    In EvAssertFail (setup_trace r)).
  { unfold run_trace. intros Hin. apply in_app_or in Hin.
    destruct Hin as [Hin|Hin]; [exact Hin|]. exfalso. revert Hin.
    eapply not_in_outside; [exact Hloop | reflexivity]. }
  assert (Hnone : existsb is_assert (setup_trace r) = false ->
                  ~ In EvAssertFail (run_trace r)).
  { intros Ha Hin. apply Hassert in Hin.
    exact (existsb_assert_not_in _ Ha Hin). }
  assert (Hquiet : ticks r = [] -> final_trace r = [] ->
                   Forall (fun e => is_traffic e = false) (run_trace r)).
  { intros Ht Hf. unfold run_trace. rewrite Ht, Hf. simpl.
    rewrite app_nil_r. apply setup_event_no_traffic. exact Hev. }
  destruct Hph as [(Ho & Htr & Hn)
                  |[(Ho & Ht & Hf & Hnd & k & pre & Hk & Hfac & Hs & Ha & Hop)
                  |[(Ho & Ht & Hf & Ha & Hwhy)
                  |(Ho & Ha & Hop & Hall)]]].
  - (* no defined result: nothing ran *)
    split; [|split].
    + intros _. rewrite Htr, Ho.
      split; [auto|]. split; discriminate.
    + rewrite Htr. intros [].
    + intros k Hk _. exfalso. lia.
  - (* aborted *)
    assert (Hopens : forall j, ~ In (j, false) (opens (setup_trace r))).
    { intros j Hj. rewrite Hs, opens_app, Hop in Hj. simpl in Hj.
      rewrite app_nil_r in Hj. exact (not_in_all_true_from _ _ _ Hj). }
    split; [|split].
    + intros Hwf. exfalso. specialize (Hwf k). rewrite Hfac in Hwf.
      assert (Hlt : Z.of_nat k < nstreams_of K testNum testArg) by lia.
      specialize (Hwf Hlt). discriminate.
    + intros _. auto.
    + intros k' _ _. split; [exact Ht|]. split; [auto|].
      split; [|split].
      * intros _ _. split; [exact Ho|].
        unfold run_trace. rewrite Hs. apply in_or_app. left.
        apply in_or_app. right. left. reflexivity.
      * congruence.
      * intros [j Hj]. exfalso. exact (Hopens j Hj).
  - (* a stream did not open *)
    split; [|split].
    + intros Hwf. split; [exact (Hnone Ha)|].
      split; [rewrite Ho; discriminate|].
      intros _. destruct Hwhy as [Hj|(_ & k & Hk & Hfac)]; [exact Hj|].
      exfalso. specialize (Hwf k). rewrite Hfac in Hwf.
      assert (Hlt : Z.of_nat k < nstreams_of K testNum testArg) by lia.
      specialize (Hwf Hlt). discriminate.
    + intros Hin. exfalso. exact (Hnone Ha Hin).
    + intros k' _ _. split; [exact Ht|]. split; [auto|].
      split; [|split].
      * intros Hnd Hnofail. exfalso.
        destruct Hwhy as [[j Hj]|(Hnd' & _)];
          [exact (Hnofail j Hj) | congruence].
      * intros _. split; [exact Ho | exact (Hnone Ha)].
      * intros _. split; [exact Ho | exact (Hnone Ha)].
  - (* the loop was entered: every stream had a case *)
    split; [|split].
    + intros _. split; [exact (Hnone Ha)|].
      split; destruct Ho as [->|[->| ->]]; discriminate.
    + intros Hin. exfalso. exact (Hnone Ha Hin).
    + intros k' Hk' Hfac. exfalso.
      assert (Hlt : (k' < Z.to_nat (nstreams_of K testNum testArg))%nat)
        by lia.
      rewrite (Hall k' Hlt) in Hfac. discriminate.
Qed.

Lemma C7_witness :
  (~ In EvAssertFail (run_trace Runs.cycle_run)
   /\ outcome Runs.cycle_run <> Aborted
   /\ (outcome Runs.cycle_run = Returned 1 ->
       exists j, In (j, false) (opens (setup_trace Runs.cycle_run))))
  /\ (outcome Runs.iso_run = Aborted /\ ticks Runs.iso_run = []
      /\ Forall (fun e => is_traffic e = false) (run_trace Runs.iso_run)).
Proof.
  split.
  - apply (proj1 (C7_assertion_only_without_factory Bench.collab
                    Bench.numbers Bench.libusb Bench.with_suspend 6
                    Bench.next_port "/dev/ttyUSB0" "/dev/ttyUSB0"
                    Runs.resuming)).
    intros idx _. reflexivity.
  - apply (proj1 (proj2 (C7_assertion_only_without_factory Bench.collab
                    Bench.numbers Bench.libusb Bench.plain 6
                    Bench.next_port "/dev/ttyUSB0" "/dev/ttyUSB0"
                    Runs.isochronous))).
    vm_compute. tauto.
Defined.

(** C7, as it is written, fails: a stream type without a case in the
    switch does not always abort the process.  Built with [NDEBUG] the
    assertion is compiled out and the Isochronous test returns 1; and with
    assertions compiled in, a test whose first stream fails to open
    returns 1 although its second stream is Isochronous. *)
Lemma C7_counterexample :
  (has_factory Bench.release
     (stream_type Bench.numbers Bench.plain 2 [2; 0; 0; 0] 0) = false
   /\ outcome (Runs.run_on Bench.release Bench.plain 6 Runs.isochronous)
      = Returned 1
   /\ ~ aborts_on_unrecognised_type Bench.numbers Bench.release Bench.plain
         2 [2; 0; 0; 0]
         (Runs.run_on Bench.release Bench.plain 6 Runs.isochronous))
  /\ (has_factory Bench.libusb
        (stream_type Bench.numbers Bench.plain 3 [2; 6; 0; 0] 1) = false
      /\ NDEBUG Bench.libusb = false
      /\ outcome Runs.unreached_run = Returned 1
      /\ ~ aborts_on_unrecognised_type Bench.numbers Bench.libusb
            Bench.plain 3 [2; 6; 0; 0] Runs.unreached_run).
Proof.
  repeat split; try reflexivity.
  - intros H. destruct H as [H _]; [|discriminate H].
    exists 0%nat. split; reflexivity.
  - intros H. destruct H as [H _]; [|discriminate H].
    exists 1%nat. split; reflexivity.
Qed.

(** ** Parsing numbers *)

Lemma isdigit_code (c : ascii) :
  isdigit c = true <-> 48 <= code c <= 57.
Proof. unfold isdigit. rewrite andb_true_iff, !Z.leb_le. tauto. Qed.

Lemma peek_not_digit_atoi (p : string) (acc : Z) :
  isdigit (peek p) = false -> atoi_digits p acc = acc.
Proof. destruct p as [|c p]; simpl; [auto|]. intros ->. reflexivity. Qed.

Lemma peek_not_digit_after (p : string) :
  isdigit (peek p) = false -> after_digits p = p.
Proof. destruct p as [|c p]; simpl; [auto|]. intros ->. reflexivity. Qed.

Lemma after_digits_not_digit (p : string) :
  isdigit (peek (after_digits p)) = false.
Proof.
  induction p as [|c p IH]; [reflexivity|].
  simpl. destruct (isdigit c) eqn:Hc; [exact IH | simpl; exact Hc].
Qed.

(** Reading more digits never lowers the value. *)
Lemma atoi_digits_grows (p : string) :
  forall acc, 0 <= acc -> acc <= atoi_digits p acc.
Proof.
  induction p as [|c p IH]; intros acc Hacc; simpl; [lia|].
  destruct (isdigit c) eqn:Hc; [|lia].
  apply isdigit_code in Hc.
  specialize (IH (acc * 10 + (code c - 48))). lia.
Qed.

(** The loop of [GetByte] from a value below 256: it ends on the value of
    the whole run of digits if that is below 256, and on some value of 256
    or more otherwise; the 32-bit accumulator never wraps. *)
Lemma GetByte_loop_spec (p : string) :
  forall n,
    isdigit (peek p) = true -> 0 <= n < 256 ->
    (atoi_digits p n < 256 ->
     GetByte_loop p n = (atoi_digits p n, after_digits p))
    /\ (256 <= atoi_digits p n -> 256 <= fst (GetByte_loop p n)).
Proof.
  induction p as [|c p IH]; intros n Hd Hn; [discriminate|].
  simpl in Hd. simpl. rewrite Hd.
  pose proof (proj1 (isdigit_code c) Hd) as Hc.
  assert (Hn' : u32 (n * 10 + code c - 48) = n * 10 + (code c - 48)).
  { unfold u32. rewrite Z.mod_small; [lia|].
    change (2 ^ 32) with 4294967296. lia. }
  rewrite Hn'. set (n' := n * 10 + (code c - 48)) in *.
  destruct (Z.ltb_spec n' 256) as [Hlt|Hge]; simpl.
  - destruct (isdigit (peek p)) eqn:Hp.
    + apply IH; [reflexivity | lia].
    + rewrite (peek_not_digit_atoi p n' Hp), (peek_not_digit_after p Hp).
      simpl. split; [reflexivity | lia].
  - pose proof (atoi_digits_grows p n' ltac:(lia)).
    simpl. split; [lia | lia].
Qed.

(** [GetByte] is [atoi] on the run of digits, guarded by the range. *)
Lemma GetByte_spec (p : string) :
  GetByte p
  = if isdigit (peek p) && (atoi_digits p 0 <? 256)
    then Some (atoi_digits p 0, after_digits p)
    else None.
Proof.
  unfold GetByte. destruct (isdigit (peek p)) eqn:Hd; [|reflexivity].
  destruct (GetByte_loop_spec p 0 Hd ltac:(lia)) as [Hlow Hhigh].
  simpl. destruct (Z.ltb_spec (atoi_digits p 0) 256) as [Hlt|Hge].
  - rewrite (Hlow Hlt). rewrite (proj2 (Z.ltb_lt _ _) Hlt).
    pose proof (atoi_digits_grows p 0 ltac:(lia)).
    unfold u8. rewrite Z.mod_small by lia. reflexivity.
  - specialize (Hhigh Hge). destruct (GetByte_loop p 0) as [r q].
    simpl in Hhigh. destruct (Z.ltb_spec r 256); [lia | reflexivity].
Qed.

(** *** Printing and reading back *)

Lemma string_of_uint_digits (d : Decimal.uint) (post : string) :
  isdigit (peek post) = false ->
  after_digits (NilEmpty.string_of_uint d ++ post)%string = post.
Proof.
  intros Hpost. induction d; simpl; auto using peek_not_digit_after.
Qed.

(** One digit of a printed number, read by [atoi]. *)
Ltac digit_step IH :=
  rewrite <- IH;
  match goal with
  | |- context [isdigit ?c] =>
      let b := eval vm_compute in (isdigit c) in change (isdigit c) with b
  end;
  match goal with
  | |- context [code ?c] =>
      let v := eval vm_compute in (code c) in change (code c) with v
  end;
  cbv iota; f_equal; lia.

Lemma atoi_string_of_uint_acc (d : Decimal.uint) (post : string) :
  isdigit (peek post) = false ->
  forall q : positive,
    atoi_digits (NilEmpty.string_of_uint d ++ post)%string (Z.pos q)
    = Z.pos (Pos.of_uint_acc d q).
Proof.
  intros Hpost. induction d; intros q;
    cbn [NilEmpty.string_of_uint append atoi_digits Pos.of_uint_acc];
    [apply peek_not_digit_atoi; exact Hpost | digit_step IHd ..].
Qed.

Lemma atoi_string_of_uint (d : Decimal.uint) (post : string) :
  isdigit (peek post) = false ->
  atoi_digits (NilEmpty.string_of_uint d ++ post)%string 0 = Z.of_N (Pos.of_uint d).
Proof.
  intros Hpost. induction d;
    cbn [NilEmpty.string_of_uint append atoi_digits Pos.of_uint Z.of_N];
    [apply peek_not_digit_atoi; exact Hpost
    |change (isdigit "0") with true; cbv iota; exact IHd
    |digit_step (atoi_string_of_uint_acc d post Hpost) ..].
Qed.

Lemma decimal_NilEmpty (v : Z) :
  decimal v = NilEmpty.string_of_uint (N.to_uint (Z.to_N v))
  /\ N.to_uint (Z.to_N v) <> Decimal.Nil.
Proof.
  unfold decimal, NilZero.string_of_uint.
  destruct (Z.to_N v) as [|q]; [split; [reflexivity | discriminate]|].
  pose proof (Unsigned.to_uint_nonnil q) as Hq. simpl.
  destruct (Pos.to_uint q); [contradiction Hq; reflexivity | | | | | | | | | |];
    split; try reflexivity; discriminate.
Qed.

(** A printed number starts with a digit. *)
Lemma decimal_starts_with_digit (v : Z) (post : string) :
  isdigit (peek (decimal v ++ post)%string) = true.
Proof.
  destruct (decimal_NilEmpty v) as [-> Hnil].
  destruct (N.to_uint (Z.to_N v)); try reflexivity. contradiction.
Qed.

Lemma after_decimal (v : Z) (post : string) :
  isdigit (peek post) = false -> after_digits (decimal v ++ post)%string = post.
Proof.
  intros Hpost. destruct (decimal_NilEmpty v) as [-> _].
  apply string_of_uint_digits. exact Hpost.
Qed.

(** [atoi] reads back what [%u] printed. *)
Lemma atoi_decimal (v : Z) (post : string) :
  0 <= v -> isdigit (peek post) = false ->
  atoi_digits (decimal v ++ post)%string 0 = v.
Proof.
  intros Hv Hpost. destruct (decimal_NilEmpty v) as [-> _].
  rewrite (atoi_string_of_uint _ post Hpost).
  change (Pos.of_uint (N.to_uint (Z.to_N v)))
    with (N.of_uint (N.to_uint (Z.to_N v))).
  rewrite DecimalN.Unsigned.of_to. apply Z2N.id. exact Hv.
Qed.

Lemma digit_run_split (p : string) :
  p = (digit_run p ++ after_digits p)%string
  /\ all_digits (digit_run p) = true
  /\ atoi_digits (digit_run p) 0 = atoi_digits p 0.
Proof.
  assert (H : forall acc,
             p = (digit_run p ++ after_digits p)%string
             /\ all_digits (digit_run p) = true
             /\ atoi_digits (digit_run p) acc = atoi_digits p acc);
    [|exact (H 0)].
  induction p as [|c p IH]; intros acc; [auto|].
  simpl. destruct (isdigit c) eqn:Hc; simpl; [|auto].
  rewrite Hc. destruct (IH (acc * 10 + (code c - 48))) as (Hs & Ha & Hv).
  repeat split; simpl; auto. f_equal. exact Hs.
Qed.

Lemma digit_run_nonempty (p : string) :
  isdigit (peek p) = true -> digit_run p <> EmptyString.
Proof. destruct p as [|c p]; simpl; [discriminate|]. intros ->. discriminate. Qed.

(** X1. [GetBool] looks at the first character only: an absent value counts
    as true, as do values that start with 1, y, Y, a carriage return or a
    line feed; every other value, [0] and [n] among them, is false. *)
Theorem X1_GetBool_first_character (p : string) :
  (GetBool p = true
   <-> peek p = "1"%char \/ peek p = "y"%char \/ peek p = "Y"%char
       \/ peek p = "013"%char \/ peek p = "010"%char
       \/ peek p = Ascii.zero)
  /\ GetBool EmptyString = true
  /\ forall c rest rest',
       GetBool (String c rest) = GetBool (String c rest').
Proof.
  split; [|split; [reflexivity | reflexivity]].
  unfold GetBool. generalize (peek p). intros c.
  rewrite !orb_true_iff, !Ascii.eqb_eq.
  split.
  - intros [[[[H|H]|H]|H]|H]; auto 10.
    destruct c as [[] [] [] [] [] [] [] []]; vm_compute in H;
      try discriminate; auto.
  - intros [H|[H|[H|[H|[H|H]]]]]; subst; auto.
Qed.

(** X2. [GetByte] fails on text that does not start with a digit and on a
    run of digits whose value is 256 or more, however long the run: the
    accumulator never wraps.  Otherwise it returns the value of the run and
    the text after it, which does not start with a digit. *)
Theorem X2_GetByte_reads_a_run_of_digits (p : string) :
  (GetByte p = None
   <-> isdigit (peek p) = false \/ 256 <= atoi_digits p 0)
  /\ forall v q,
       GetByte p = Some (v, q) ->
       0 <= v < 256 /\ v = atoi_digits p 0
       /\ p = (digit_run p ++ q)%string
       /\ digit_run p <> EmptyString
       /\ isdigit (peek q) = false.
Proof.
  rewrite GetByte_spec.
  pose proof (atoi_digits_grows p 0 ltac:(lia)) as Hpos.
  destruct (isdigit (peek p)) eqn:Hd; simpl.
  - destruct (Z.ltb_spec (atoi_digits p 0) 256) as [Hlt|Hge].
    + split; [split; [discriminate | intros [H|H]; [discriminate | lia]]|].
      intros v q H. injection H as <- <-.
      repeat split; try lia.
      * exact (proj1 (digit_run_split p)).
      * apply digit_run_nonempty. exact Hd.
      * apply after_digits_not_digit.
    + split; [split; auto | discriminate].
  - split; [split; auto | discriminate].
Qed.

Lemma GetByte_decimal (v : Z) (post : string) :
  0 <= v < 256 -> isdigit (peek post) = false ->
  GetByte (decimal v ++ post) = Some (v, post).
Proof.
  intros Hv Hpost. rewrite GetByte_spec.
  rewrite decimal_starts_with_digit, atoi_decimal, after_decimal
    by (lia || assumption).
  simpl. destruct (Z.ltb_spec v 256); [reflexivity | lia].
Qed.

(** X3. [GetByte] reads back a printed byte: for [v] below 256 followed by
    text that does not start with a digit, it returns [v] and that text. *)
Theorem X3_GetByte_reads_back_decimal (v : Z) (post : string) :
  0 <= v < 256 -> isdigit (peek post) = false ->
  GetByte (decimal v ++ post) = Some (v, post).
Proof.
  exact (GetByte_decimal v post).
Qed.

Lemma X3_witness :
  GetByte (decimal 255 ++ ":7") = Some (255, ":7"%string).
Proof.
  apply X3_GetByte_reads_back_decimal; [lia | reflexivity].
Defined.

(** *** Strings *)

Lemma append_empty_r (s : string) : (s ++ EmptyString)%string = s.
Proof. induction s; simpl; congruence. Qed.

Lemma append_assoc (s1 s2 s3 : string) :
  ((s1 ++ s2) ++ s3)%string = (s1 ++ s2 ++ s3)%string.
Proof. induction s1; simpl; congruence. Qed.

Lemma length_append (s1 s2 : string) :
  String.length (s1 ++ s2) = (String.length s1 + String.length s2)%nat.
Proof. induction s1; simpl; congruence. Qed.

Lemma substring_whole (s : string) (k : nat) :
  (String.length s <= k)%nat -> substring 0 k s = s.
Proof.
  revert k. induction s as [|c s IH]; intros k Hk.
  - destruct k; reflexivity.
  - destruct k; simpl in *; [lia|]. rewrite IH by lia. reflexivity.
Qed.

Lemma GetDevice_decimal (bus addr bus0 addr0 : Z) :
  0 <= bus < 256 -> 0 <= addr < 256 ->
  GetDevice (decimal bus ++ ":" ++ decimal addr) bus0 addr0
  = (true, bus, addr).
Proof.
  intros Hb Ha. unfold GetDevice.
  rewrite (GetByte_decimal bus) by (lia || reflexivity).
  simpl peek. simpl skip. rewrite Ascii.eqb_refl.
  rewrite <- (append_empty_r (decimal addr)).
  rewrite (GetByte_decimal addr) by (lia || reflexivity).
  reflexivity.
Qed.

(** X4. [GetDevice] accepts [<bus>:<address>] for a printed bus and address
    below 256 and stores both. *)
Theorem X4_GetDevice_reads_bus_and_address (bus addr bus0 addr0 : Z) :
  0 <= bus < 256 -> 0 <= addr < 256 ->
  GetDevice (decimal bus ++ ":" ++ decimal addr) bus0 addr0
  = (true, bus, addr).
Proof. exact (GetDevice_decimal bus addr bus0 addr0). Qed.

Lemma X4_witness :
  GetDevice (decimal 3 ++ ":" ++ decimal 255) 0 0 = (true, 3, 255).
Proof. apply X4_GetDevice_reads_bus_and_address; lia. Defined.

(** When [GetDevice] succeeds the text is a run of digits, a colon, a run
    of digits and nothing more, and the two values are below 256. *)
Lemma GetDevice_true (p : string) (bus0 addr0 bus addr : Z) :
  GetDevice p bus0 addr0 = (true, bus, addr) ->
  exists ds1 ds2 tail,
    p = (ds1 ++ ":" ++ ds2 ++ tail)%string
    /\ peek tail = Ascii.zero
    /\ all_digits ds1 = true /\ ds1 <> EmptyString
    /\ all_digits ds2 = true /\ ds2 <> EmptyString
    /\ bus = atoi_digits ds1 0 /\ 0 <= bus < 256
    /\ addr = atoi_digits ds2 0 /\ 0 <= addr < 256.
Proof.
  unfold GetDevice. rewrite GetByte_spec.
  destruct (isdigit (peek p)) eqn:Hd1; simpl; [|discriminate].
  destruct (Z.ltb_spec (atoi_digits p 0) 256) as [Hlt1|]; [|discriminate].
  destruct (Ascii.eqb_spec (peek (after_digits p)) ":") as [Hcolon|];
    [|discriminate].
  set (q := skip (after_digits p)). rewrite GetByte_spec.
  destruct (isdigit (peek q)) eqn:Hd2; simpl; [|discriminate].
  destruct (Z.ltb_spec (atoi_digits q 0) 256) as [Hlt2|]; [|discriminate].
  intros Hres. injection Hres as Hend <- <-.
  apply Ascii.eqb_eq in Hend.
  destruct (digit_run_split p) as (Hp & Hall1 & Hv1).
  destruct (digit_run_split q) as (Hq & Hall2 & Hv2).
  exists (digit_run p), (digit_run q), (after_digits q).
  assert (Hafter : after_digits p = String ":" q).
  { unfold q. destruct (after_digits p) as [|c r]; simpl in *;
      [discriminate | congruence]. }
  pose proof (atoi_digits_grows p 0 ltac:(lia)).
  pose proof (atoi_digits_grows q 0 ltac:(lia)).
  repeat split; auto using digit_run_nonempty; try lia.
  rewrite Hp at 1. rewrite Hafter. simpl. rewrite Hq at 1. reflexivity.
Qed.

Lemma atoi_all_digits (ds rest : string) :
  all_digits ds = true -> isdigit (peek rest) = false ->
  forall acc,
    atoi_digits (ds ++ rest) acc = atoi_digits ds acc
    /\ after_digits (ds ++ rest) = rest.
Proof.
  intros Hall Hrest. induction ds as [|c ds IH]; intros acc; simpl.
  - split; [apply peek_not_digit_atoi | apply peek_not_digit_after];
      exact Hrest.
  - simpl in Hall. apply andb_true_iff in Hall. destruct Hall as [Hc Hall].
    rewrite Hc. apply IH. exact Hall.
Qed.

Lemma all_digits_peek (ds rest : string) :
  all_digits ds = true -> ds <> EmptyString ->
  isdigit (peek (ds ++ rest)) = true.
Proof.
  destruct ds as [|c ds]; simpl; [congruence|].
  intros H _. apply andb_true_iff in H. tauto.
Qed.

(** X5. [GetDevice] succeeds exactly on a run of digits, a colon, a run of
    digits and the end of the text, with both values below 256, and then
    stores the two values. *)
Theorem X5_GetDevice_accepts_exactly (p : string)
    (bus0 addr0 bus addr : Z) :
  GetDevice p bus0 addr0 = (true, bus, addr)
  <-> exists ds1 ds2 tail,
        p = (ds1 ++ ":" ++ ds2 ++ tail)%string
        /\ peek tail = Ascii.zero
        /\ all_digits ds1 = true /\ ds1 <> EmptyString
        /\ all_digits ds2 = true /\ ds2 <> EmptyString
        /\ bus = atoi_digits ds1 0 /\ 0 <= bus < 256
        /\ addr = atoi_digits ds2 0 /\ 0 <= addr < 256.
Proof.
  split; [apply GetDevice_true|].
  intros (ds1 & ds2 & tail & -> & Htail & Ha1 & Hn1 & Ha2 & Hn2 & -> & Hb
          & -> & Ha).
  assert (Hnd : isdigit (peek tail) = false) by (rewrite Htail; reflexivity).
  unfold GetDevice. rewrite GetByte_spec.
  rewrite (all_digits_peek ds1 _ Ha1 Hn1).
  destruct (atoi_all_digits ds1 (":" ++ ds2 ++ tail) Ha1 eq_refl 0)
    as [-> ->].
  simpl andb. destruct (Z.ltb_spec (atoi_digits ds1 0) 256); [|lia].
  simpl peek. simpl skip. rewrite Ascii.eqb_refl. rewrite GetByte_spec.
  rewrite (all_digits_peek ds2 _ Ha2 Hn2).
  destruct (atoi_all_digits ds2 tail Ha2 Hnd 0) as [-> ->].
  simpl andb. destruct (Z.ltb_spec (atoi_digits ds2 0) 256); [|lia].
  rewrite Htail. reflexivity.
Qed.

(** ** Port names *)

Lemma PortNext_scan_prefix (pre : string) :
  no_digit pre = true ->
  forall n s,
    PortNext_scan n (pre ++ s)
    = option_map (append pre) (PortNext_scan (n - String.length pre) s).
Proof.
  induction pre as [|c pre IH]; intros Hpre n s.
  - simpl. rewrite Nat.sub_0_r. destruct (PortNext_scan n s); reflexivity.
  - simpl in Hpre. apply andb_true_iff in Hpre. destruct Hpre as [Hc Hpre].
    apply negb_true_iff in Hc.
    destruct n as [|k]; [reflexivity|].
    change (PortNext_scan (S k) (String c (pre ++ s))
            = option_map (append (String c pre))
                (PortNext_scan (k - String.length pre) s)).
    cbn [PortNext_scan]. rewrite Hc, (IH Hpre).
    destruct (PortNext_scan _ s); reflexivity.
Qed.

Lemma digit_run_length (p : string) :
  (String.length (digit_run p) <= String.length p)%nat.
Proof.
  induction p as [|c p IH]; simpl; [lia|].
  destruct (isdigit c); simpl; lia.
Qed.

Lemma PortNext_scan_number (k : Z) (post : string) (m : nat) :
  0 <= k <= INT_MAX -> isdigit (peek post) = false ->
  (String.length (decimal k ++ post) < m)%nat ->
  (String.length (decimal (k + 1)) < m)%nat ->
  PortNext_scan m (decimal k ++ post) = Some (decimal (k + 1)).
Proof.
  intros Hk Hpost Hlen Hfit.
  pose proof (decimal_starts_with_digit k post) as Hd.
  pose proof (atoi_decimal k post ltac:(lia) Hpost) as Hv.
  pose proof (digit_run_length (decimal k ++ post)) as Hrun.
  destruct (decimal k ++ post)%string as [|c rest] eqn:Hs; [discriminate|].
  simpl in Hd. destruct m as [|j]; [lia|].
  cbn [PortNext_scan]. rewrite Hd, Hv.
  destruct (Nat.ltb_spec (String.length (digit_run (String c rest))) (S j));
    [|lia].
  unfold INT_MAX in *. destruct (Z.leb_spec k (2 ^ 31 - 1)); [|lia].
  unfold u32. rewrite Z.mod_small
    by (change (2 ^ 32) with 4294967296; change (2 ^ 31) with 2147483648 in *;
        lia).
  simpl. rewrite substring_whole by lia. reflexivity.
Qed.

Lemma PortNext_number (n : nat) (pre post : string) (k : Z) :
  no_digit pre = true -> isdigit (peek post) = false ->
  0 <= k <= INT_MAX ->
  (String.length (pre ++ decimal k ++ post) < n)%nat ->
  (String.length (pre ++ decimal (k + 1)) < n)%nat ->
  PortNext n (pre ++ decimal k ++ post) = Some (pre ++ decimal (k + 1))%string.
Proof.
  intros Hpre Hpost Hk Hlen Hfit. unfold PortNext.
  rewrite (PortNext_scan_prefix pre Hpre).
  rewrite length_append in Hfit, Hlen.
  rewrite PortNext_scan_number by (assumption || lia).
  reflexivity.
Qed.

(** A name longer than the buffer whose first number lies within it: the
    copy is cut at the buffer and the number is still advanced. *)
Example PortNext_of_a_long_name :
  PortNext 8 "/dev/t7abcdef" = Some "/dev/t8"%string
  /\ PortNext 8 "/dev/tty7" = None
  /\ PortNext 9 "/dev/tty7" = None
  /\ PortNext 10 "/dev/tty7" = Some "/dev/tty8"%string.
Proof. repeat split; reflexivity. Qed.

(** X6. [PortNext] leaves a name without a digit as it is. *)
Theorem X6_PortNext_keeps_a_name_without_number (n : nat) (curr : string) :
  no_digit curr = true -> (String.length curr < n)%nat ->
  PortNext n curr = Some curr.
Proof.
  intros Hnd Hlen. unfold PortNext.
  rewrite <- (append_empty_r curr) at 1.
  rewrite (PortNext_scan_prefix curr Hnd).
  destruct (n - String.length curr)%nat as [|j] eqn:Hj; [lia|].
  simpl. rewrite append_empty_r. reflexivity.
Qed.

Lemma X6_witness : PortNext 4096 "/dev/ttyS" = Some "/dev/ttyS"%string.
Proof.
  apply X6_PortNext_keeps_a_name_without_number; [reflexivity|].
  vm_compute. lia.
Defined.

(** X7. [PortNext] replaces the first number of a name by its successor,
    keeps the text before it and drops the text after it, provided the old
    and the new name fit the buffer and the number is at most [INT_MAX]. *)
Theorem X7_PortNext_increments_the_first_number (n : nat)
    (pre post : string) (k : Z) :
  no_digit pre = true -> isdigit (peek post) = false ->
  0 <= k <= INT_MAX ->
  (String.length (pre ++ decimal k ++ post) < n)%nat ->
  (String.length (pre ++ decimal (k + 1)) < n)%nat ->
  PortNext n (pre ++ decimal k ++ post) = Some (pre ++ decimal (k + 1))%string.
Proof. exact (PortNext_number n pre post k). Qed.

Lemma X7_witness :
  PortNext 4096 ("/dev/ttyUSB" ++ decimal 9 ++ "-old")
  = Some ("/dev/ttyUSB" ++ decimal 10)%string.
Proof.
  apply X7_PortNext_increments_the_first_number;
    try reflexivity; vm_compute; try lia.
  split; discriminate.
Defined.

Lemma PortNext_in_iter (n : nat) (pre : string) (k : Z) (i : nat) :
  no_digit pre = true -> 0 <= k -> k + Z.of_nat i <= INT_MAX + 1 ->
  (forall j, (j <= i)%nat ->
             (String.length (pre ++ decimal (k + Z.of_nat j)) < n)%nat) ->
  Nat.iter i (PortNext_in n) (pre ++ decimal k)%string
  = (pre ++ decimal (k + Z.of_nat i))%string.
Proof.
  intros Hpre Hk. induction i as [|i IH]; intros Hmax Hfit.
  - simpl. rewrite Z.add_0_r. reflexivity.
  - rewrite Nat.iter_succ, IH; [|lia | intros j Hj; apply Hfit; lia].
    unfold PortNext_in.
    rewrite <- (append_empty_r (decimal (k + Z.of_nat i))).
    rewrite PortNext_number; try assumption; try reflexivity; try lia.
    + f_equal. f_equal. lia.
    + rewrite append_empty_r. apply Hfit. lia.
    + replace (k + Z.of_nat i + 1) with (k + Z.of_nat (S i)) by lia.
      apply Hfit. lia.
Qed.

(** X8. Applied [i] times to a name made of a text without digits followed
    by the number [k], [PortNext] gives that text followed by [k + i], as
    long as the names fit the buffer and the numbers advanced are at most
    [INT_MAX]. *)
Theorem X8_PortNext_counts_up (n : nat) (pre : string) (k : Z) (i : nat) :
  no_digit pre = true -> 0 <= k -> k + Z.of_nat i <= INT_MAX + 1 ->
  (forall j, (j <= i)%nat ->
             (String.length (pre ++ decimal (k + Z.of_nat j)) < n)%nat) ->
  Nat.iter i (PortNext_in n) (pre ++ decimal k)%string
  = (pre ++ decimal (k + Z.of_nat i))%string.
Proof. exact (PortNext_in_iter n pre k i). Qed.

Lemma X8_witness :
  Nat.iter 3 (PortNext_in 4096) ("/dev/ttyUSB" ++ decimal 8)%string
  = ("/dev/ttyUSB" ++ decimal 11)%string.
Proof.
  apply (X8_PortNext_counts_up 4096 "/dev/ttyUSB" 8 3);
    try reflexivity; try (vm_compute; discriminate).
  intros j Hj.
  assert (C : j = 0%nat \/ j = 1%nat \/ j = 2%nat \/ j = 3%nat) by lia.
  destruct C as [->|[->|[->| ->]]]; vm_compute; lia.
Defined.

(** ** More about a tick *)

Lemma flat_map_outside {A B : Type} (f : A -> list B) (c : A -> bool)
    (l : list A) :
  (forall a, c a = true -> f a = []) ->
  Forall (fun a => c a = true) l -> flat_map f l = [].
Proof.
  intros Hc H. induction H as [|a l Ha _ IH]; [reflexivity|].
  simpl. rewrite (Hc a Ha), IH. reflexivity.
Qed.

Lemma u32_add_l (a b : Z) : u32 (u32 a + b) = u32 (a + b).
Proof. unfold u32. apply Z.add_mod_idemp_l. discriminate. Qed.

Lemma u32_u32 (a : Z) : u32 (u32 a) = u32 a.
Proof. unfold u32. apply Z.mod_mod. discriminate. Qed.

Section ServiceFacts.
Context {W : Type}.
Variable E : Collab W.
Variable cfg : TestConfig.

(** The servicing loop in full: either every stream is serviced, in order,
    and the totals grow by the sums of the answers; or the loop stops at
    the first stream whose [Service()] fails, which is its last call. *)
Lemma service_streams_trace (idxs : list nat) :
  forall v w v' w' t,
    service_streams E idxs v w = (v', w', t) ->
    failed v = false ->
    total_bytes v = u32 (total_bytes v) ->
    total_recv v = u32 (total_recv v) ->
    total_sent v = u32 (total_sent v) ->
    (failed v' = false
     /\ services t = map (fun idx => (idx, true)) idxs
     /\ total_bytes v' = u32 (total_bytes v + sum (transfer_answers t))
     /\ total_recv v' = u32 (total_recv v + sum (recvd_answers t))
     /\ total_sent v' = u32 (total_sent v + sum (sent_answers t)))
    \/ (failed v' = true
        /\ exists before k after t0,
             idxs = before ++ k :: after
             /\ services t = map (fun idx => (idx, true)) before
                             ++ [(k, false)]
             /\ t = t0 ++ [EvService k false]).
Proof.
  induction idxs as [|i idxs IH]; intros v w v' w' t H Hf Hb0 Hr0 Hs0.
  - inversion H; subst. left. simpl. unfold sum. simpl.
    rewrite !Z.add_0_r. auto.
  - simpl in H. unfold bind, call in H.
    destruct (stream_Service E i w) as [ok w1].
    destruct ok; simpl in H.
    + destruct (stream_TransferBytes E i w1) as [tb w2].
      destruct (stream_BytesRecvd E i w2) as [rv w3].
      destruct (stream_BytesSent E i w3) as [sn w4].
      destruct (stream_Completed E i w4) as [c w5].
      match type of H with
      | context [service_streams E idxs ?v0 w5] =>
          specialize (IH v0 w5);
          destruct (service_streams E idxs v0 w5) as [[v1 w6] t1]
      end.
      specialize (IH _ _ _ eq_refl Hf). simpl in IH.
      rewrite !u32_u32 in IH. specialize (IH eq_refl eq_refl eq_refl).
      inversion H; subst; clear H. unfold same.
      destruct IH as [(Hf1 & Hs & Hb & Hr & Hsn)
                     |(Hf1 & before & k & after & t0 & -> & Hs & ->)].
      * left. simpl. rewrite Hs, Hb, Hr, Hsn. unfold sum. simpl.
        rewrite !u32_add_l, !Z.add_assoc. auto.
      * right. split; [exact Hf1|].
        exists (i :: before), k, after.
        eexists (EvService i true :: _ :: _ :: _ :: _ :: t0).
        simpl. rewrite Hs. auto.
    + inversion H; subst; clear H. right. split; [reflexivity|].
      exists [], i, idxs, []. auto.
Qed.

End ServiceFacts.

Lemma services_app (t1 t2 : list Event) :
  services (t1 ++ t2) = services t1 ++ services t2.
Proof. unfold services. apply flat_map_app. Qed.

Lemma stops_app (t1 t2 : list Event) : stops (t1 ++ t2) = stops t1 ++ stops t2.
Proof. unfold stops. apply flat_map_app. Qed.

Lemma stops_map_EvStop (l : list nat) : stops (map EvStop l) = l.
Proof. induction l; simpl; congruence. Qed.

Lemma in_services (t : list Event) (k : nat) (ok : bool) :
  In (EvService k ok) t -> In (k, ok) (services t).
Proof.
  intros H. unfold services. apply in_flat_map.
  exists (EvService k ok). split; [exact H | left; reflexivity].
Qed.

(** Where a stream sits in [0 .. n-1], the streams before it are
    [0 .. k-1]. *)
Lemma seq_split (before after : list nat) (k : nat) :
  forall s n,
    seq s n = before ++ k :: after ->
    before = seq s (k - s) /\ (s <= k < s + n)%nat.
Proof.
  induction before as [|b before IH]; intros s n H.
  - destruct n as [|n]; [discriminate|]. simpl in H.
    injection H as <- _. rewrite Nat.sub_diag. split; [reflexivity | lia].
  - destruct n as [|n]; [discriminate|]. simpl in H.
    injection H as <- H. destruct (IH _ _ H) as [Hb Hk].
    split; [|lia].
    replace (k - s)%nat with (S (k - S s)) by lia.
    simpl. f_equal. exact Hb.
Qed.

Section TickParts.
Context {W : Type}.
Variable E : Collab W.
Variable cfg : TestConfig.
Variables (n : nat) (st pb : Z) (w : W).
Variables (te : TickEnd) (w' : W) (evs : list Event).
Hypothesis Htick : tick E cfg n st pb w = (te, w', evs).

(** A tick in Streaming, with the run of its servicing loop. *)
Lemma tick_streaming_parts :
  tk_state te = StateStreaming ->
  exists v w0 w1 svc tm tail,
    service_streams E (seq 0 n) (mkVars 0 0 0 false true) w0 = (v, w1, svc)
    /\ evs = EvCurrentState StateStreaming :: svc ++ tm ++ tail
    /\ timer_trace cfg n StateStreaming st (tk_start_time te) tm
    /\ tail_trace n v pb te tail
    /\ total_bytes (tk_vars te) = total_bytes v
    /\ total_recv (tk_vars te) = total_recv v
    /\ total_sent (tk_vars te) = total_sent v.
Proof.
  intros Hs.
  destruct (tick_spec E cfg n st pb w te w' evs Htick)
    as (w1 & v & w2 & body & tail & _ & Hcase & Hevs & Hb & Hr & Hsn & _
        & Htail).
  destruct (state_case_spec E cfg n _ st w1 _ _ _ _ Hcase)
    as (svc & tm & Hbody & Htm & _ & Hstream).
  destruct (Hstream Hs) as [w3 Hsvc].
  rewrite Hs in *.
  exists v, w1, w3, svc, tm, tail.
  repeat split; auto.
  rewrite Hevs, Hbody, <- app_assoc. reflexivity.
Qed.

(** A tick in one of the three waiting states: the elapsed time is read,
    and the transition is made if the dwell is reached. *)
Lemma tick_waiting_parts :
  tk_state te <> StateStreaming ->
  exists e tail,
    tail_trace n vars0 pb te tail
    /\ ((e < dwell (tk_state te)
         /\ evs = EvCurrentState (tk_state te)
                  :: EvElapsedTime st e :: tail
         /\ tk_start_time te = st)
        \/ (dwell (tk_state te) <= e
            /\ evs = EvCurrentState (tk_state te)
                     :: EvElapsedTime st e
                     :: transition_calls n (tk_state te) (tk_start_time te)
                     ++ tail)).
Proof.
  intros Hs.
  destruct (tick_anatomy E cfg n st pb w te w' evs Htick)
    as (v & svc & tm & tail & Hevs & _ & Htm & Htail & _ & _ & Hother & _).
  destruct (Hother Hs) as [-> ->]. simpl in Hevs.
  destruct Htm as [(Hc & _)|[(e & Hlt & -> & Hst)|(e & Hle & ->)]];
    [contradiction | |]; exists e, tail; (split; [exact Htail|]).
  - left. auto.
  - right. auto.
Qed.

(** The streams a tick stops: all of them, in order, if it fails. *)
Lemma tick_stops :
  stops evs = if failed (tk_vars te) then seq 0 n else [].
Proof.
  destruct (tick_anatomy E cfg n st pb w te w' evs Htick)
    as (v & svc & tm & tail & -> & Hsvc & Htm & Htail & _).
  change (stops (EvCurrentState (tk_state te) :: svc ++ tm ++ tail))
    with (stops (svc ++ tm ++ tail)).
  rewrite !stops_app.
  unfold stops at 1 2.
  rewrite (flat_map_outside _ is_stream_query svc);
    [|intros []; simpl; congruence | exact Hsvc].
  rewrite (flat_map_outside _ is_timer_event tm);
    [|intros []; simpl; congruence
     |exact (timer_trace_events cfg _ _ _ _ _ Htm)].
  simpl.
  destruct Htail
    as [(-> & _ & [(_ & ->)|(_ & ->)])|(-> & _ & [(_ & -> & _)|(_ & -> & _)])];
    simpl; rewrite ?stops_map_EvStop; reflexivity.
Qed.

End TickParts.

(** ** Further properties of a tick *)

(** X9. In Suspending, once the elapsed time read is 5,000 us or more the
    device state is set to Suspended and the clock restarted; in Suspended,
    once it is 5,000,000 us or more the device is told to resume and the
    clock restarted.  The tick makes these calls right after reading the
    state and the time, and then only services the device, stops the
    streams or reports progress. *)
Theorem X9_suspending_and_suspended_transitions {W : Type} (E : Collab W)
    (cfg : TestConfig) (n : nat) (start_time prev_bytes : Z) (w : W)
    (te : TickEnd) (w' : W) (evs : list Event) (e : Z) :
  tick E cfg n start_time prev_bytes w = (te, w', evs) ->
  In (EvElapsedTime start_time e) evs ->
  (tk_state te = StateSuspending -> 5000 <= e ->
   exists tail,
     evs = [EvCurrentState StateSuspending; EvElapsedTime start_time e;
            EvSetState StateSuspended; EvTimeUs (tk_start_time te);
            EvPrint "Suspended"] ++ tail
     /\ Forall (fun x => is_tail_event x = true) tail)
  /\ (tk_state te = StateSuspended -> 5000000 <= e ->
      exists tail,
        evs = [EvCurrentState StateSuspended; EvElapsedTime start_time e;
               EvDevResume; EvTimeUs (tk_start_time te)] ++ tail
        /\ Forall (fun x => is_tail_event x = true) tail).
Proof.
  intros Htick Hin.
  assert (Hwait : tk_state te <> StateStreaming ->
    exists tail,
      Forall (fun x => is_tail_event x = true) tail
      /\ ((e < dwell (tk_state te)
           /\ evs = EvCurrentState (tk_state te)
                    :: EvElapsedTime start_time e :: tail)
          \/ (dwell (tk_state te) <= e
              /\ evs = EvCurrentState (tk_state te)
                       :: EvElapsedTime start_time e
                       :: transition_calls n (tk_state te)
                            (tk_start_time te) ++ tail))).
  { intros Hs.
    destruct (tick_waiting_parts E cfg _ _ _ _ _ _ _ Htick Hs)
      as (e' & tail & Htail & Hcase).
    pose proof (tail_trace_events _ _ _ _ _ Htail) as Ctail.
    assert (He : e' = e).
    { destruct Hcase as [(_ & Hevs & _)|(_ & Hevs)]; rewrite Hevs in Hin;
        destruct Hin as [Hin|[Hin|Hin]]; try discriminate;
        try (injection Hin as ->; reflexivity); exfalso.
      - revert Hin. eapply not_in_outside; [exact Ctail|reflexivity].
      - apply in_app_or in Hin. destruct Hin as [Hin|Hin].
        + pose proof (transition_calls_events n (tk_state te)
                        (tk_start_time te)) as Hc.
          rewrite Forall_forall in Hc. exact (Hc _ Hin).
        + revert Hin. eapply not_in_outside; [exact Ctail|reflexivity]. }
    subst e'. exists tail. split; [exact Ctail|].
    destruct Hcase as [(Hlt & Hevs & _)|(Hle & Hevs)]; auto. }
  split; intros Hs Hle;
    (destruct Hwait as (tail & Ctail & Hcase); [rewrite Hs; discriminate|]);
    rewrite Hs in Hcase;
    (destruct Hcase as [(Hlt & _)|(_ & Hevs)];
     [exfalso; simpl in Hlt;
      unfold kSuspendingInterval, kSuspendedInterval in Hlt; lia|]);
    exists tail; split; auto.
Qed.

Lemma X9_witness :
  (exists tail,
      snd (Runs.tick_on Bench.plain 2 0 0 MoreRuns.suspending_due)
      = [EvCurrentState StateSuspending; EvElapsedTime 0 6000;
         EvSetState StateSuspended; EvTimeUs 26000; EvPrint "Suspended"]
        ++ tail
      /\ Forall (fun x => is_tail_event x = true) tail)
  /\ (exists tail,
         snd (Runs.tick_on Bench.plain 2 0 0 MoreRuns.suspended_due)
         = [EvCurrentState StateSuspended; EvElapsedTime 0 6000000;
            EvDevResume; EvTimeUs 6020000] ++ tail
         /\ Forall (fun x => is_tail_event x = true) tail).
Proof.
  split.
  - refine (proj1 (X9_suspending_and_suspended_transitions Bench.collab
                     Bench.plain 2 0 0 MoreRuns.suspending_due
                     (fst (Runs.tick_on Bench.plain 2 0 0
                             MoreRuns.suspending_due))
                     (snd (fst (tick Bench.collab Bench.plain 2 0 0
                                     MoreRuns.suspending_due)))
                     _ 6000 _ _) _ _).
    + reflexivity.
    + vm_compute. tauto.
    + reflexivity.
    + lia.
  - refine (proj2 (X9_suspending_and_suspended_transitions Bench.collab
                     Bench.plain 2 0 0 MoreRuns.suspended_due
                     (fst (Runs.tick_on Bench.plain 2 0 0
                             MoreRuns.suspended_due))
                     (snd (fst (tick Bench.collab Bench.plain 2 0 0
                                     MoreRuns.suspended_due)))
                     _ 6000000 _ _) _ _).
    + reflexivity.
    + vm_compute. tauto.
    + reflexivity.
    + lia.
Defined.

Lemma tick_streaming_without_suspend {W : Type} (E : Collab W)
    (cfg : TestConfig) (n : nat) (st pb : Z) (w : W)
    (te : TickEnd) (w' : W) (evs : list Event) :
  tick E cfg n st pb w = (te, w', evs) ->
  suspending cfg = false -> tk_state te = StateStreaming ->
  exists v svc tail,
    evs = EvCurrentState StateStreaming :: svc ++ tail
    /\ Forall (fun x => is_stream_query x = true) svc
    /\ tail_trace n v pb te tail
    /\ tk_start_time te = st.
Proof.
  intros Htick Hoff Hs.
  destruct (tick_spec E cfg n st pb w te w' evs Htick)
    as (w1 & v & w2 & body & tail & _ & Hcase & Hevs & _ & _ & _ & _ & Htail).
  rewrite Hs in Hcase, Hevs. simpl in Hcase. unfold bind at 1 in Hcase.
  destruct (service_streams E (seq 0 n) _ w1) as [[v1 w3] svc] eqn:Hsvc.
  unfold bind, initiate_suspend in Hcase. rewrite Hoff in Hcase.
  simpl in Hcase. injection Hcase as <- Hst _ <-.
  exists v1, svc, tail. rewrite !app_nil_r in Hevs.
  repeat split; auto.
  apply (service_streams_spec E _ _ _ _ _ _ Hsvc).
Qed.

(** X10. A tick pauses or resumes a stream, suspends or resumes the device
    or sets its state only after reading an elapsed time that has reached
    the dwell of the state it observed; otherwise [start_time] is kept.
    With suspend testing off, a tick in Streaming does not read the time
    at all. *)
Theorem X10_no_transition_before_the_dwell {W : Type} (E : Collab W)
    (cfg : TestConfig) (n : nat) (start_time prev_bytes : Z) (w : W)
    (te : TickEnd) (w' : W) (evs : list Event) :
  tick E cfg n start_time prev_bytes w = (te, w', evs) ->
  ((exists e, In (EvElapsedTime start_time e) evs
              /\ dwell (tk_state te) <= e)
   \/ (tk_start_time te = start_time
       /\ Forall (fun x => is_transition_call x = false) evs))
  /\ (suspending cfg = false -> tk_state te = StateStreaming ->
      tk_start_time te = start_time
      /\ Forall (fun x => is_timer_event x = false) evs).
Proof.
  intros Htick.
  destruct (tick_anatomy E cfg _ _ _ _ _ _ _ Htick)
    as (v & svc & tm & tail & Hevs & Hsvc & Htm & Htail & _).
  pose proof (tail_trace_events _ _ _ _ _ Htail) as Ctail.
  assert (Csvc : forall p : Event -> bool,
             (forall x, is_stream_query x = true -> p x = false) ->
             Forall (fun x => p x = false) svc)
    by (intros p Hp; apply (Forall_outside _ is_stream_query); auto).
  assert (Ctl : forall p : Event -> bool,
             (forall x, is_tail_event x = true -> p x = false) ->
             Forall (fun x => p x = false) tail)
    by (intros p Hp; apply (Forall_outside _ is_tail_event); auto).
  split.
  - destruct Htm as [(_ & _ & -> & Hst)|[(e & Hlt & -> & Hst)|(e & Hle & ->)]].
    + right. split; [exact Hst|]. rewrite Hevs.
      constructor; [reflexivity|]. apply Forall_app. split.
      * apply Csvc. intros []; simpl; congruence.
      * apply Ctl. intros []; simpl; congruence.
    + right. split; [exact Hst|]. rewrite Hevs.
      constructor; [reflexivity|]. apply Forall_app. split.
      * apply Csvc. intros []; simpl; congruence.
      * constructor; [reflexivity|]. apply Ctl. intros []; simpl; congruence.
    + left. exists e. split; [|exact Hle]. rewrite Hevs.
      right. apply in_or_app. right. left. reflexivity.
  - intros Hoff Hs.
    destruct (tick_streaming_without_suspend E cfg _ _ _ _ _ _ _ Htick Hoff
                Hs) as (v2 & svc2 & tail2 & -> & Hsvc2 & Htail2 & Hst).
    split; [exact Hst|].
    constructor; [reflexivity|]. apply Forall_app. split.
    + apply (Forall_outside _ is_stream_query);
        [intros []; simpl; congruence | exact Hsvc2].
    + apply (Forall_outside _ is_tail_event);
        [intros []; simpl; congruence
        |exact (tail_trace_events _ _ _ _ _ Htail2)].
Qed.

Lemma X10_witness :
  tk_start_time (fst (Runs.tick_on Bench.plain 3 7 0 MoreRuns.three_streams))
  = 7
  /\ Forall (fun x => is_timer_event x = false)
            (snd (Runs.tick_on Bench.plain 3 7 0 MoreRuns.three_streams)).
Proof.
  refine (proj2 (X10_no_transition_before_the_dwell Bench.collab Bench.plain
                   3 7 0 MoreRuns.three_streams
                   (fst (Runs.tick_on Bench.plain 3 7 0
                           MoreRuns.three_streams))
                   (snd (fst (tick Bench.collab Bench.plain 3 7 0
                                   MoreRuns.three_streams)))
                   _ _) _ _); reflexivity.
Defined.

Lemma in_all_true_false (k : nat) (l : list nat) (k' : nat) :
  In (k, false) (map (fun idx => (idx, true)) l ++ [(k', false)]) -> k = k'.
Proof.
  intros H. apply in_app_or in H. destruct H as [H|[H|[]]].
  - apply in_map_iff in H. destruct H as (j & Hj & _). discriminate.
  - congruence.
Qed.

(** X11. When a stream's [Service()] fails in a tick, the streams before it
    were serviced, in order, and none after it; the device is not serviced
    in that tick; every stream is stopped, in order, and the tick ends in
    failure. *)
Theorem X11_service_failure_ends_the_tick {W : Type} (E : Collab W)
    (cfg : TestConfig) (n : nat) (start_time prev_bytes : Z) (w : W)
    (te : TickEnd) (w' : W) (evs : list Event) (k : nat) :
  tick E cfg n start_time prev_bytes w = (te, w', evs) ->
  In (EvService k false) evs ->
  (k < n)%nat
  /\ tk_state te = StateStreaming
  /\ failed (tk_vars te) = true
  /\ services evs = all_true k ++ [(k, false)]
  /\ device_services evs = []
  /\ stops evs = seq 0 n.
Proof.
  intros Htick Hin.
  assert (Hs : tk_state te = StateStreaming).
  { destruct (tk_state te) eqn:Hs; [reflexivity| | |]; exfalso;
      (assert (Hne : tk_state te <> StateStreaming)
         by (rewrite Hs; discriminate));
      exact (proj2 (proj2 (tick_not_streaming E cfg _ _ _ _ _ _ _ Htick Hne))
               k false Hin). }
  destruct (tick_streaming_parts E cfg _ _ _ _ _ _ _ Htick Hs)
    as (v & w0 & w1 & svc & tm & tail & Hsvc & Hevs & Htm & Htail & _).
  pose proof (timer_trace_events cfg _ _ _ _ _ Htm) as Ctm.
  pose proof (tail_trace_events _ _ _ _ _ Htail) as Ctail.
  assert (Hservices : services evs = services svc).
  { rewrite Hevs. change (services (svc ++ tm ++ tail) = services svc).
    rewrite !services_app. unfold services at 2 3.
    rewrite (flat_map_outside _ is_timer_event tm);
      [|intros []; simpl; congruence | exact Ctm].
    rewrite (flat_map_outside _ is_tail_event tail);
      [|intros []; simpl; congruence | exact Ctail].
    rewrite app_nil_r. reflexivity. }
  apply in_services in Hin. rewrite Hservices in Hin.
  destruct (service_streams_trace E _ _ _ _ _ _ Hsvc eq_refl eq_refl eq_refl
              eq_refl)
    as [(_ & Hall & _)|(Hfv & before & k' & after & t0 & Hseq & Hsv & _)].
  { exfalso. rewrite Hall in Hin. apply in_map_iff in Hin.
    destruct Hin as (j & Hj & _). discriminate. }
  rewrite Hsv in Hin. apply in_all_true_false in Hin. subst k'.
  destruct (seq_split _ _ _ _ _ Hseq) as [Hbefore Hk].
  rewrite Nat.sub_0_r in Hbefore.
  assert (Htl : tail = map EvStop (seq 0 n) /\ failed (tk_vars te) = true).
  { destruct Htail as [(Hf & _ & [(_ & Ht)|(Hc & _)])|(_ & Hc & _)];
      try congruence. auto. }
  destruct Htl as [-> Hfail].
  split; [lia|]. split; [exact Hs|]. split; [exact Hfail|].
  split; [rewrite Hservices, Hsv, Hbefore; reflexivity|].
  split.
  - rewrite Hevs. unfold device_services. simpl. rewrite !flat_map_app.
    rewrite (flat_map_outside _ is_stream_query svc);
      [|intros []; simpl; congruence
       |exact (proj1 (service_streams_spec E _ _ _ _ _ _ Hsvc))].
    rewrite (flat_map_outside _ is_timer_event tm);
      [|intros []; simpl; congruence | exact Ctm].
    apply (flat_map_outside _
             (fun e => match e with EvStop _ => true | _ => false end));
      [intros []; simpl; congruence | apply Forall_map_all; reflexivity].
  - rewrite (tick_stops E cfg _ _ _ _ _ _ _ Htick), Hfail. reflexivity.
Qed.

Lemma X11_witness :
  services (snd (Runs.tick_on Bench.plain 3 0 0 MoreRuns.second_fails))
  = all_true 1 ++ [(1%nat, false)]
  /\ device_services
       (snd (Runs.tick_on Bench.plain 3 0 0 MoreRuns.second_fails)) = []
  /\ stops (snd (Runs.tick_on Bench.plain 3 0 0 MoreRuns.second_fails))
     = seq 0 3.
Proof.
  refine (proj2 (proj2 (proj2
            (X11_service_failure_ends_the_tick Bench.collab Bench.plain 3 0 0
               MoreRuns.second_fails
               (fst (Runs.tick_on Bench.plain 3 0 0 MoreRuns.second_fails))
               (snd (fst (tick Bench.collab Bench.plain 3 0 0
                               MoreRuns.second_fails)))
               _ 1%nat _ _)))).
  - reflexivity.
  - vm_compute. tauto.
Defined.

(** X12. In a tick that does not fail, the totals of bytes expected,
    received and sent are the sums, modulo 2^32, of what the streams
    answered in that tick (and zero outside Streaming, where no stream is
    asked); the device is serviced exactly once, successfully. *)
Theorem X12_totals_are_sums {W : Type} (E : Collab W)
    (cfg : TestConfig) (n : nat) (start_time prev_bytes : Z) (w : W)
    (te : TickEnd) (w' : W) (evs : list Event) :
  tick E cfg n start_time prev_bytes w = (te, w', evs) ->
  failed (tk_vars te) = false ->
  total_bytes (tk_vars te) = u32 (sum (transfer_answers evs))
  /\ total_recv (tk_vars te) = u32 (sum (recvd_answers evs))
  /\ total_sent (tk_vars te) = u32 (sum (sent_answers evs))
  /\ device_services evs = [true]
  /\ (tk_state te <> StateStreaming ->
      total_bytes (tk_vars te) = 0 /\ total_recv (tk_vars te) = 0
      /\ total_sent (tk_vars te) = 0).
Proof.
  intros Htick Hf.
  destruct (tick_spec E cfg _ _ _ _ _ _ _ Htick)
    as (w1 & v & w2 & body & tail & _ & Hcase & Hevs & Hb & Hr & Hsn & _
        & Htail).
  destruct (state_case_spec E cfg n _ _ w1 _ _ _ _ Hcase)
    as (svc & tm & Hbody & Htm & Hother & Hstream).
  pose proof (timer_trace_events cfg _ _ _ _ _ Htm) as Ctm.
  pose proof (tail_trace_events _ _ _ _ _ Htail) as Ctail.
  assert (Hfv : failed v = false).
  { destruct Htail as [(Hc & _)|(_ & Hc & _)]; congruence. }
  assert (Hdev : device_services tail = [true]).
  { destruct Htail as [(Hc & _)|(_ & _ & [(_ & -> & _)|(_ & -> & _)])];
      [congruence | reflexivity | reflexivity]. }
  assert (Hparts : forall f : Event -> list Z,
             (forall x, is_timer_event x = true -> f x = []) ->
             (forall x, is_tail_event x = true -> f x = []) ->
             f (EvCurrentState (tk_state te)) = [] ->
             flat_map f evs = flat_map f svc).
  { intros f Hft Hfl Hfc. rewrite Hevs, Hbody. simpl. rewrite Hfc. simpl.
    rewrite !flat_map_app.
    rewrite (flat_map_outside f is_timer_event tm Hft Ctm).
    rewrite (flat_map_outside f is_tail_event tail Hfl Ctail).
    rewrite !app_nil_r. reflexivity. }
  assert (Hta : transfer_answers evs = transfer_answers svc)
    by (apply Hparts; try reflexivity; intros []; simpl; congruence).
  assert (Hra : recvd_answers evs = recvd_answers svc)
    by (apply Hparts; try reflexivity; intros []; simpl; congruence).
  assert (Hsa : sent_answers evs = sent_answers svc)
    by (apply Hparts; try reflexivity; intros []; simpl; congruence).
  assert (Hquery : Forall (fun x => is_stream_query x = true) svc).
  { destruct (tk_state te) eqn:Hs;
      try (destruct Hother as [-> _]; [discriminate | constructor]).
    destruct (Hstream eq_refl) as [w3 Hsvc].
    apply (service_streams_spec E _ _ _ _ _ _ Hsvc). }
  assert (Hds : device_services evs = [true]).
  { rewrite Hevs, Hbody. unfold device_services. simpl.
    rewrite !flat_map_app.
    rewrite (flat_map_outside _ is_stream_query svc);
      [|intros []; simpl; congruence | exact Hquery].
    rewrite (flat_map_outside _ is_timer_event tm);
      [|intros []; simpl; congruence | exact Ctm].
    exact Hdev. }
  rewrite Hb, Hr, Hsn, Hta, Hra, Hsa.
  destruct (tk_state te) eqn:Hs;
    [|destruct Hother as [-> ->]; [discriminate|];
      repeat split; auto; reflexivity ..].
  destruct (Hstream eq_refl) as [w3 Hsvc].
  destruct (service_streams_trace E _ _ _ _ _ _ Hsvc eq_refl eq_refl
              eq_refl eq_refl)
    as [(_ & _ & Hvb & Hvr & Hvs)|(Hc & _)]; [|congruence].
  simpl in Hvb, Hvr, Hvs. repeat split; auto; congruence.
Qed.

Lemma X12_witness :
  total_sent
    (tk_vars (fst (Runs.tick_on Bench.plain 3 0 0 MoreRuns.three_streams)))
  = u32 (sum [100; 200; 300])
  /\ device_services
       (snd (Runs.tick_on Bench.plain 3 0 0 MoreRuns.three_streams))
     = [true].
Proof.
  destruct (X12_totals_are_sums Bench.collab Bench.plain 3 0 0
              MoreRuns.three_streams
              (fst (Runs.tick_on Bench.plain 3 0 0 MoreRuns.three_streams))
              (snd (fst (tick Bench.collab Bench.plain 3 0 0
                              MoreRuns.three_streams)))
              (snd (Runs.tick_on Bench.plain 3 0 0 MoreRuns.three_streams))
              eq_refl eq_refl)
    as (_ & _ & Hsent & Hdev & _).
  split; [exact Hsent | exact Hdev].
Defined.

(** ** Further properties of a run *)

Lemma serial_opens_app (t1 t2 : list Event) :
  serial_opens (t1 ++ t2) = serial_opens t1 ++ serial_opens t2.
Proof. unfold serial_opens. apply flat_map_app. Qed.

(** No stream is Serial unless the test is Streams with serial ports
    preferred and suspend testing off, and then every stream is. *)
Lemma stream_type_serial (K : TestNumbers) (cfg : TestConfig) (testNum : Z)
    (testArg : list Z) (idx : nat) :
  stream_type K cfg testNum testArg idx = StreamType_Serial ->
  testNum = kUsbTestNumberStreams K
  /\ serial cfg = true /\ suspending cfg = false
  /\ forall j, stream_type K cfg testNum testArg j = StreamType_Serial.
Proof.
  unfold stream_type.
  destruct (Z.eqb_spec testNum (kUsbTestNumberStreams K)) as [Hs|_].
  - destruct (serial cfg), (suspending cfg); simpl; try discriminate. auto.
  - destruct (testNum =? kUsbTestNumberIso K); [discriminate|].
    destruct (testNum =? kUsbTestNumberMixed K); [|discriminate].
    unfold mixed_code_type.
    repeat match goal with |- context [if ?b then _ else _] => destruct b end;
      discriminate.
Qed.

Section MoreRunFacts.
Context {W : Type}.
Variable E : Collab W.
Variable K : TestNumbers.
Variable bld : Build.
Variable cfg : TestConfig.

Lemma main_loop_stops (fuel n : nat) :
  forall st pb w,
    stops (List.concat (map snd (lr_ticks (main_loop E cfg fuel n st pb w))))
    = match lr_exit (main_loop E cfg fuel n st pb w) with
      | ExitFailed => seq 0 n
      | _ => []
      end.
Proof.
  induction fuel as [|fuel IH]; intros st pb w; [reflexivity|].
  simpl. destruct (tick E cfg n st pb w) as [[te w1] evs] eqn:Ht.
  pose proof (tick_stops E cfg _ _ _ _ _ _ _ Ht) as Hstops.
  destruct (failed (tk_vars te)) eqn:Hf.
  - simpl. rewrite app_nil_r. exact Hstops.
  - destruct (done (tk_vars te)).
    + simpl. rewrite app_nil_r. exact Hstops.
    + simpl. rewrite stops_app, Hstops, IH. reflexivity.
Qed.

(** The ports handed to one stream, and the ports left for the next. *)
Lemma open_stream_ports (t : StreamType) (idx : nat) (tb : Z)
    (PortNext : string -> string) (in_port out_port : string) (w : W) :
  forall r in_port' out_port' w' tr,
    open_stream E bld cfg t idx tb PortNext in_port out_port w
    = (r, in_port', out_port', w', tr) ->
    (t = StreamType_Serial
     /\ serial_opens tr = [(idx, in_port, out_port)]
     /\ (r = Some true ->
         in_port' = PortNext in_port /\ out_port' = PortNext out_port))
    \/ (t <> StreamType_Serial /\ serial_opens tr = []).
Proof.
  intros r ip op w' tr H.
  assert (Hdef : forall (w0 : W) r0 w1 tr0,
             open_default bld w0 = (r0, w1, tr0) -> serial_opens tr0 = []).
  { intros w0 r0 w1 tr0 Hd. unfold open_default in Hd.
    destruct (NDEBUG bld); inversion Hd; reflexivity. }
  assert (Hint : forall bulk w0 r0 w1 tr0,
             open_int E cfg bulk idx tb w0 = (r0, w1, tr0) ->
             serial_opens tr0 = []).
  { intros bulk w0 r0 w1 tr0 Hd. unfold open_int, bind, act, call in Hd.
    destruct (int_Open E idx _) as [ok w2]. inversion Hd; reflexivity. }
  destruct t; simpl in H; unfold bind in H;
    try (right; split; [discriminate|]).
  - destruct (open_default bld w) as [[r0 w1] tr0] eqn:Hd.
    inversion H; subst. rewrite app_nil_r. eauto.
  - destruct (open_default bld w) as [[r0 w1] tr0] eqn:Hd.
    inversion H; subst. rewrite app_nil_r. eauto.
  - destruct (STREAMTEST_LIBUSB bld).
    + destruct (open_int E cfg true idx tb w) as [[r0 w1] tr0] eqn:Hd.
      inversion H; subst. rewrite app_nil_r. eauto.
    + destruct (open_default bld w) as [[r0 w1] tr0] eqn:Hd.
      inversion H; subst. rewrite app_nil_r. eauto.
  - destruct (STREAMTEST_LIBUSB bld).
    + destruct (open_int E cfg false idx tb w) as [[r0 w1] tr0] eqn:Hd.
      inversion H; subst. rewrite app_nil_r. eauto.
    + destruct (open_default bld w) as [[r0 w1] tr0] eqn:Hd.
      inversion H; subst. rewrite app_nil_r. eauto.
  - left. split; [reflexivity|]. unfold act, call in H.
    destruct (serial_Open E idx in_port out_port _) as [ok w2].
    unfold same in H. destruct ok; inversion H; subst; simpl;
      (split; [reflexivity|]); [auto | discriminate].
Qed.

(** In the opening loop from index [i], stream [idx] is given the port
    names advanced [idx - i] times. *)
Lemma open_streams_serial_ports (testNum : Z) (testArg : list Z) (tb : Z)
    (PortNext : string -> string) (m : nat) :
  forall i in_port out_port w o w' t,
    open_streams E K bld cfg testNum testArg tb PortNext (seq i m) in_port
                 out_port w = (o, w', t) ->
    forall idx a b,
      In (idx, a, b) (serial_opens t) ->
      a = Nat.iter (idx - i) PortNext in_port
      /\ b = Nat.iter (idx - i) PortNext out_port
      /\ (i <= idx)%nat
      /\ stream_type K cfg testNum testArg idx = StreamType_Serial.
Proof.
  induction m as [|m IH]; intros i ip op w o w' t H idx a b Hin.
  - inversion H; subst. contradiction.
  - simpl in H. unfold bind at 1 in H. unfold emit at 1 in H.
    unfold bind at 1 in H.
    set (ty := stream_type K cfg testNum testArg i) in *.
    destruct (open_stream E bld cfg ty i tb PortNext ip op w)
      as [[[[r ip'] op'] w1] tr] eqn:Hopen.
    pose proof (open_stream_ports _ _ _ _ _ _ _ _ _ _ _ _ Hopen) as Hone.
    assert (Hhead : In (idx, a, b) (serial_opens tr) ->
                    a = Nat.iter (idx - i) PortNext ip
                    /\ b = Nat.iter (idx - i) PortNext op
                    /\ (i <= idx)%nat
                    /\ stream_type K cfg testNum testArg idx
                       = StreamType_Serial).
    { intros Hh. destruct Hone as [(Hty & Hso & _)|(_ & Hso)];
        rewrite Hso in Hh; [|contradiction].
      destruct Hh as [Hh|[]]. injection Hh as <- <- <-.
      rewrite Nat.sub_diag. auto. }
    destruct r as [ok|].
    + destruct ok; cbv beta iota in H; cbn [negb] in H; cbv beta iota in H.
      * destruct (open_streams E K bld cfg testNum testArg tb PortNext
                    (seq (S i) m) ip' op' w1) as [[o1 w2] t1] eqn:Hrest.
        inversion H; subst; clear H.
        change (In (idx, a, b) (serial_opens (tr ++ t1))) in Hin.
        rewrite serial_opens_app in Hin. apply in_app_or in Hin.
        destruct Hin as [Hin|Hin]; [auto|].
        destruct (IH _ _ _ _ _ _ _ Hrest _ _ _ Hin) as (Ha & Hb & Hle & Hty).
        assert (Hser : ty = StreamType_Serial).
        { destruct (stream_type_serial _ _ _ _ _ Hty) as (_ & _ & _ & Hall).
          apply Hall. }
        destruct Hone as [(_ & _ & Hports)|(Hne & _)]; [|contradiction].
        destruct (Hports eq_refl) as [-> ->].
        replace (idx - i)%nat with (S (idx - S i)) by lia.
        rewrite !Nat.iter_succ_r. repeat split; auto. lia.
      * unfold bind, emit in H.
        pose proof (rollback_trace E i w1) as Hroll.
        destruct (rollback E i w1) as [[u w2] t2]. simpl in Hroll.
        unfold ret in H. inversion H; subst; clear H.
        change (In (idx, a, b)
                   (serial_opens (tr ++ EvPrint "Failed to open stream"
                                        :: map EvDelete (rev (seq 0 i))
                                        ++ []))) in Hin.
        rewrite serial_opens_app in Hin. apply in_app_or in Hin.
        destruct Hin as [Hin|Hin]; [auto|]. exfalso.
        simpl in Hin. rewrite app_nil_r in Hin.
        unfold serial_opens in Hin. apply in_flat_map in Hin.
        destruct Hin as (e & He & Hx). apply in_map_iff in He.
        destruct He as (j & <- & _). contradiction.
    + unfold ret in H. inversion H; subst; clear H.
      change (In (idx, a, b) (serial_opens (tr ++ []))) in Hin.
      rewrite app_nil_r in Hin. auto.
Qed.

End MoreRunFacts.

Lemma in_serial_opens (t : list Event) (idx : nat) (a b : string)
    (ok : bool) :
  In (EvSerialOpen idx a b ok) t -> In (idx, a, b) (serial_opens t).
Proof.
  intros H. unfold serial_opens. apply in_flat_map.
  exists (EvSerialOpen idx a b ok). split; [exact H | left; reflexivity].
Qed.

Section WholeRun.
Context {W : Type}.
Variable E : Collab W.
Variable K : TestNumbers.
Variable bld : Build.
Variable cfg : TestConfig.
Variables (fuel : nat) (PortNext : string -> string).
Variables (in_port out_port : string) (w : W).

Let r := RunTest E K bld cfg fuel PortNext in_port out_port w.
Let testNum := u8 (dev_TestNumber E w).
Let testArg := read_testArg E w.
Let n := Z.to_nat (nstreams_of K testNum testArg).

(** Nothing is opened, deleted or asserted after the opening phase. *)
Lemma run_trace_setup_readings :
  opens (run_trace r) = opens (setup_trace r)
  /\ deletes (run_trace r) = deletes (setup_trace r)
  /\ serial_opens (run_trace r) = serial_opens (setup_trace r).
Proof.
  pose proof (run_loop_events E K bld cfg fuel PortNext in_port out_port w)
    as Hloop. fold r in Hloop.
  unfold run_trace. rewrite opens_app, deletes_app, serial_opens_app.
  unfold opens at 2, deletes at 2, serial_opens at 2.
  rewrite !(flat_map_outside _ is_loop_event _) ;
    try exact Hloop; try (intros []; simpl; congruence).
  rewrite !app_nil_r. auto.
Qed.

(** The streams a run stops. *)
Lemma run_stops :
  stops (run_trace r)
  = match outcome r with
    | Returned rc => if (rc =? 0) || (rc =? 3) then seq 0 n else []
    | _ => []
    end.
Proof.
  pose proof (RunTest_phases E K bld cfg fuel PortNext in_port out_port w)
    as [Hev _]. fold r in Hev.
  assert (Hsetup : stops (setup_trace r) = []).
  { apply (flat_map_outside _ is_setup_event); [|exact Hev].
    intros []; simpl; congruence. }
  unfold run_trace. rewrite !stops_app, Hsetup. simpl.
  destruct (RunTest_inv E K bld cfg fuel PortNext in_port out_port w)
    as [[_ Hr]|[_ (tb & o & w1 & t1 & _ & _ & Hcases)]];
    fold r in Hr || fold r in Hcases.
  { rewrite Hr. reflexivity. }
  destruct Hcases as [[_ Hr]|[[_ Hr]|[_ (start & w2 & Hloop)]]];
    try (rewrite Hr; reflexivity).
  cbv zeta in Hloop. destruct Hloop as (_ & Hticks & Hexit).
  rewrite Hticks, main_loop_stops.
  destruct Hexit as [(-> & -> & ->)|[(-> & -> & ->)|(-> & -> & t & ->)]];
    simpl; rewrite ?app_nil_r; try reflexivity.
  rewrite stops_app, stops_map_EvStop.
  simpl. rewrite app_nil_r. reflexivity.
Qed.

(** How far the opening phase got, and what was deleted. *)
Lemma run_opens :
  exists m,
    (m <= n)%nat
    /\ (opens (setup_trace r) = all_true m
        \/ (opens (setup_trace r) = all_true m ++ [(m, false)]
            /\ (m < n)%nat /\ outcome r = Returned 1))
    /\ (ticks r <> [] -> m = n /\ opens (setup_trace r) = all_true n)
    /\ deletes (setup_trace r)
       = match outcome r with
         | Returned rc => if rc =? 1 then rev (seq 0 m) else []
         | _ => []
         end.
Proof.
  destruct (RunTest_inv E K bld cfg fuel PortNext in_port out_port w)
    as [[Hz Hr]|[_ (tb & o & w1 & t1 & _ & Hsetup & Hcases)]];
    [fold r testNum testArg in Hz, Hr
    |fold r testNum testArg in Hsetup, Hcases].
  { exists 0%nat. rewrite Hr. simpl.
    split; [lia|]. split; [left; reflexivity|].
    split; [intros Hne; contradiction Hne; reflexivity | reflexivity]. }
  destruct (setup_spec E K bld cfg _ _ _ _ _ _ _ _ _ _ _ Hsetup)
    as [_ Hspec]. fold n in Hspec.
  destruct Hcases as [[-> Hr]|[[-> Hr]|[-> (start & w2 & Hloop)]]].
  - destruct Hspec as (k & pre & Hk & -> & Hd & _ & Ho & _).
    exists k. rewrite Hr. simpl.
    rewrite opens_app, deletes_app, Hd, Ho. simpl. rewrite app_nil_r.
    split; [lia|]. split; [left; reflexivity|].
    split; [intros Hne; contradiction Hne; reflexivity | reflexivity].
  - destruct Hspec as (k & pre & Hk & -> & Hd & _ & Ho).
    exists k. rewrite Hr. simpl.
    rewrite opens_app, deletes_app, Hd. simpl.
    rewrite opens_deletes, deletes_deletes, app_nil_r.
    split; [lia|]. split.
    + destruct Ho as [->|(-> & _)]; auto.
    + split; [intros Hne; contradiction Hne; reflexivity | reflexivity].
  - cbv zeta in Hloop. destruct Hloop as (Hs & _ & Hexit).
    destruct Hspec as (Ho & Hd & _).
    exists n. rewrite Hs, opens_app, deletes_app, Ho, Hd. simpl.
    rewrite app_nil_r.
    split; [lia|]. split; [left; reflexivity|].
    split; [auto|].
    destruct Hexit as [(_ & -> & _)|[(_ & -> & _)|(_ & -> & _)]];
      reflexivity.
Qed.

(** The names of the serial ports of stream [idx]. *)
Lemma run_serial_ports (idx : nat) (a b : string) :
  In (idx, a, b) (serial_opens (setup_trace r)) ->
  a = Nat.iter idx PortNext in_port /\ b = Nat.iter idx PortNext out_port
  /\ testNum = kUsbTestNumberStreams K
  /\ serial cfg = true /\ suspending cfg = false.
Proof.
  intros Hin.
  destruct (RunTest_inv E K bld cfg fuel PortNext in_port out_port w)
    as [[Hz Hr]|[_ (tb & o & w1 & t1 & _ & Hsetup & Hcases)]];
    [fold r testNum testArg in Hz, Hr
    |fold r testNum testArg in Hsetup, Hcases].
  { rewrite Hr in Hin. contradiction. }
  assert (Ht1 : In (idx, a, b) (serial_opens t1)).
  { destruct Hcases as [[_ Hr]|[[_ Hr]|[_ (start & w2 & Hloop)]]];
      try (rewrite Hr in Hin; exact Hin).
    cbv zeta in Hloop. destruct Hloop as (Hs & _).
    rewrite Hs, serial_opens_app in Hin. simpl in Hin.
    rewrite app_nil_r in Hin. exact Hin. }
  unfold setup, bind in Hsetup.
  set (m := if verbose cfg then _ else _) in Hsetup.
  assert (Hm : exists t0, m w = (tt, w, t0) /\ serial_opens t0 = []).
  { unfold m. destruct (verbose cfg); eexists; split; reflexivity. }
  destruct Hm as (t0 & Hm & Ht0). rewrite Hm in Hsetup.
  destruct (open_streams E K bld cfg testNum testArg tb PortNext _ in_port
              out_port w) as [[o1 w2] t2] eqn:Hopen.
  injection Hsetup as _ _ <-.
  rewrite serial_opens_app, Ht0 in Ht1. simpl in Ht1.
  destruct (open_streams_serial_ports E K bld cfg _ _ _ _ _ _ _ _ _ _ _ _
              Hopen _ _ _ Ht1) as (Ha & Hb & _ & Hty).
  rewrite Nat.sub_0_r in Ha, Hb.
  destruct (stream_type_serial _ _ _ _ _ Hty) as (Hn & Hs & Hz & _).
  auto.
Qed.

End WholeRun.

(** X13. A run that returns 0 or 3 has called [Stop()] on every stream
    exactly once, in ascending order; a run that ends in any other way
    (a failure to open, a failed assertion) has called it on none. *)
Theorem X13_streams_stopped_once {W : Type} (E : Collab W)
    (K : TestNumbers) (bld : Build) (cfg : TestConfig) (fuel : nat)
    (PortNext : string -> string) (in_port out_port : string) (w : W) :
  let r := RunTest E K bld cfg fuel PortNext in_port out_port w in
  let n := Z.to_nat (nstreams_of K (u8 (dev_TestNumber E w))
                                 (read_testArg E w)) in
  stops (run_trace r)
  = match outcome r with
    | Returned rc => if (rc =? 0) || (rc =? 3) then seq 0 n else []
    | _ => []
    end.
Proof.
  exact (run_stops E K bld cfg fuel PortNext in_port out_port w).
Qed.

(** X14. Streams are opened in ascending order, each at most once, and
    opening ends at the first stream that fails to open.  The polling loop
    runs only if every stream opened.  When [RunTest] returns 1 exactly the
    streams that opened are deleted, in reverse order; when it ends in any
    other way no stream is deleted. *)
Theorem X14_opening_is_all_or_nothing {W : Type} (E : Collab W)
    (K : TestNumbers) (bld : Build) (cfg : TestConfig) (fuel : nat)
    (PortNext : string -> string) (in_port out_port : string) (w : W) :
  let r := RunTest E K bld cfg fuel PortNext in_port out_port w in
  let n := Z.to_nat (nstreams_of K (u8 (dev_TestNumber E w))
                                 (read_testArg E w)) in
  exists m,
    (m <= n)%nat
    /\ (opens (run_trace r) = all_true m
        \/ (opens (run_trace r) = all_true m ++ [(m, false)]
            /\ (m < n)%nat /\ outcome r = Returned 1))
    /\ (ticks r <> [] -> m = n /\ opens (run_trace r) = all_true n)
    /\ deletes (run_trace r)
       = match outcome r with
         | Returned rc => if rc =? 1 then rev (seq 0 m) else []
         | _ => []
         end.
Proof.
  intros r n.
  destruct (run_trace_setup_readings E K bld cfg fuel PortNext in_port
              out_port w) as (Ho & Hd & _).
  fold r in Ho, Hd. rewrite Ho, Hd.
  exact (run_opens E K bld cfg fuel PortNext in_port out_port w).
Qed.

(** X15. A serial port is opened only in a Streams test with serial ports
    preferred and suspend testing off, and stream [idx] is then given the
    input and output port names advanced [idx] times by [PortNext]. *)
Theorem X15_serial_ports_advance_per_stream {W : Type} (E : Collab W)
    (K : TestNumbers) (bld : Build) (cfg : TestConfig) (fuel : nat)
    (PortNext : string -> string) (in_port out_port : string) (w : W)
    (idx : nat) (a b : string) (ok : bool) :
  In (EvSerialOpen idx a b ok)
     (run_trace (RunTest E K bld cfg fuel PortNext in_port out_port w)) ->
  a = Nat.iter idx PortNext in_port
  /\ b = Nat.iter idx PortNext out_port
  /\ u8 (dev_TestNumber E w) = kUsbTestNumberStreams K
  /\ serial cfg = true /\ suspending cfg = false.
Proof.
  intros Hin. apply in_serial_opens in Hin.
  destruct (run_trace_setup_readings E K bld cfg fuel PortNext in_port
              out_port w) as (_ & _ & Hs).
  rewrite Hs in Hin.
  exact (run_serial_ports E K bld cfg fuel PortNext in_port out_port w
           idx a b Hin).
Qed.

Lemma X15_witness :
  ("/dev/ttyUSB0'" = Nat.iter 1 Bench.next_port "/dev/ttyUSB0")%string
  /\ ("/dev/ttyUSB0'" = Nat.iter 1 Bench.next_port "/dev/ttyUSB0")%string
  /\ u8 (dev_TestNumber Bench.collab Runs.two_streams)
     = kUsbTestNumberStreams Bench.numbers
  /\ serial Bench.with_serial = true /\ suspending Bench.with_serial = false.
Proof.
  apply (X15_serial_ports_advance_per_stream Bench.collab Bench.numbers
           Bench.serial_only Bench.with_serial 6 Bench.next_port
           "/dev/ttyUSB0" "/dev/ttyUSB0" Runs.two_streams 1 _ _ true).
  vm_compute. tauto.
Defined.

(** X16. With [PortNext] itself advancing the names, the serial streams of
    a test started on ports named by a text without digits followed by the
    numbers [k] and [l] are opened on the ports named by the same texts
    followed by [k + idx] and [l + idx], as long as these names fit the
    buffers of [FILENAME_MAX] bytes and the numbers advanced are at most
    [INT_MAX]. *)
Theorem X16_serial_streams_count_up_the_ports {W : Type} (E : Collab W)
    (K : TestNumbers) (bld : Build) (cfg : TestConfig) (fuel : nat)
    (FILENAME_MAX : nat) (pre_in pre_out : string) (k l : Z) (w : W)
    (idx : nat) (a b : string) (ok : bool) :
  In (EvSerialOpen idx a b ok)
     (run_trace (RunTest E K bld cfg fuel (PortNext_in FILENAME_MAX)
                         (pre_in ++ decimal k) (pre_out ++ decimal l) w)) ->
  numbered_names FILENAME_MAX pre_in k idx ->
  numbered_names FILENAME_MAX pre_out l idx ->
  a = (pre_in ++ decimal (k + Z.of_nat idx))%string
  /\ b = (pre_out ++ decimal (l + Z.of_nat idx))%string.
Proof.
  intros Hin (Hp1 & Hk1 & Hm1 & Hf1) (Hp2 & Hk2 & Hm2 & Hf2).
  apply in_serial_opens in Hin.
  destruct (run_trace_setup_readings E K bld cfg fuel
              (PortNext_in FILENAME_MAX) (pre_in ++ decimal k)
              (pre_out ++ decimal l) w) as (_ & _ & Hs).
  rewrite Hs in Hin.
  destruct (run_serial_ports E K bld cfg fuel _ _ _ w idx a b Hin)
    as (-> & -> & _).
  split; apply PortNext_in_iter; assumption.
Qed.

Lemma X16_witness :
  ("/dev/ttyUSB1" = "/dev/ttyUSB" ++ decimal (0 + Z.of_nat 1))%string
  /\ ("/dev/ttyUSB1" = "/dev/ttyUSB" ++ decimal (0 + Z.of_nat 1))%string.
Proof.
  assert (Hn : numbered_names 4096 "/dev/ttyUSB" 0 1).
  { split; [reflexivity|]. split; [lia|]. split; [vm_compute; discriminate|].
    intros j Hj. assert (C : j = 0%nat \/ j = 1%nat) by lia.
    destruct C as [-> | ->]; vm_compute; lia. }
  apply (X16_serial_streams_count_up_the_ports Bench.collab Bench.numbers
           Bench.serial_only Bench.with_serial 6 4096 "/dev/ttyUSB"
           "/dev/ttyUSB" 0 0 Runs.two_streams 1 _ _ true);
    [|exact Hn | exact Hn].
  vm_compute. tauto.
Defined.

(** X17. Whenever the stream count is not zero, the per-stream transfer
    size is the 16 MiB of the test shared out and rounded up: the streams
    together cover the whole transfer, with less than one byte per stream
    to spare. *)
Theorem X17_transfer_is_shared_rounding_up (K : TestNumbers) (testNum : Z)
    (testArg : list Z) :
  let n := nstreams_of K testNum testArg in
  n <> 0 ->
  exists tb,
    transfer_share n = Some tb
    /\ kTransferBytes <= n * tb < kTransferBytes + n.
Proof.
  intros n Hn. pose proof (nstreams_of_range K testNum testArg) as Hr.
  fold n in Hr. unfold transfer_share.
  destruct (Z.eqb_spec n 0) as [|_]; [contradiction|].
  eexists. split; [reflexivity|].
  assert (C : n = 1 \/ n = 2 \/ n = 3 \/ n = 4 \/ n = 5 \/ n = 6 \/ n = 7
              \/ n = 8 \/ n = 9 \/ n = 10 \/ n = 11 \/ n = 12 \/ n = 13
              \/ n = 14 \/ n = 15) by lia.
  repeat (destruct C as [-> | C]; [vm_compute; split; congruence|]).
  rewrite C. vm_compute. split; congruence.
Qed.

Lemma X17_witness :
  exists tb,
    transfer_share (nstreams_of Bench.numbers 1 [3; 0; 0; 0]) = Some tb
    /\ kTransferBytes <= nstreams_of Bench.numbers 1 [3; 0; 0; 0] * tb
       < kTransferBytes + nstreams_of Bench.numbers 1 [3; 0; 0; 0].
Proof.
  apply (X17_transfer_is_shared_rounding_up Bench.numbers 1 [3; 0; 0; 0]).
  discriminate.
Defined.

(** ** The program *)



(** One end of [main]: the calls made are a list written out, and each
    part of the statement is read off it. *)
Ltac read_calls H :=
  simpl in H; repeat (destruct H as [H|H]; [try discriminate H|]);
  try contradiction.




(** ** The exit status of [RunTest] *)

Section ExitStatus.
Context {W : Type}.
Variable E : Collab W.
Variable cfg : TestConfig.

(** The servicing loop fails exactly when one of its [Service()] calls
    does. *)
Lemma service_streams_failed (idxs : list nat) :
  forall v w v' w' t,
    service_streams E idxs v w = (v', w', t) ->
    failed v = false ->
    existsb is_failed_service t = failed v'.
Proof.
  induction idxs as [|i idxs IH]; intros v w v' w' t H Hf.
  - inversion H; subst. simpl. auto.
  - simpl in H. unfold bind, call in H.
    destruct (stream_Service E i w) as [ok w1].
    destruct ok; simpl in H.
    + destruct (stream_TransferBytes E i w1) as [tb w2].
      destruct (stream_BytesRecvd E i w2) as [rv w3].
      destruct (stream_BytesSent E i w3) as [sn w4].
      destruct (stream_Completed E i w4) as [c w5].
      match type of H with
      | context [service_streams E idxs ?v0 w5] =>
          specialize (IH v0 w5);
          destruct (service_streams E idxs v0 w5) as [[v1 w6] t1]
      end.
      specialize (IH _ _ _ eq_refl Hf).
      inversion H; subst; clear H. simpl. exact IH.
    + inversion H; subst; clear H. reflexivity.
Qed.

(** A tick fails exactly when one of its [Service()] calls does. *)
Lemma tick_failed_service (n : nat) (st pb : Z) (w : W) (te : TickEnd)
    (w' : W) (evs : list Event) :
  tick E cfg n st pb w = (te, w', evs) ->
  existsb is_failed_service evs = failed (tk_vars te).
Proof.
  intros Htick.
  assert (Htimer : forall tm, Forall (fun e => is_timer_event e = true) tm ->
                              existsb is_failed_service tm = false).
  { intros tm Htm. apply (existsb_outside _ is_timer_event); [|exact Htm].
    intros []; simpl; congruence. }
  assert (Hstops : existsb is_failed_service (map EvStop (seq 0 n)) = false).
  { apply (existsb_outside _
             (fun e => match e with EvStop _ => true | _ => false end));
      [intros []; simpl; congruence | apply Forall_map_all; reflexivity]. }
  assert (Htail : forall v tail,
             tail_trace n v pb te tail ->
             existsb is_failed_service tail
             = negb (failed v) && failed (tk_vars te)).
  { intros v tail
      [(-> & _ & [(-> & ->)|(-> & ->)])
      |(-> & -> & [(_ & -> & _)|(_ & -> & _)])];
      simpl; rewrite ?Hstops; reflexivity. }
  destruct (tk_state te) eqn:Hs.
  { destruct (tick_streaming_parts E cfg _ _ _ _ _ _ _ Htick Hs)
      as (v & w0 & w1 & svc & tm & tail & Hsvc & -> & Htm & Htl & _).
    pose proof (service_streams_failed _ _ _ _ _ _ Hsvc eq_refl) as Hfv.
    simpl. rewrite !existsb_app, Hfv,
      (Htimer _ (timer_trace_events cfg _ _ _ _ _ Htm)), (Htail _ _ Htl).
    destruct Htl as [(Hf & _ & [(Hv & _)|(Hv & _)])|(Hf & Hv & _)];
      rewrite Hf, Hv; reflexivity. }
  all: assert (Hne : tk_state te <> StateStreaming)
         by (rewrite Hs; discriminate);
    destruct (tick_waiting_parts E cfg _ _ _ _ _ _ _ Htick Hne)
      as (e & tail & Htl & [(_ & -> & _)|(_ & ->)]);
    simpl; rewrite ?existsb_app, ?(Htail _ _ Htl); simpl; try reflexivity;
    (rewrite (Htimer (transition_calls n (tk_state te) (tk_start_time te)));
     [reflexivity|]);
    rewrite Hs; simpl; repeat constructor;
    try (apply Forall_app; split; repeat constructor);
    apply Forall_map_all; reflexivity.
Qed.

(** The loop ends in failure exactly when one of its [Service()] calls
    failed. *)
Lemma main_loop_failed_service (fuel n : nat) :
  forall st pb w,
    existsb is_failed_service
      (List.concat (map snd (lr_ticks (main_loop E cfg fuel n st pb w))))
    = match lr_exit (main_loop E cfg fuel n st pb w) with
      | ExitFailed => true
      | _ => false
      end.
Proof.
  induction fuel as [|fuel IH]; intros st pb w; [reflexivity|].
  simpl. destruct (tick E cfg n st pb w) as [[te w1] evs] eqn:Ht.
  pose proof (tick_failed_service _ _ _ _ _ _ _ Ht) as Hfs.
  destruct (failed (tk_vars te)) eqn:Hf.
  - simpl. rewrite app_nil_r. exact Hfs.
  - destruct (done (tk_vars te)).
    + simpl. rewrite app_nil_r. exact Hfs.
    + simpl. rewrite existsb_app, Hfs, IH. reflexivity.
Qed.

End ExitStatus.

Section ExitStatusOfRun.
Context {W : Type}.
Variable E : Collab W.
Variable K : TestNumbers.
Variable bld : Build.
Variable cfg : TestConfig.
Variables (fuel : nat) (PortNext : string -> string).
Variables (in_port out_port : string) (w : W).

Let r := RunTest E K bld cfg fuel PortNext in_port out_port w.

(** Whether a [Service()] call failed in a run, by the way the run ended. *)
Lemma run_failed_service :
  existsb is_failed_service (run_trace r)
  = match outcome r with
    | Returned rc => rc =? 3
    | _ => false
    end.
Proof.
  pose proof (RunTest_phases E K bld cfg fuel PortNext in_port out_port w)
    as [Hev _]. fold r in Hev.
  assert (Hsetup : existsb is_failed_service (setup_trace r) = false).
  { apply (existsb_outside _ is_setup_event); [|exact Hev].
    intros []; simpl; congruence. }
  unfold run_trace. rewrite !existsb_app, Hsetup. simpl.
  destruct (RunTest_inv E K bld cfg fuel PortNext in_port out_port w)
    as [[_ Hr]|[_ (tb & o & w1 & t1 & _ & _ & Hcases)]];
    fold r in Hr || fold r in Hcases.
  { rewrite Hr. reflexivity. }
  destruct Hcases as [[_ Hr]|[[_ Hr]|[_ (start & w2 & Hloop)]]];
    try (rewrite Hr; reflexivity).
  cbv zeta in Hloop. destruct Hloop as (_ & Hticks & Hexit).
  rewrite Hticks, main_loop_failed_service.
  destruct Hexit as [(-> & -> & ->)|[(-> & -> & ->)|(-> & -> & t & ->)]];
    simpl; try reflexivity.
  rewrite existsb_app. simpl. rewrite orb_false_r.
  apply (existsb_outside _
           (fun e => match e with EvStop _ => true | _ => false end));
    [intros []; simpl; congruence | apply Forall_map_all; reflexivity].
Qed.

(** Whether an [Open()] call failed in a run. *)
Lemma run_failed_open :
  existsb is_failed_open (run_trace r) = true -> outcome r = Returned 1.
Proof.
  intros H.
  destruct (run_trace_setup_readings E K bld cfg fuel PortNext in_port
              out_port w) as (Ho & _).
  fold r in Ho.
  destruct (run_opens E K bld cfg fuel PortNext in_port out_port w)
    as (m & _ & [Hall|(_ & _ & Hrc)] & _); fold r in Hall || fold r in Hrc;
    [|exact Hrc].
  exfalso. rewrite <- Ho in Hall.
  apply existsb_exists in H. destruct H as (e & Hin & He).
  assert (Hk : exists k, In (k, false) (opens (run_trace r))).
  { destruct e as [| | idx a b [] | idx [] | | | | | | | | | | | | | | | | | | | | | |];
      try discriminate He; exists idx; unfold opens; apply in_flat_map;
      eexists; (split; [exact Hin | left; reflexivity]). }
  destruct Hk as [k Hk]. rewrite Hall in Hk.
  apply in_map_iff in Hk. destruct Hk as (j & Hj & _). discriminate.
Qed.

End ExitStatusOfRun.

(** X19. [RunTest] returns only 0, 1 or 3.  It returns 3 exactly when a
    [Service()] call, of a stream or of the device, failed; it returns 1
    whenever an [Open()] call failed; so a run that returns 0 saw no such
    call fail. *)
Theorem X19_exit_status_of_RunTest {W : Type} (E : Collab W)
    (K : TestNumbers) (bld : Build) (cfg : TestConfig) (fuel : nat)
    (PortNext : string -> string) (in_port out_port : string) (w : W) :
  let r := RunTest E K bld cfg fuel PortNext in_port out_port w in
  (forall rc, outcome r = Returned rc -> rc = 0 \/ rc = 1 \/ rc = 3)
  /\ (outcome r = Returned 3
      <-> existsb is_failed_service (run_trace r) = true)
  /\ (existsb is_failed_open (run_trace r) = true -> outcome r = Returned 1)
  /\ (outcome r = Returned 0 ->
      existsb is_failed_service (run_trace r) = false
      /\ existsb is_failed_open (run_trace r) = false).
Proof.
  intros r.
  pose proof (run_failed_service E K bld cfg fuel PortNext in_port out_port w)
    as Hs.
  pose proof (run_failed_open E K bld cfg fuel PortNext in_port out_port w)
    as Ho.
  fold r in Hs, Ho.
  assert (Hrc : forall rc, outcome r = Returned rc ->
                           rc = 0 \/ rc = 1 \/ rc = 3).
  { intros rc Hrc.
    destruct (RunTest_inv E K bld cfg fuel PortNext in_port out_port w)
      as [[_ Hr]|[_ (tb & o & w1 & t1 & _ & _ & Hcases)]];
      fold r in Hr || fold r in Hcases.
    { rewrite Hr in Hrc. discriminate. }
    destruct Hcases as [[_ Hr]|[[_ Hr]|[_ (start & w2 & Hloop)]]];
      try (rewrite Hr in Hrc; simpl in Hrc; injection Hrc as <-; auto);
      try (rewrite Hr in Hrc; discriminate).
    cbv zeta in Hloop. destruct Hloop as (_ & _ & Hexit).
    destruct Hexit as [(_ & He & _)|[(_ & He & _)|(_ & He & _)]];
      rewrite He in Hrc; try discriminate; injection Hrc as <-; auto. }
  split; [exact Hrc|]. split; [|split].
  - rewrite Hs. split.
    + intros ->. reflexivity.
    + destruct (outcome r) as [rc| | |]; try discriminate.
      intros H3. apply Z.eqb_eq in H3. congruence.
  - exact Ho.
  - intros H0. split.
    + rewrite Hs, H0. reflexivity.
    + destruct (existsb is_failed_open (run_trace r)); [|reflexivity].
      specialize (Ho eq_refl). congruence.
Qed.

(** ** Port names on the command line *)

Lemma tolower_dash (c : ascii) : tolower c = "-"%char -> c = "-"%char.
Proof.
  destruct c as [[] [] [] [] [] [] [] []]; vm_compute; intros H;
    try reflexivity; discriminate H.
Qed.

(** The one argument that the loop of [main] reads as [--device]. *)
Lemma device_option (a : string) :
  Ascii.eqb (peek a) "-" = true ->
  Ascii.eqb (tolower (peek (skip a))) "-"
  && String.eqb (option_value a) "device"
  = String.eqb a "--device".
Proof.
  intros H1. apply Ascii.eqb_eq in H1.
  destruct (String.eqb_spec a "--device") as [->|Hne]; [reflexivity|].
  apply andb_false_iff.
  destruct (Ascii.eqb_spec (tolower (peek (skip a))) "-") as [H2|H2];
    [right | left; reflexivity].
  apply tolower_dash in H2.
  destruct (String.eqb_spec (option_value a) "device") as [H3|H3];
    [|reflexivity].
  exfalso. apply Hne.
  destruct a as [|c1 [|c2 rest]]; try discriminate.
  simpl in H1, H2, H3. unfold option_value in H3. simpl in H3.
  subst. reflexivity.
Qed.

(** The ports gathered by the loop of [main] are the port arguments, in
    order, after those it started with. *)
Lemma parse_args_ports_bounded (k : nat) :
  forall args o o',
    (List.length args <= k)%nat ->
    parse_args args o = inl o' ->
    (o_out_port o = None -> o_in_port o = None) ->
    (o_out_port o' = None -> o_in_port o' = None)
    /\ ports_set o' = (ports_set o ++ port_args args)%list.
Proof.
  induction k as [|k IH]; intros args o o' Hlen H Hwf;
    (destruct args as [|x args];
     [injection H as <-; rewrite app_nil_r; auto|]);
    simpl in Hlen; [lia|].
  assert (Hl : (List.length args <= k)%nat) by lia.
  simpl in H. simpl port_args.
  destruct (Ascii.eqb (peek x) "-") eqn:Hdash.
  - pose proof (device_option x Hdash) as Hdev.
    destruct (Ascii.eqb (tolower (peek (skip x))) "-") eqn:Hsw.
    + assert (Hnot : forall c, c <> "-"%char ->
                Ascii.eqb (tolower (peek (skip x))) c = false).
      { intros c Hc. apply Ascii.eqb_eq in Hsw. rewrite Hsw.
        apply Ascii.eqb_neq. congruence. }
      rewrite !Hnot in H by discriminate.
      simpl in Hdev. rewrite <- Hdev.
      destruct (String.eqb (option_value x) "device"); [|discriminate].
      destruct args as [|b rest]; [discriminate|].
      destruct (GetDevice b _ _) as [[[] bus] addr]; [|discriminate].
      simpl in Hl.
      assert (Hl' : (List.length rest <= k)%nat) by lia.
      exact (IH _ _ _ Hl' H Hwf).
    + simpl in Hdev. rewrite <- Hdev.
      repeat match type of H with
             | context [if Ascii.eqb ?a ?b then _ else _] =>
                 destruct (Ascii.eqb a b)
             end;
        try discriminate;
        try (destruct (GetDevice (option_value x) _ _) as [[[] bus] addr];
             [|discriminate]);
        exact (IH _ _ _ Hl H Hwf).
  - destruct (o_out_port o) as [op|] eqn:Hout.
    + destruct (o_in_port o) as [ip|] eqn:Hin; [discriminate|].
      destruct (IH _ _ _ Hl H) as [Hwf' Hp]; [simpl; discriminate|].
      split; [exact Hwf'|]. rewrite Hp. unfold ports_set. simpl.
      rewrite Hout, Hin. reflexivity.
    + destruct (IH _ _ _ Hl H) as [Hwf' Hp]; [simpl; discriminate|].
      split; [exact Hwf'|]. rewrite Hp. unfold ports_set. simpl.
      rewrite Hout, (Hwf eq_refl). reflexivity.
Qed.

Lemma parse_args_ports (cfg : TestConfig) (args : list string)
    (o : Options) :
  parse_args args (initial_options cfg) = inl o ->
  o_out_port o = nth_error (port_args args) 0
  /\ o_in_port o = nth_error (port_args args) 1
  /\ (List.length (port_args args) <= 2)%nat.
Proof.
  intros H.
  destruct (parse_args_ports_bounded (List.length args) args _ _
              (Nat.le_refl _) H) as [Hwf Hp]; [reflexivity|].
  simpl in Hp. rewrite <- Hp. unfold ports_set.
  destruct (o_out_port o) as [a|]; [|rewrite (Hwf eq_refl); simpl; auto].
  destruct (o_in_port o) as [b|]; simpl; auto.
Qed.

(** What [main] hands to [RunTest]. *)
Lemma main_RunTest_call {W : Type} (E : Collab W) (L : DeviceLife W)
    (K : TestNumbers) (bld : Build) (fuel : nat)
    (PortNext : string -> string) (cfg : TestConfig) (args : list string)
    (w : W) (c : TestConfig) (ip op : string) (r : Run) :
  In (MvRunTest c ip op r) (snd (main E L K bld fuel PortNext cfg args w)) ->
  exists o,
    parse_args args (initial_options cfg) = inl o
    /\ c = o_cfg o
    /\ ip = port_or_default (o_in_port o)
    /\ op = port_or_default (o_out_port o).
Proof.
  unfold main. intros H.
  destruct (parse_args args (initial_options cfg)) as [o|[rc a]];
    [|destruct H as [H|[]]; discriminate H].
  exists o. split; [reflexivity|].
  destruct (dev_Init L _ _ _ _ _ w) as [[] w1]; simpl in H;
    [|read_calls H].
  destruct (dev_Open L w1) as [[] w2]; simpl in H; [|read_calls H].
  destruct (dev_ReadTestDesc L w2) as [[] w3]; simpl in H; [|read_calls H].
  match type of H with
  | context [outcome ?run] => destruct (outcome run)
  end; read_calls H; injection H as <- <- <- _; auto.
Qed.

(** X20. On the command line the first port name is the output port and
    the second the input port, wherever the options stand between them;
    a port that is not named is /dev/ttyUSB0.  [RunTest] is not reached
    with more than two port names. *)
Theorem X20_port_names_by_position {W : Type} (E : Collab W)
    (L : DeviceLife W) (K : TestNumbers) (bld : Build) (fuel : nat)
    (PortNext : string -> string) (cfg : TestConfig) (args : list string)
    (w : W) (c : TestConfig) (ip op : string) (r : Run) :
  In (MvRunTest c ip op r) (snd (main E L K bld fuel PortNext cfg args w)) ->
  op = port_or_default (nth_error (port_args args) 0)
  /\ ip = port_or_default (nth_error (port_args args) 1)
  /\ (List.length (port_args args) <= 2)%nat.
Proof.
  intros H.
  destruct (main_RunTest_call E L K bld fuel PortNext cfg args w c ip op r H)
    as (o & Hp & _ & -> & ->).
  destruct (parse_args_ports cfg args o Hp) as (-> & -> & Hlen).
  auto.
Qed.

Lemma X20_witness :
  "/dev/ttyUSB7"%string
  = port_or_default
      (nth_error (port_args ["-v1"; "/dev/ttyUSB7"; "--device"; "1:2"]%string)
                 0)
  /\ default_port
     = port_or_default
         (nth_error
            (port_args ["-v1"; "/dev/ttyUSB7"; "--device"; "1:2"]%string) 1)
  /\ (List.length (port_args ["-v1"; "/dev/ttyUSB7"; "--device"; "1:2"]%string)
      <= 2)%nat.
Proof.
  apply (X20_port_names_by_position Bench.collab
           (MoreRuns.life true true true) Bench.numbers Bench.libusb 3
           Bench.next_port Bench.plain
           ["-v1"; "/dev/ttyUSB7"; "--device"; "1:2"]%string
           MoreRuns.three_streams
           (mkConfig true true true true false false)
           default_port "/dev/ttyUSB7"%string
           (RunTest Bench.collab Bench.numbers Bench.libusb
              (mkConfig true true true true false false) 3 Bench.next_port
              default_port "/dev/ttyUSB7"%string MoreRuns.three_streams)).
  vm_compute. auto 10.
Defined.

(** ** The log and the world *)

